(** * GRBackup: the synchronisation engine of [grbackup.py], embedded in Rocq

    The development follows the script top-down:

    - Python primitives the script relies on ([int] of a string, [str] of
      an integer, truncation of a float);
    - [gr_param], its constructor and [gr_param.load] (lines 82-167);
    - the configuration loop (lines 246-266);
    - the run proper, from the counters of line 308 to the summary of
      line 437: reading the date of the last synchronisation, opening the
      connection, listing, the per-file loop with its backup / download /
      restore protocol, closing, saving the date, reporting.

    Of the logging set-up (lines 270-306) the model keeps the handlers
    of lines 273-291: which log files are open ([add_handlers]) and what
    each handler appends to its file at every logging call.  The banner
    of line 294 concatenates [version], a name the module never binds
    (line 56 binds [VERSION]); everything below describes the code from
    line 308 on.  Of the e-mail report (lines 439-465) the model keeps
    how its [try] block ends, with [humanstatus] and [humanbytes];
    [copyfilter] (lines 169-195), which works on glob patterns over
    directory trees, is not modelled.

    A float ([time.time()], the arithmetic of [humanduration]) is kept
    as the rational it stands for, and the operations of
    [humanduration] round as binary64 arithmetic does.  A file holds a
    text; [int()] of a text is modelled on ASCII and left to the
    environment elsewhere.  The two log files are kept apart from the
    files the script reaches by path. *)

From Stdlib Require Import ZArith QArith Qround Qabs Qpower.
From Stdlib Require Import String Ascii List Lia Lqa.
From Stdlib Require Import DecimalString DecimalPos.
From stdpp Require Import base strings gmap.

Open Scope Z_scope.

(* ===================================================================== *)
(** ** Python primitives *)
(* ===================================================================== *)

Module Py.

(** Exceptions that can reach the top level of the script. *)
Inductive exn : Type :=
| IOError          (* = OSError in Python 3 *)
| ValueError
| OverflowError
| AttributeError
| NameError
| SFTPError.       (* anything raised by the paramiko session *)

(** [str(n)] for an integer. *)
Definition str (n : Z) : string := NilZero.string_of_int (Z.to_int n).

(** White space skipped by [int()] around an ASCII literal:
    tab, LF, VT, FF, CR and space. *)
Definition is_space (c : ascii) : bool :=
  let n := nat_of_ascii c in
  ((9 <=? n)%nat && (n <=? 13)%nat) || (n =? 32)%nat.

Definition digit_of (c : ascii) : option Z :=
  let n := nat_of_ascii c in
  if ((48 <=? n)%nat && (n <=? 57)%nat) then Some (Z.of_nat (n - 48)) else None.

Fixpoint lstrip (s : list ascii) : list ascii :=
  match s with
  | c :: r => if is_space c then lstrip r else s
  | [] => []
  end.

Definition strip (s : list ascii) : list ascii :=
  rev (lstrip (rev (lstrip s))).

(** Decimal digits, a single underscore being allowed between two
    digits.  [prev] tells whether the previous character was a digit. *)
Fixpoint digits (acc : Z) (prev : bool) (s : list ascii) : option Z :=
  match s with
  | [] => if prev then Some acc else None
  | c :: r =>
      match digit_of c with
      | Some d => digits (10 * acc + d) true r
      | None =>
          if Ascii.eqb c "_"%char && prev then digits acc false r else None
      end
  end.

(** The texts on which [int] below is Python's [int()]: ASCII characters
    only.  Outside ASCII Python also reads the decimal digits and skips
    the white space of other scripts, after a decoding of the file that
    depends on the platform: for such text the environment gives the
    result (see [int_of_text]). *)
Definition is_ascii (s : string) : bool :=
  forallb (fun c => (nat_of_ascii c <? 128)%nat) (list_ascii_of_string s).

(** Longest text whose digits [int()] converts whatever the version of
    CPython: since 3.11 a literal of more decimal digits raises
    [ValueError] ([sys.get_int_max_str_digits()], 4300 by default). *)
Definition int_max_str_digits : nat := 4300.

(** [int(s)] for an ASCII text [s]: white space around, an optional
    sign, decimal digits with single underscores between them.  [None]
    stands for the [ValueError] that [int] raises. *)
Definition int (s : string) : option Z :=
  match strip (list_ascii_of_string s) with
  | "-"%char :: r => Z.opp <$> digits 0 false r
  | "+"%char :: r => digits 0 false r
  | r => digits 0 false r
  end.

(** [int(x)] for a float [x]: truncation towards zero. *)
Definition int_of_float (x : Q) : Z :=
  if Qle_bool 0 x then Qfloor x else Qceiling x.

End Py.

(* ===================================================================== *)
(** ** Configuration: [gr_param] and the YAML fragments *)
(* ===================================================================== *)

(** The attributes of [gr_param], typed as [__init__] initialises them. *)
Record gr_param : Type := {
  name : string;
  label : string;
  last_exec_filename : string;
  log_filename : string;
  log_console : bool;
  log_email : bool;
  log_file : bool;
  debug : bool;
  host : string;
  port : Z;
  password : string;
  username : string;
  sourcefolder : string;
  targetfolder : string;
  sync : bool;
  simulation : bool;
  ssl_port : Z;
  smtp_server : string;
  smtp_login : string;
  smtp_password : string;
  source_email_address : string;
  dest_email_address : string;
  process_folders : bool
}.

(** [gr_param.__init__(self, name)] (lines 83-106); [cwd] is [os.getcwd()]. *)
Definition gr_param_init (cwd : string) (n : string) : gr_param := {|
  name := n;
  label := n;
  last_exec_filename := cwd +:+ "/grbackup_" +:+ n +:+ "_last.txt";
  log_filename := cwd +:+ "/grbackup_" +:+ n +:+ ".log";
  log_console := true;
  log_email := false;
  log_file := false;
  debug := false;
  host := "undefined_server";
  port := 22;
  password := "undefined_password";
  username := "undefined_login";
  sourcefolder := "";
  targetfolder := cwd +:+ "/grbackup_" +:+ n +:+ "/";
  sync := true;
  simulation := false;
  ssl_port := 465;
  smtp_server := "undefined_server";
  smtp_login := "undefined_login";
  smtp_password := "undefined_password";
  source_email_address := "undefined_source_email";
  dest_email_address := "undefined_dest_email";
  process_folders := false
|}.

(** One YAML document of [grbackup.conf]: a mapping whose recognised keys
    are all optional, the sections being mappings of optional keys in
    turn.  [None] is "key not in the mapping". *)
Record files_section : Type := {
  files__process_subfolders : option bool }.

Record log_section : Type := {
  log__filename : option string;
  log__console : option bool;
  log__email : option bool;
  log__file : option bool;
  log__debug : option bool }.

Record source_section : Type := {
  source__host : option string;
  source__port : option Z;
  source__username : option string;
  source__password : option string;
  source__folder : option string }.

Record target_section : Type := {
  target__folder : option string }.

Record execmode_section : Type := {
  execmode__sync : option bool;
  execmode__simulation : option bool }.

Record emailreport_section : Type := {
  emailreport__ssl_port : option Z;
  emailreport__server : option string;
  emailreport__username : option string;
  emailreport__password : option string;
  emailreport__source_address : option string;
  emailreport__dest_address : option string }.

Record fragment : Type := {
  data__name : option string;
  data__label : option string;
  data__last_exec_filename : option string;
  data__files : option files_section;
  data__log : option log_section;
  data__source : option source_section;
  data__target : option target_section;
  data__execmode : option execmode_section;
  data__emailreport : option emailreport_section }.

(** [if key in mapping: self.attr = mapping[key]]. *)
Definition assign_if_in {A : Type} (entry : option A) (attr : A) : A :=
  match entry with
  | Some v => v
  | None => attr
  end.

(** [if section in data: sec = data[section]; if key in sec: ...]. *)
Definition in_section {S A : Type} (sec : option S) (key : S -> option A)
  : option A :=
  match sec with
  | Some s => key s
  | None => None
  end.

(** [gr_param.load(self, data)] (lines 108-167). *)
Definition load (self : gr_param) (data : fragment) : gr_param := {|
  name := assign_if_in (data__name data) (name self);
  label := assign_if_in (data__label data) (label self);
  last_exec_filename :=
    assign_if_in (data__last_exec_filename data) (last_exec_filename self);
  process_folders :=
    assign_if_in (in_section (data__files data) files__process_subfolders)
                 (process_folders self);
  log_filename :=
    assign_if_in (in_section (data__log data) log__filename) (log_filename self);
  log_console :=
    assign_if_in (in_section (data__log data) log__console) (log_console self);
  log_email :=
    assign_if_in (in_section (data__log data) log__email) (log_email self);
  log_file :=
    assign_if_in (in_section (data__log data) log__file) (log_file self);
  debug :=
    assign_if_in (in_section (data__log data) log__debug) (debug self);
  host :=
    assign_if_in (in_section (data__source data) source__host) (host self);
  port :=
    assign_if_in (in_section (data__source data) source__port) (port self);
  username :=
    assign_if_in (in_section (data__source data) source__username) (username self);
  password :=
    assign_if_in (in_section (data__source data) source__password) (password self);
  sourcefolder :=
    assign_if_in (in_section (data__source data) source__folder) (sourcefolder self);
  targetfolder :=
    assign_if_in (in_section (data__target data) target__folder) (targetfolder self);
  sync :=
    assign_if_in (in_section (data__execmode data) execmode__sync) (sync self);
  simulation :=
    assign_if_in (in_section (data__execmode data) execmode__simulation)
                 (simulation self);
  ssl_port :=
    assign_if_in (in_section (data__emailreport data) emailreport__ssl_port)
                 (ssl_port self);
  smtp_server :=
    assign_if_in (in_section (data__emailreport data) emailreport__server)
                 (smtp_server self);
  smtp_login :=
    assign_if_in (in_section (data__emailreport data) emailreport__username)
                 (smtp_login self);
  smtp_password :=
    assign_if_in (in_section (data__emailreport data) emailreport__password)
                 (smtp_password self);
  source_email_address :=
    assign_if_in (in_section (data__emailreport data) emailreport__source_address)
                 (source_email_address self);
  dest_email_address :=
    assign_if_in (in_section (data__emailreport data) emailreport__dest_address)
                 (dest_email_address self)
|}.

(** How the script leaves a stage: it goes on with a value, it calls
    [exit()], or an exception reaches the top level. *)
Inductive result (A : Type) : Type :=
| Ok (a : A)
| Exited
| Raised (e : Py.exn).
Arguments Ok {A} a.
Arguments Exited {A}.
Arguments Raised {A} e.

(** The variables of the configuration loop (lines 247-248 and the
    bindings made in the loop); [param] is unbound until a document has
    been read. *)
Record conf_vars : Type := {
  defaultparam : gr_param;
  load_count : nat;
  param : option gr_param }.

(** Body of [for data in yaml.load_all(...)] (lines 253-261). *)
Definition conf_body (selected_param : string) (v : conf_vars) (data : fragment)
  : conf_vars :=
  let load_count := S (load_count v) in
  if (load_count =? 1)%nat then
    let defaultparam := load (defaultparam v) data in
    {| defaultparam := defaultparam; load_count := load_count;
       param := Some defaultparam |}
  else
    let loadparam := load (defaultparam v) data in
    {| defaultparam := defaultparam v; load_count := load_count;
       param := if String.eqb selected_param (name loadparam)
                then Some loadparam else param v |}.

(** Lines 246-266.  [conf_file] is [None] when opening or parsing
    [grbackup.conf] raises (the bare [except] prints the error and calls
    [exit()]); otherwise it is the sequence of documents.  With no
    document at all [param] stays unbound and its first use (line 273)
    raises [NameError]. *)
Definition load_configuration (cwd selected_param : string)
  (conf_file : option (list fragment)) : result gr_param :=
  match conf_file with
  | None => Exited
  | Some docs =>
      let v := fold_left (conf_body selected_param) docs
                 {| defaultparam := gr_param_init cwd "default";
                    load_count := 0; param := None |} in
      let param := if (load_count v =? 1)%nat then Some (defaultparam v)
                   else param v in
      match param with
      | Some p => Ok p
      | None => Raised Py.NameError
      end
  end.

(* ===================================================================== *)
(** ** The world the script runs in *)
(* ===================================================================== *)

(** Attributes returned by [sftp.stat]. *)
Record SFTPAttributes : Type := {
  st_mode : Z;
  st_size : Z;
  st_mtime : Z }.

(** [stat.S_ISREG(mode)]: [(mode & 0o170000) == 0o100000]. *)
Definition S_ISREG (mode : Z) : bool := Z.land mode 61440 =? 32768.

(** What a call to [sftp.get(path, localpath)] does: it writes the whole
    remote content, or it raises, leaving the local path untouched
    ([GetFails None]) or holding what had been written so far
    ([GetFails (Some partial)], possibly empty). *)
Inductive get_outcome : Type :=
| GetOk (content : string)
| GetFails (left_behind : option string).

(** Everything the script does not control.  Local files are in the
    state ([fs] below); the environment says which operating-system
    calls fail, what the remote server answers and what the clock reads
    at its successive readings.  Where [time.ctime] is not defined it
    raises [OverflowError] (the value does not fit the platform's
    [time_t]) or [OSError], the class the script calls [IOError] (the C
    library refuses the value): [ctime_exn] says which.  What [int()]
    makes of a file whose content is not all ASCII depends on the
    encoding the platform decodes it with and on the digits and white
    space of its Unicode tables: [int_non_ascii] gives it, [None] being
    [ValueError] (of which the decoding error is a case).  The path of
    the e-mail log is built at line 286 from the working directory and a
    random number. *)
Record Env : Type := {
  clock : nat -> Q;                           (* n-th call of time.time() *)
  ctime_ok : Z -> bool;                       (* time.ctime defined there *)
  ctime_exn : Z -> Py.exn;                    (* what it raises elsewhere *)
  int_non_ascii : string -> option Z;         (* int() of non-ASCII text *)
  email_logfile : string;                     (* path built at line 286 *)
  read_fails : string -> bool;                (* open(f, "r") / read *)
  open_w_fails : string -> bool;              (* open(f, "w") *)
  write_fails : string -> bool;               (* write / close *)
  rename_fails : string -> string -> bool;    (* os.rename(src, dst) *)
  remove_fails : string -> bool;              (* os.remove(f) *)
  connect_ok : string -> Z -> string -> string -> bool;
  listdir : string -> option (list string);   (* sftp.listdir(folder) *)
  stat : string -> option SFTPAttributes;     (* sftp.stat(path) *)
  get : string -> get_outcome;                (* sftp.get(path, _) *)
  close_ok : bool }.

Inductive level : Type := DEBUG | INFO | ERROR | STDOUT.

(** [record.levelno >= handler.level] for a handler whose level is
    [threshold].  What [pprint] prints is not a log record: it reaches
    no handler. *)
Definition admits (threshold lv : level) : bool :=
  match lv, threshold with
  | STDOUT, _ => false
  | _, DEBUG => true
  | (INFO | ERROR), INFO => true
  | ERROR, ERROR => true
  | _, _ => false
  end.

(** One constructor per logging call of lines 308-437, carrying the
    values the call formats into its text; [STDOUT] records are the
    [pprint] calls of debug mode. *)
Inductive message : Type :=
| Get_date_last_download                       (* l.316 *)
| Unable_to_read_date (f : string)             (* l.322 *)
| END                                          (* "[END]" *)
| Date_last_download (t : Z)                   (* l.326 *)
| First_execution                              (* l.330 *)
| Open_connection_to (h : string)              (* l.335 *)
| Cannot_connect (h : string) (p : Z)          (* l.341 *)
| Connected (h : string)                       (* l.345 *)
| Get_list_of_file                             (* l.349 *)
| Cannot_get_list                              (* l.352 *)
| Items_in_remote_folder (n : nat)             (* l.356 *)
| Pprint_filelist (l : list string)            (* l.358 *)
| File_size (f : string) (size : Z)            (* l.369 *)
| Pprint_filestat (a : SFTPAttributes)         (* l.370 *)
| Skip_folder (f : string)                     (* l.378 *)
| Get_file (f : string) (mtime : Z)            (* l.383 *)
| Backup_previous_version (b : string)         (* l.388 *)
| Cannot_backup                                (* l.392 *)
| Error_when_downloading                       (* l.398 *)
| Restore_backup (b : string)                  (* l.402 *)
| OK_size (size : Z)                           (* l.407 *)
| Delete_backup (b : string)                   (* l.410 *)
| Simulation_get_file (f : string) (mtime : Z) (* l.413 *)
| Close_connection                             (* l.416 *)
| Unable_to_close                              (* l.421 *)
| Save_date_last_download                      (* l.425 *)
| Unable_to_save_date                          (* l.431 *)
| Date_last_download_saved (t : Z)             (* l.433 *)
| Finished (nb : Z) (size : Z) (duration_text : string). (* l.437 *)

(** Calls made on the remote session, in order. *)
Inductive remote_call : Type :=
| RConnect (h : string) (p : Z)
| RListdir (folder : string)
| RStat (path : string)
| RGet (path : string)
| RClose.

(** The mutable state:
    - [fs], the local files the script reaches by path (path to
      content);
    - the module-level counters of lines 308-310;
    - [log], every record handed to the logger, in order, with what
      [pprint] prints;
    - the number of clock readings made and the calls made on the
      remote session;
    - [fh] and [eh], the two file handlers that lines 273-291 attach to
      the logger: [fh] (level [DEBUG]) on [param.log_filename] when
      [param.log_file] is set, [eh] (level [INFO]) on the e-mail log
      when [param.log_email] is set.  [None] is a handler that is not
      attached; otherwise the field holds the records the handler has
      appended to its file since it was opened.

    The two log files are kept apart from [fs]: a handler writes
    through the stream it opened, and lines 308-437 reach neither file
    by path as long as the profile does not name the log file as its
    state file or inside the target folder.  The console handler [sh]
    writes no file and is not kept. *)
Record World : Type := {
  fs : gmap string string;
  nb_files_download : Z;
  nb_files_error : Z;
  tot_size : Z;
  log : list (level * message);
  ticks : nat;
  remote_calls : list remote_call;
  fh : option (list (level * message));
  eh : option (list (level * message)) }.

(** [Handler.handle] for a file handler and the records [l], in order:
    those its level admits are appended to its file. *)
Definition emit (threshold : level) (l : list (level * message))
  (handler : option (list (level * message)))
  : option (list (level * message)) :=
  match handler with
  | Some written =>
      Some (written ++ List.filter (fun r => admits threshold r.1) l)
  | None => None
  end.

Definition with_fs (f : gmap string string -> gmap string string) (w : World)
  : World :=
  {| fs := f (fs w); nb_files_download := nb_files_download w;
     nb_files_error := nb_files_error w; tot_size := tot_size w;
     log := log w; ticks := ticks w; remote_calls := remote_calls w;
     fh := fh w; eh := eh w |}.

(** The record [r] is logged: it joins [log] and is handled by the two
    file handlers, which append it to the log file ([fh], every level)
    and to the e-mail log ([eh], from [INFO] up) when they are
    attached. *)
Definition with_log (r : level * message) (w : World) : World :=
  {| fs := fs w; nb_files_download := nb_files_download w;
     nb_files_error := nb_files_error w; tot_size := tot_size w;
     log := log w ++ [r]; ticks := ticks w; remote_calls := remote_calls w;
     fh := emit DEBUG [r] (fh w); eh := emit INFO [r] (eh w) |}.

Definition with_tick (w : World) : World :=
  {| fs := fs w; nb_files_download := nb_files_download w;
     nb_files_error := nb_files_error w; tot_size := tot_size w;
     log := log w; ticks := S (ticks w); remote_calls := remote_calls w;
     fh := fh w; eh := eh w |}.

Definition with_call (c : remote_call) (w : World) : World :=
  {| fs := fs w; nb_files_download := nb_files_download w;
     nb_files_error := nb_files_error w; tot_size := tot_size w;
     log := log w; ticks := ticks w; remote_calls := remote_calls w ++ [c];
     fh := fh w; eh := eh w |}.

Definition with_counters (d e s : Z) (w : World) : World :=
  {| fs := fs w; nb_files_download := d; nb_files_error := e; tot_size := s;
     log := log w; ticks := ticks w; remote_calls := remote_calls w;
     fh := fh w; eh := eh w |}.

(** Lines 273-291: the file handlers attached for the profile, each
    with nothing written yet. *)
Definition add_handlers (param : gr_param) (w : World) : World :=
  {| fs := fs w; nb_files_download := nb_files_download w;
     nb_files_error := nb_files_error w; tot_size := tot_size w;
     log := log w; ticks := ticks w; remote_calls := remote_calls w;
     fh := if log_file param then Some [] else None;
     eh := if log_email param then Some [] else None |}.

(** *** The script monad: state plus abnormal termination *)

Definition M (A : Type) : Type := World -> result A * World.

Definition ret {A : Type} (a : A) : M A := fun w => (Ok a, w).

Definition bind {A B : Type} (m : M A) (k : A -> M B) : M B :=
  fun w =>
    match m w with
    | (Ok a, w') => k a w'
    | (Exited, w') => (Exited, w')
    | (Raised e, w') => (Raised e, w')
    end.

Declare Scope script_scope.
Delimit Scope script_scope with script.
Bind Scope script_scope with M.
Notation "'let*' x := m 'in' k" := (bind m (fun x => k))
  (at level 10, x name, m at level 100, k at level 200) : script_scope.
Notation "m >> k" := (bind m (fun _ => k))
  (at level 100, k at level 200, right associativity) : script_scope.
Open Scope script_scope.

Definition raise {A : Type} (e : Py.exn) : M A := fun w => (Raised e, w).

(** [exit()]. *)
Definition exit {A : Type} : M A := fun w => (Exited, w).

(** The protected part of a [try]: it hands its outcome to the
    [except] / [else] clauses that follow. *)
Definition try {A : Type} (m : M A) : M (result A) :=
  fun w => let (r, w') := m w in (Ok r, w').

Definition when (b : bool) (m : M unit) : M unit := if b then m else ret tt.

Fixpoint for_each {A : Type} (l : list A) (body : A -> M unit) : M unit :=
  match l with
  | [] => ret tt
  | x :: l' => body x >> for_each l' body
  end.

Section Primitives.

Variable env : Env.

(** [logger.debug(...)], [logger.info(...)], [logger.error(...)]: the
    record is handed to the handlers attached, each of which writes it
    if its level admits it. *)
Definition logger (lv : level) (m : message) : M unit :=
  fun w => (Ok tt, with_log (lv, m) w).

(** [logger.debuginfo(...)]: [logging.Logger] has no such attribute. *)
Definition logger_debuginfo (m : message) : M unit :=
  raise Py.AttributeError.

(** [pprint(...)]: printed on the standard output, kept in [log] with
    the tag [STDOUT]; no handler sees it. *)
Definition pprint (m : message) : M unit :=
  fun w => (Ok tt, with_log (STDOUT, m) w).

Definition time_time : M Q :=
  fun w => (Ok (clock env (ticks w)), with_tick w).

(** [time.ctime(t)] inside a message: only whether it raises, and
    what, matters. *)
Definition time_ctime (t : Z) : M unit :=
  if ctime_ok env t then ret tt else raise (ctime_exn env t).

Definition os_path_isfile (p : string) : M bool :=
  fun w => (Ok (bool_decide (is_Some (fs w !! p))), w).

(** [os.rename(src, dst)]: a file at [dst] is replaced. *)
Definition os_rename (src dst : string) : M unit :=
  fun w =>
    match fs w !! src with
    | Some c =>
        if rename_fails env src dst then (Raised Py.IOError, w)
        else (Ok tt, with_fs (fun m => <[dst := c]> (delete src m)) w)
    | None => (Raised Py.IOError, w)
    end.

Definition os_remove (p : string) : M unit :=
  fun w =>
    match fs w !! p with
    | Some _ =>
        if remove_fails env p then (Raised Py.IOError, w)
        else (Ok tt, with_fs (delete p) w)
    | None => (Raised Py.IOError, w)
    end.

(** [int(text)] for the text read from a file: [Py.int] on ASCII text,
    what the environment says on any other. *)
Definition int_of_text (text : string) : option Z :=
  if Py.is_ascii text then Py.int text else int_non_ascii env text.

(** [f = open(p, "r")] followed by [f.read()]. *)
Definition open_read (p : string) : M string :=
  fun w =>
    match fs w !! p with
    | Some c => if read_fails env p then (Raised Py.IOError, w) else (Ok c, w)
    | None => (Raised Py.IOError, w)
    end.

(** [open(p, "w")]: creates or truncates. *)
Definition open_w (p : string) : M unit :=
  fun w =>
    if open_w_fails env p then (Raised Py.IOError, w)
    else (Ok tt, with_fs (fun m => <[p := ""%string]> m) w).

(** [f.write(s)] and [f.close()] on a file opened for writing. *)
Definition write_close (p s : string) : M unit :=
  fun w =>
    if write_fails env p then (Raised Py.IOError, w)
    else (Ok tt, with_fs (fun m => <[p := s]> m) w).

(** Lines 337-339. *)
Definition sftp_connect (h : string) (p : Z) (user pw : string) : M unit :=
  fun w =>
    let w := with_call (RConnect h p) w in
    if connect_ok env h p user pw then (Ok tt, w) else (Raised Py.SFTPError, w).

Definition sftp_listdir (folder : string) : M (list string) :=
  fun w =>
    let w := with_call (RListdir folder) w in
    match listdir env folder with
    | Some l => (Ok l, w)
    | None => (Raised Py.SFTPError, w)
    end.

Definition sftp_stat (path : string) : M SFTPAttributes :=
  fun w =>
    let w := with_call (RStat path) w in
    match stat env path with
    | Some a => (Ok a, w)
    | None => (Raised Py.SFTPError, w)
    end.

Definition sftp_get (path localpath : string) : M unit :=
  fun w =>
    let w := with_call (RGet path) w in
    match get env path with
    | GetOk c => (Ok tt, with_fs (fun m => <[localpath := c]> m) w)
    | GetFails None => (Raised Py.SFTPError, w)
    | GetFails (Some c) =>
        (Raised Py.SFTPError, with_fs (fun m => <[localpath := c]> m) w)
    end.

(** [sftp.close(); transport.close()]. *)
Definition sftp_close : M unit :=
  fun w =>
    let w := with_call RClose w in
    if close_ok env then (Ok tt, w) else (Raised Py.SFTPError, w).

End Primitives.

(* ===================================================================== *)
(** ** The script, stage by stage *)
(* ===================================================================== *)

(** *** Float arithmetic

    A float is a binary64 number.  The model keeps its value, a
    rational, and rounds the result of every operation that can be
    inexact to 53 significant bits, to nearest, ties going to the even
    significand.  The exponent is not bounded: magnitudes of [2 ^ 1024]
    and more (Python's [inf]), signed zeros and [nan] are outside the
    model. *)

(** Nearest integer, ties going to the even one: the rounding of a
    significand, and of a float formatted with a fixed number of
    decimals. *)
Definition round_half_even (x : Q) : Z :=
  let f := Qfloor x in
  match (x - inject_Z f ?= 1 # 2)%Q with
  | Lt => f
  | Gt => f + 1
  | Eq => if Z.even f then f else f + 1
  end.

(** Position of the leading bit of [x <> 0]:
    [2 ^ ilog2 x <= |x| < 2 ^ (ilog2 x + 1)]. *)
Definition ilog2 (x : Q) : Z :=
  let d := Z.log2 (Z.abs (Qnum x)) - Z.log2 (Z.pos (Qden x)) in
  if Qle_bool (2 ^ d) (Qabs x) then d else d - 1.

(** The float nearest to [x]. *)
Definition float_round (x : Q) : Q :=
  if Qeq_bool x 0 then 0%Q
  else
    let e := ilog2 x - 52 in
    (inject_Z (round_half_even (x / 2 ^ e)) * 2 ^ e)%Q.

(** [x - y] on floats. *)
Definition float_sub (x y : Q) : Q := float_round (x - y).

(** C's [fmod(x, y)]: the remainder of the division truncated towards
    zero, which is always a float, with the sign of [x]. *)
Definition fmod (x y : Q) : Q :=
  (x - y * inject_Z (Py.int_of_float (x / y)))%Q.

Definition Qlt_bool (x y : Q) : bool := negb (Qle_bool y x).

(** [vx // wx] on floats, [wx] not zero, as CPython computes it
    ([float_floor_div]): from [fmod], a quotient corrected when the
    remainder has not the sign of the divisor, then snapped to the
    nearest whole number. *)
Definition float_floordiv (vx wx : Q) : Q :=
  let mod_ := fmod vx wx in
  let div := float_round (float_round (vx - mod_) / wx) in
  let div :=
    if negb (Qeq_bool mod_ 0)
       && negb (Bool.eqb (Qlt_bool wx 0) (Qlt_bool mod_ 0))
    then float_round (div - 1) else div in
  if negb (Qeq_bool div 0) then
    let floordiv := inject_Z (Qfloor div) in
    if Qlt_bool (1 # 2) (float_round (div - floordiv))
    then float_round (floordiv + 1) else floordiv
  else 0%Q.

(** [vx % wx] on floats, [wx] not zero ([float_rem]): [fmod], moved by
    [wx] when its sign is not the divisor's. *)
Definition float_rem (vx wx : Q) : Q :=
  let mod_ := fmod vx wx in
  if negb (Qeq_bool mod_ 0) then
    if negb (Bool.eqb (Qlt_bool wx 0) (Qlt_bool mod_ 0))
    then float_round (mod_ + wx) else mod_
  else 0%Q.

(** [humanduration(start_time, end_time)] (lines 216-232). *)
Definition humanduration (start_time end_time : Q) : string :=
  let duration := float_sub end_time start_time in
  let duration_text := ""%string in
  let days := Py.int_of_float (float_floordiv duration 86400) in
  let hours := Py.int_of_float (float_rem (float_floordiv duration 3600) 24) in
  let minutes := Py.int_of_float (float_rem (float_floordiv duration 60) 60) in
  let seconds := Py.int_of_float (float_rem duration 60) in
  let duration_text :=
    if days >? 0 then duration_text +:+ " " +:+ Py.str days +:+ " d"
    else duration_text in
  let duration_text :=
    if hours >? 0 then duration_text +:+ " " +:+ Py.str hours +:+ " h"
    else duration_text in
  let duration_text :=
    if minutes >? 0 then duration_text +:+ " " +:+ Py.str minutes +:+ " min"
    else duration_text in
  let duration_text :=
    if seconds >? 0 then duration_text +:+ " " +:+ Py.str seconds +:+ " sec"
    else duration_text in
  duration_text.

(** What the run hands to the report: the two time stamps and the text
    of the duration (lines 311 and 435). *)
Record report : Type := {
  start_time : Q;
  end_time : Q;
  duration_text : string }.

Section Script.

Variable env : Env.
Variable param : gr_param.

(** Lines 314-331: date of the last synchronisation.  [int()] raising
    [ValueError] and [time.ctime] raising in the [else] clause are not
    caught by [except IOError]. *)
Definition get_last_sync : M Z :=
  let* isfile := os_path_isfile (last_exec_filename param) in
  if isfile then
    logger DEBUG Get_date_last_download >>
    let* r := try (let* text := open_read env (last_exec_filename param) in
                   match int_of_text env text with
                   | Some n => ret n
                   | None => raise Py.ValueError
                   end) in
    match r with
    | Raised Py.IOError =>
        logger ERROR (Unable_to_read_date (last_exec_filename param)) >>
        logger INFO END >>
        exit
    | Raised e => raise e
    | Exited => exit
    | Ok lastsync_date =>
        time_ctime env lastsync_date >>
        logger INFO (Date_last_download lastsync_date) >>
        ret lastsync_date
    end
  else
    logger INFO First_execution >>
    ret 0.

(** Lines 334-345. *)
Definition open_connection : M unit :=
  logger DEBUG (Open_connection_to (host param)) >>
  let* r := try (sftp_connect env (host param) (port param)
                   (username param) (password param)) in
  match r with
  | Ok _ => logger INFO (Connected (host param))
  | _ =>
      logger ERROR (Cannot_connect (host param) (port param)) >>
      logger INFO END >>
      exit
  end.

(** Lines 347-358. *)
Definition get_filelist : M (list string) :=
  let* r := try (logger DEBUG Get_list_of_file >>
                 sftp_listdir env (sourcefolder param)) in
  match r with
  | Ok filelist =>
      logger INFO (Items_in_remote_folder (length filelist)) >>
      when (debug param) (pprint (Pprint_filelist filelist)) >>
      ret filelist
  | _ =>
      logger ERROR Cannot_get_list >>
      logger INFO END >>
      exit
  end.

(** [nb_files_error = nb_files_error + 1] (line 399). *)
Definition count_error : M unit :=
  fun w => (Ok tt, with_counters (nb_files_download w) (nb_files_error w + 1)
                     (tot_size w) w).

(** Lines 405-406. *)
Definition count_download (size : Z) : M unit :=
  fun w => (Ok tt, with_counters (nb_files_download w + 1) (nb_files_error w)
                     (tot_size w + size) w).

Variable lastsync_date : Z.

(** Lines 362-378: the value of [to_download] once the entry has been
    examined. *)
Definition plan (filetoget : string) (filestat : SFTPAttributes) : M bool :=
  let to_download := false in
  let localpath := targetfolder param +:+ filetoget in
  if S_ISREG (st_mode filestat) then
    when (debug param)
      (logger INFO (File_size filetoget (st_size filestat)) >>
       pprint (Pprint_filestat filestat)) >>
    let* to_download :=
      (if sync param then
         let* isfile := os_path_isfile localpath in
         ret (if Bool.eqb isfile false then true else to_download)
       else ret to_download) in
    let to_download :=
      if st_mtime filestat >? lastsync_date then true else to_download in
    ret to_download
  else
    logger DEBUG (Skip_folder filetoget) >>
    ret to_download.

(** Lines 383-411: the branch taken when [param.simulation == False]. *)
Definition transfer (filetoget : string) (filestat : SFTPAttributes) : M unit :=
  let path := sourcefolder param +:+ filetoget in
  time_ctime env (st_mtime filestat) >>
  logger INFO (Get_file filetoget (st_mtime filestat)) >>
  let localpath := targetfolder param +:+ filetoget in
  let localpath_backup := localpath +:+ ".back" in
  let* isfile := os_path_isfile localpath in
  when isfile
    (logger DEBUG (Backup_previous_version localpath_backup) >>
     let* r := try (os_rename env localpath localpath_backup) in
     match r with
     | Ok _ => ret tt
     | _ =>
         logger ERROR Cannot_backup >>
         logger INFO END >>
         exit
     end) >>
  let* r := try (sftp_get env path localpath) in
  match r with
  | Ok _ =>
      count_download (st_size filestat) >>
      logger INFO (OK_size (st_size filestat)) >>
      let* isfile := os_path_isfile localpath_backup in
      when isfile
        (logger DEBUG (Delete_backup localpath_backup) >>
         os_remove env localpath_backup)
  | _ =>
      logger ERROR Error_when_downloading >>
      count_error >>
      let* isfile := os_path_isfile localpath_backup in
      when isfile
        (logger_debuginfo (Restore_backup localpath_backup) >>
         os_rename env localpath_backup localpath)
  end.

(** Lines 362-413: body of [for filetoget in filelist]. *)
Definition loop_body (filetoget : string) : M unit :=
  let* filestat := sftp_stat env (sourcefolder param +:+ filetoget) in
  let* to_download := plan filetoget filestat in
  if to_download then
    if Bool.eqb (simulation param) false then
      transfer filetoget filestat
    else
      time_ctime env (st_mtime filestat) >>
      logger INFO (Simulation_get_file filetoget (st_mtime filestat))
  else ret tt.

(** Lines 360-413. *)
Definition main_loop (filelist : list string) : M unit :=
  for_each filelist loop_body.

(** Lines 415-421. *)
Definition close_connection : M unit :=
  logger DEBUG Close_connection >>
  let* r := try (sftp_close env) in
  match r with
  | Ok _ => ret tt
  | _ => logger ERROR Unable_to_close
  end.

(** Lines 424-433: the date written is [int(time.time())], read
    between opening the file and writing it. *)
Definition save_last_sync : M unit :=
  logger DEBUG Save_date_last_download >>
  let* r := try (open_w env (last_exec_filename param) >>
                 let* now := time_time env in
                 write_close env (last_exec_filename param)
                   (Py.str (Py.int_of_float now))) in
  match r with
  | Raised Py.IOError => logger ERROR Unable_to_save_date
  | Raised e => raise e
  | Exited => exit
  | Ok _ =>
      let* now := time_time env in
      logger DEBUG (Date_last_download_saved (Py.int_of_float now))
  end.

(** Lines 435-437. *)
Definition finish (start_time : Q) : M report :=
  let* end_time := time_time env in
  let duration_text := humanduration start_time end_time in
  let* _ := (fun w => logger INFO (Finished (nb_files_download w) (tot_size w)
                                     duration_text) w) in
  ret {| start_time := start_time; end_time := end_time;
         duration_text := duration_text |}.

End Script.

(** Lines 308-358: counters, start time, date of the last
    synchronisation, connection and listing. *)
Definition prologue (env : Env) (param : gr_param) : M (Q * Z * list string) :=
  let* _ := (fun w => (Ok tt, with_counters 0 0 0 w)) in
  let* start_time := time_time env in
  let* lastsync_date := get_last_sync env param in
  open_connection env param >>
  let* filelist := get_filelist env param in
  ret (start_time, lastsync_date, filelist).

(** Lines 415-437: what follows the loop. *)
Definition epilogue (env : Env) (param : gr_param) (start_time : Q) : M report :=
  close_connection env >>
  save_last_sync env param >>
  finish env start_time.

(** Lines 308-437, for the resolved [param]. *)
Definition run (env : Env) (param : gr_param) : M report :=
  let* vars := prologue env param in
  main_loop env param (vars.1.2) (vars.2) >>
  epilogue env param (vars.1.1).

(** A process starts with an empty log, no clock reading made, no
    call on the remote session and no file handler attached (the
    profile logs to no file; [add_handlers] attaches them otherwise). *)
Definition initial_world (files : gmap string string) : World :=
  {| fs := files; nb_files_download := 0; nb_files_error := 0; tot_size := 0;
     log := []; ticks := 0; remote_calls := []; fh := None; eh := None |}.

(* ===================================================================== *)
(** ** Vocabulary of the properties *)
(* ===================================================================== *)

(** A resolved attribute is the fragment's value when the fragment has
    the key, the default profile's value otherwise. *)
Definition overridden {A : Type} (entry : option A) (dflt resolved : A) : Prop :=
  match entry with
  | Some v => resolved = v
  | None => resolved = dflt
  end.

(** Field-by-field override of [dflt] by the keys present in [d]: a key
    of a section is present when the fragment has the section and the
    section has the key. *)
Definition field_by_field (dflt : gr_param) (d : fragment) (r : gr_param) : Prop :=
  overridden (data__name d) (name dflt) (name r) /\
  overridden (data__label d) (label dflt) (label r) /\
  overridden (data__last_exec_filename d) (last_exec_filename dflt)
             (last_exec_filename r) /\
  overridden ((data__files d ≫= files__process_subfolders))
             (process_folders dflt) (process_folders r) /\
  overridden ((data__log d ≫= log__filename))
             (log_filename dflt) (log_filename r) /\
  overridden ((data__log d ≫= log__console))
             (log_console dflt) (log_console r) /\
  overridden ((data__log d ≫= log__email))
             (log_email dflt) (log_email r) /\
  overridden ((data__log d ≫= log__file))
             (log_file dflt) (log_file r) /\
  overridden ((data__log d ≫= log__debug)) (debug dflt) (debug r) /\
  overridden ((data__source d ≫= source__host)) (host dflt) (host r) /\
  overridden ((data__source d ≫= source__port)) (port dflt) (port r) /\
  overridden ((data__source d ≫= source__username))
             (username dflt) (username r) /\
  overridden ((data__source d ≫= source__password))
             (password dflt) (password r) /\
  overridden ((data__source d ≫= source__folder))
             (sourcefolder dflt) (sourcefolder r) /\
  overridden ((data__target d ≫= target__folder))
             (targetfolder dflt) (targetfolder r) /\
  overridden ((data__execmode d ≫= execmode__sync))
             (sync dflt) (sync r) /\
  overridden ((data__execmode d ≫= execmode__simulation))
             (simulation dflt) (simulation r) /\
  overridden ((data__emailreport d ≫= emailreport__ssl_port))
             (ssl_port dflt) (ssl_port r) /\
  overridden ((data__emailreport d ≫= emailreport__server))
             (smtp_server dflt) (smtp_server r) /\
  overridden ((data__emailreport d ≫= emailreport__username))
             (smtp_login dflt) (smtp_login r) /\
  overridden ((data__emailreport d ≫= emailreport__password))
             (smtp_password dflt) (smtp_password r) /\
  overridden ((data__emailreport d ≫= emailreport__source_address))
             (source_email_address dflt) (source_email_address r) /\
  overridden ((data__emailreport d ≫= emailreport__dest_address))
             (dest_email_address dflt) (dest_email_address r).

(** The name a fragment answers to once laid over the default profile:
    its own [name] key, or the default profile's name when it has none
    (line 260 compares [selected_param] with [loadparam.name]). *)
Definition answers_to (dflt : gr_param) (d : fragment) : string :=
  name (load dflt d).

(** The merge of the last fragment of [rest] answering to [selected],
    [current] when there is none. *)
Fixpoint last_answering (selected : string) (dflt : gr_param)
  (rest : list fragment) (current : option gr_param) : option gr_param :=
  match rest with
  | [] => current
  | d :: rest' =>
      last_answering selected dflt rest'
        (if String.eqb selected (answers_to dflt d) then Some (load dflt d)
         else current)
  end.

(** The last part of the resolution rule read on the fragments' own
    [name] keys: when no fragment that follows the default one is named
    [selected], the resolved profile is the default profile. *)
Definition falls_back_to_default (cwd selected : string) (d0 : fragment)
  (rest : list fragment) : Prop :=
  Forall (fun g => data__name g <> Some selected) rest ->
  load_configuration cwd selected (Some (d0 :: rest))
  = Ok (load (gr_param_init cwd "default") d0).

Definition is_get (c : remote_call) : bool :=
  match c with
  | RGet _ => true
  | _ => false
  end.

(** [w'] differs from [w] at most by log records (in [log] and in the
    files of the handlers attached) and by calls on the remote session
    that fetch nothing. *)
Definition only_logged (w w' : World) : Prop :=
  fs w' = fs w /\
  nb_files_download w' = nb_files_download w /\
  nb_files_error w' = nb_files_error w /\
  tot_size w' = tot_size w /\
  ticks w' = ticks w /\
  List.filter is_get (remote_calls w') = List.filter is_get (remote_calls w).

(** [w'] is [w] with more log records, handed to the handlers
    attached, and nothing else changed. *)
Definition add_logs (l : list (level * message)) (w : World) : World :=
  {| fs := fs w; nb_files_download := nb_files_download w;
     nb_files_error := nb_files_error w; tot_size := tot_size w;
     log := log w ++ l; ticks := ticks w; remote_calls := remote_calls w;
     fh := emit DEBUG l (fh w); eh := emit INFO l (eh w) |}.

Definition logged (w w' : World) : Prop := exists l, w' = add_logs l w.

(** Whether a file handler is attached. *)
Definition attached (handler : option (list (level * message))) : bool :=
  match handler with
  | Some _ => true
  | None => false
  end.

(** The file handlers attached in [w] are those that lines 273-291
    attach for the profile: [fh] when [param.log_file] is set, [eh] when
    [param.log_email] is set. *)
Definition handlers_of (param : gr_param) (w : World) : Prop :=
  attached (fh w) = log_file param /\ attached (eh w) = log_email param.

(** From [w] to [w'] nothing happened to the log files but what the
    logger does: each file handler attached has appended, in order, the
    records logged in between that its level admits; a handler that is
    not attached stays so.  With no handler attached no log file is
    written at all. *)
Definition handlers_appended (w w' : World) : Prop :=
  exists l,
    log w' = log w ++ l /\
    fh w' = emit DEBUG l (fh w) /\
    eh w' = emit INFO l (eh w).

(** The reading used as the end of the run is the one made when the
    loop completes, before anything is done to save the date. *)
Definition end_stamped_before_save (env : Env) (param : gr_param) (w : World)
  : Prop :=
  forall start lastsync_date filelist w0 w1 rep w2,
    prologue env param w = (Ok (start, lastsync_date, filelist), w0) ->
    main_loop env param lastsync_date filelist w0 = (Ok tt, w1) ->
    run env param w = (Ok rep, w2) ->
    (end_time rep == clock env (ticks w1))%Q.

(** From [w] to [w'] no file of [fs] changed, no counter moved and no
    fetch was made; the clock may have been read and records logged. *)
Definition nothing_moved (w w' : World) : Prop :=
  fs w' = fs w /\
  nb_files_download w' = nb_files_download w /\
  nb_files_error w' = nb_files_error w /\
  tot_size w' = tot_size w /\
  List.filter is_get (remote_calls w') = List.filter is_get (remote_calls w).


(* ===================================================================== *)
(** ** Concrete scenarios *)
(* ===================================================================== *)

Module Scenario.

(** First document of a configuration file: the defaults. *)
Definition defaults_doc : fragment :=
  {| data__name := Some "default"%string; data__label := None;
     data__last_exec_filename := Some "/state/last.txt"%string;
     data__files := None; data__log := None;
     data__source :=
       Some {| source__host := Some "backup.example.org"%string;
               source__port := None;
               source__username := Some "kef"%string;
               source__password := None;
               source__folder := Some "/remote/"%string |};
     data__target := Some {| target__folder := Some "/local/"%string |};
     data__execmode := None; data__emailreport := None |}.

(** A named override: another port, simulation switched on. *)
Definition nas_doc : fragment :=
  {| data__name := Some "nas"%string; data__label := None;
     data__last_exec_filename := None; data__files := None;
     data__log := None;
     data__source :=
       Some {| source__host := None; source__port := Some 2222;
               source__username := None; source__password := None;
               source__folder := None |};
     data__target := None;
     data__execmode :=
       Some {| execmode__sync := None; execmode__simulation := Some true |};
     data__emailreport := None |}.

Definition web_doc : fragment :=
  {| data__name := Some "web"%string; data__label := Some "Web server"%string;
     data__last_exec_filename := None; data__files := None;
     data__log := None; data__source := None; data__target := None;
     data__execmode := None; data__emailreport := None |}.

(** An override that carries no [name] key. *)
Definition unnamed_doc : fragment :=
  {| data__name := None; data__label := None;
     data__last_exec_filename := None; data__files := None;
     data__log := None; data__source := None;
     data__target := Some {| target__folder := Some "/elsewhere/"%string |};
     data__execmode := None; data__emailreport := None |}.

Definition cwd : string := "/home/kef".

Definition default_profile : gr_param :=
  load (gr_param_init cwd "default") defaults_doc.

(** The profile of the real runs below, and its simulation twin. *)
Definition profile : gr_param := default_profile.
Definition nas_profile : gr_param := load default_profile nas_doc.

Definition regular (mtime size : Z) : SFTPAttributes :=
  {| st_mode := 33188 (* 0o100644 *); st_size := size; st_mtime := mtime |}.

Definition directory (mtime : Z) : SFTPAttributes :=
  {| st_mode := 16877 (* 0o040755 *); st_size := 4096; st_mtime := mtime |}.

Fixpoint lookup_remote (folder path : string)
  (l : list (string * SFTPAttributes)) : option SFTPAttributes :=
  match l with
  | [] => None
  | (n, a) :: l' =>
      if String.eqb path (folder +:+ n) then Some a
      else lookup_remote folder path l'
  end.

(** A POSIX host whose clock reads 1000, 1010, 1020, ... seconds, with a
    32-bit [time_t]: [time.ctime] is defined on the signed 32-bit range
    and raises [OverflowError] beyond.  The host talks to a server that
    lists [remote] under "/remote/". *)
Definition posix_env (remote : list (string * SFTPAttributes))
  (get : string -> get_outcome) (rename_fails : string -> string -> bool)
  : Env :=
  {| clock := fun n => inject_Z (1000 + 10 * Z.of_nat n);
     ctime_ok := fun t => (-2147483648 <=? t) && (t <? 2147483648);
     ctime_exn := fun _ => Py.OverflowError;
     int_non_ascii := fun _ => None;
     email_logfile := "/home/kef/grbackup_email_2417851.log";
     read_fails := fun _ => false;
     open_w_fails := fun _ => false;
     write_fails := fun _ => false;
     rename_fails := rename_fails;
     remove_fails := fun _ => false;
     connect_ok := fun _ _ _ _ => true;
     listdir := fun folder =>
       if String.eqb folder "/remote/" then Some (map fst remote) else None;
     stat := fun path => lookup_remote "/remote/" path remote;
     get := get;
     close_ok := true |}.

Definition remote_AB : list (string * SFTPAttributes) :=
  [("fileA"%string, regular 100 5); ("fileB"%string, regular 300 7)].

(** Every fetch succeeds. *)
Definition get_all (path : string) : get_outcome :=
  if String.eqb path "/remote/fileA" then GetOk "AAAAA" else GetOk "BBBBBBB".

(** The fetch of [fileA] breaks after three bytes. *)
Definition get_A_breaks (path : string) : get_outcome :=
  if String.eqb path "/remote/fileA" then GetFails (Some "AAA"%string)
  else GetOk "BBBBBBB".

Definition healthy_env : Env := posix_env remote_AB get_all (fun _ _ => false).
Definition broken_fetch_env : Env :=
  posix_env remote_AB get_A_breaks (fun _ _ => false).
Definition broken_rename_env : Env :=
  posix_env remote_AB get_all (fun _ _ => true).

(** Local disk after an earlier run at time 50: [fileA] is there. *)
Definition disk_with_A : gmap string string :=
  <["/local/fileA"%string := "old A"%string]>
    (<["/state/last.txt"%string := "50"%string]> ∅).

(** Local disk after a complete run at time 1010. *)
Definition disk_after_run : gmap string string :=
  <["/local/fileA"%string := "AAAAA"%string]>
    (<["/local/fileB"%string := "BBBBBBB"%string]>
       (<["/state/last.txt"%string := "1010"%string]> ∅)).



(** The remote folder holds [dump]; the local one holds a file
    [dump.back] fetched earlier from a remote file of that name. *)
Definition remote_dump : list (string * SFTPAttributes) :=
  [("dump"%string, regular 100 4)].

Definition disk_with_dump_back : gmap string string :=
  <["/local/dump.back"%string := "an earlier download"%string]> ∅.

Definition dump_ok_env : Env :=
  posix_env remote_dump (fun _ => GetOk "DUMP") (fun _ _ => false).
Definition dump_fails_env : Env :=
  posix_env remote_dump (fun _ => GetFails None) (fun _ _ => false).

End Scenario.

(* ===================================================================== *)
(** ** The other helpers of the script *)
(* ===================================================================== *)

(** A number below 100 on two digits. *)
Definition two_digits (n : Z) : string :=
  if n <? 10 then "0" +:+ Py.str n else Py.str n.

(** ['{0:.2f}'.format(x)] for a float [x >= 0]. *)
Definition format_2f (x : Q) : string :=
  let hundredths := round_half_even (x * 100) in
  Py.str (hundredths / 100) +:+ "." +:+ two_digits (hundredths mod 100).

(** [humanbytes(B)] (lines 197-214) for an integer [B].  [float(B)] and
    the divisions by powers of two are exact below [2 ^ 53], the range
    the model is meant for; [str] of an integral float is the integer
    followed by ".0".  [None] is the value returned when no branch of
    the [if] / [elif] chain is taken. *)
Definition humanbytes (B : Z) : option string :=
  let KB := 1024 in
  let MB := KB ^ 2 in
  let GB := KB ^ 3 in
  let TB := KB ^ 4 in
  if B <? KB then
    Some (Py.str B +:+ ".0" +:+ " " +:+
          (if (0 =? B) && (B >? 1) then "Bytes" else "Byte"))
  else if (KB <=? B) && (B <? MB) then
    Some (format_2f (inject_Z B / inject_Z KB) +:+ " KB")
  else if (MB <=? B) && (B <? GB) then
    Some (format_2f (inject_Z B / inject_Z MB) +:+ " MB")
  else if (GB <=? B) && (B <? TB) then
    Some (format_2f (inject_Z B / inject_Z GB) +:+ " GB")
  else if TB <=? B then
    Some (format_2f (inject_Z B / inject_Z TB) +:+ " TB")
  else None.

(** [humanstatus(nb_error)] (lines 234-239) for an integer: in the
    [else] branch a [str] is concatenated with the integer, which raises
    [TypeError]; [None] stands for that exception. *)
Definition humanstatus (nb_error : Z) : option string :=
  if nb_error =? 0 then Some "OK"%string else None.

(** The subject of the e-mail report (line 450); [None] when one of the
    calls in the expression raises. *)
Definition email_subject (param : gr_param)
  (nb_files_download nb_files_error tot_size : Z) (duration_text : string)
  : option string :=
  match humanstatus nb_files_error with
  | None => None
  | Some status =>
      match humanbytes tot_size with
      | None => None
      | Some size =>
          Some ("[GRBACKUP] " +:+ name param +:+ ": " +:+ status +:+ " (" +:+
                Py.str nb_files_download +:+ " files - " +:+ size +:+ " - " +:+
                duration_text +:+ ")")
      end
  end.

(** How the [try] block of the e-mail report (lines 445-464) ends. *)
Inductive mail : Type :=
| Not_requested                 (* param.log_email is false *)
| Sent (subject : string)       (* "Email report sent to ..." *)
| Unable_to_send.               (* "Unable to send email report" *)

(** Lines 439-464, once the log has been read back: [smtp_ok] tells
    whether building the message and talking to the SMTP server go
    through. *)
Definition email_report (param : gr_param) (smtp_ok : bool)
  (nb_files_download nb_files_error tot_size : Z) (duration_text : string)
  : mail :=
  if log_email param then
    match email_subject param nb_files_download nb_files_error tot_size
            duration_text with
    | Some subject => if smtp_ok then Sent subject else Unable_to_send
    | None => Unable_to_send
    end
  else Not_requested.

(** Lines 224-231 of [humanduration]: the text built from the four
    numbers. *)
Definition duration_text_of (days hours minutes seconds : Z) : string :=
  let duration_text := ""%string in
  let duration_text :=
    if days >? 0 then duration_text +:+ " " +:+ Py.str days +:+ " d"
    else duration_text in
  let duration_text :=
    if hours >? 0 then duration_text +:+ " " +:+ Py.str hours +:+ " h"
    else duration_text in
  let duration_text :=
    if minutes >? 0 then duration_text +:+ " " +:+ Py.str minutes +:+ " min"
    else duration_text in
  let duration_text :=
    if seconds >? 0 then duration_text +:+ " " +:+ Py.str seconds +:+ " sec"
    else duration_text in
  duration_text.

(** Number of calls of [sftp.get] made so far. *)
Definition fetches (w : World) : Z :=
  Z.of_nat (length (List.filter is_get (remote_calls w))).


(** The files [m'] are the files [m] at every path outside [paths]. *)
Definition agree_outside (paths : list string) (m m' : gmap string string)
  : Prop :=
  forall p, ~ In p paths -> m' !! p = m !! p.

(** The local files outside [paths] are the same in [w] and [w']. *)
Definition same_outside (paths : list string) (w w' : World) : Prop :=
  forall p, ~ In p paths -> fs w' !! p = fs w !! p.

(** The paths of the log files that the profile switches on: what is
    found there is the business of the file handlers ([fh], [eh]) and is
    left out of what is said of [fs]. *)
Definition log_paths (env : Env) (param : gr_param) : list string :=
  (if log_file param then [log_filename param] else []) ++
  (if log_email param then [email_logfile env] else []).

(** Every fetch made between [w] and [w'] was counted once, as a
    download or as an error, and no counter went down. *)
Definition fetches_counted (w w' : World) : Prop :=
  nb_files_download w <= nb_files_download w' /\
  nb_files_error w <= nb_files_error w' /\
  fetches w' - fetches w
  = (nb_files_download w' - nb_files_download w)
    + (nb_files_error w' - nb_files_error w).

(** A stage keeps the relation [R] between the world it starts in and
    the world it leaves, however it ends. *)
Definition keeps {A : Type} (R : World -> World -> Prop) (m : M A) : Prop :=
  forall w, R w (m w).2.

Module Sample.

(** A host like [Scenario.posix_env] that cannot reach the server. *)
Definition unreachable_env : Env :=
  {| clock := clock Scenario.healthy_env;
     ctime_ok := ctime_ok Scenario.healthy_env;
     ctime_exn := ctime_exn Scenario.healthy_env;
     int_non_ascii := int_non_ascii Scenario.healthy_env;
     email_logfile := email_logfile Scenario.healthy_env;
     read_fails := fun _ => false;
     open_w_fails := fun _ => false;
     write_fails := fun _ => false;
     rename_fails := fun _ _ => false;
     remove_fails := fun _ => false;
     connect_ok := fun _ _ _ _ => false;
     listdir := listdir Scenario.healthy_env;
     stat := stat Scenario.healthy_env;
     get := get Scenario.healthy_env;
     close_ok := true |}.

(** A server that accepts the connection and refuses the listing. *)
Definition unlistable_env : Env :=
  {| clock := clock Scenario.healthy_env;
     ctime_ok := ctime_ok Scenario.healthy_env;
     ctime_exn := ctime_exn Scenario.healthy_env;
     int_non_ascii := int_non_ascii Scenario.healthy_env;
     email_logfile := email_logfile Scenario.healthy_env;
     read_fails := fun _ => false;
     open_w_fails := fun _ => false;
     write_fails := fun _ => false;
     rename_fails := fun _ _ => false;
     remove_fails := fun _ => false;
     connect_ok := fun _ _ _ _ => true;
     listdir := fun _ => None;
     stat := stat Scenario.healthy_env;
     get := get Scenario.healthy_env;
     close_ok := true |}.

(** A server that lists [fileA] and a dangling link whose attributes
    cannot be read. *)
Definition dangling_env : Env :=
  {| clock := clock Scenario.healthy_env;
     ctime_ok := ctime_ok Scenario.healthy_env;
     ctime_exn := ctime_exn Scenario.healthy_env;
     int_non_ascii := int_non_ascii Scenario.healthy_env;
     email_logfile := email_logfile Scenario.healthy_env;
     read_fails := fun _ => false;
     open_w_fails := fun _ => false;
     write_fails := fun _ => false;
     rename_fails := fun _ _ => false;
     remove_fails := fun _ => false;
     connect_ok := fun _ _ _ _ => true;
     listdir := fun _ => Some ["fileA"; "link"; "fileB"]%string;
     stat := stat Scenario.healthy_env;
     get := get Scenario.healthy_env;
     close_ok := true |}.

(** A healthy session whose closing fails. *)
Definition unclosable_env : Env :=
  {| clock := clock Scenario.healthy_env;
     ctime_ok := ctime_ok Scenario.healthy_env;
     ctime_exn := ctime_exn Scenario.healthy_env;
     int_non_ascii := int_non_ascii Scenario.healthy_env;
     email_logfile := email_logfile Scenario.healthy_env;
     read_fails := fun _ => false;
     open_w_fails := fun _ => false;
     write_fails := fun _ => false;
     rename_fails := fun _ _ => false;
     remove_fails := fun _ => false;
     connect_ok := fun _ _ _ _ => true;
     listdir := listdir Scenario.healthy_env;
     stat := stat Scenario.healthy_env;
     get := get Scenario.healthy_env;
     close_ok := false |}.

(** A host on which the state file exists and cannot be read. *)
Definition unreadable_env : Env :=
  {| clock := clock Scenario.healthy_env;
     ctime_ok := ctime_ok Scenario.healthy_env;
     ctime_exn := ctime_exn Scenario.healthy_env;
     int_non_ascii := int_non_ascii Scenario.healthy_env;
     email_logfile := email_logfile Scenario.healthy_env;
     read_fails := fun _ => true;
     open_w_fails := fun _ => false;
     write_fails := fun _ => false;
     rename_fails := fun _ _ => false;
     remove_fails := fun _ => false;
     connect_ok := fun _ _ _ _ => true;
     listdir := listdir Scenario.healthy_env;
     stat := stat Scenario.healthy_env;
     get := get Scenario.healthy_env;
     close_ok := true |}.

(** A state file holding a date beyond what [time.ctime] formats, on
    the hosts of [Scenario.posix_env] as on any host whose [time_t] has
    64 bits. *)
Definition disk_far_future : gmap string string :=
  <["/state/last.txt"%string := "1000000000000000000000000000000"%string]> ∅.


(** A profile that asks for the e-mail report. *)
Definition mailing_profile : gr_param :=
  load Scenario.default_profile
    {| data__name := Some "mailing"%string; data__label := None;
       data__last_exec_filename := None; data__files := None;
       data__log :=
         Some {| log__filename := None; log__console := None;
                 log__email := Some true; log__file := None;
                 log__debug := None |};
       data__source := None; data__target := None;
       data__execmode := None; data__emailreport := None |}.

(** The simulation profile [nas] with the log file and the e-mail log
    switched on. *)
Definition logging_profile : gr_param :=
  load Scenario.nas_profile
    {| data__name := Some "nas-logged"%string; data__label := None;
       data__last_exec_filename := None; data__files := None;
       data__log :=
         Some {| log__filename := Some "/var/log/grbackup.log"%string;
                 log__console := None;
                 log__email := Some true; log__file := Some true;
                 log__debug := None |};
       data__source := None; data__target := None;
       data__execmode := None; data__emailreport := None |}.

(** A configuration in which no document names a state file. *)
Definition bare_defaults_doc : fragment :=
  {| data__name := None; data__label := None;
     data__last_exec_filename := None; data__files := None;
     data__log := None; data__source := None; data__target := None;
     data__execmode := None; data__emailreport := None |}.

End Sample.

(* ===================================================================== *)
(** ** Configuration resolution *)
(* ===================================================================== *)

Section Resolution.

Variables (cwd selected : string).

Lemma load_field_by_field (dflt : gr_param) (d : fragment) :
  field_by_field dflt d (load dflt d).
Proof.
  unfold field_by_field, overridden, load, in_section, assign_if_in.
  destruct d as [n l f fi lo so ta ex em].
  destruct fi as [[]|], lo as [[]|], so as [[]|], ta as [[]|], ex as [[]|],
    em as [[]|]; cbn;
    repeat split; repeat case_match; congruence.
Qed.

(** A fragment carrying its own [name] key answers to that name. *)
Lemma answers_to_own_name (dflt : gr_param) (d : fragment) (n : string) :
  data__name d = Some n -> answers_to dflt d = n.
Proof. unfold answers_to, load; simpl. now intros ->. Qed.

(** A fragment without a [name] key answers to the default's name. *)
Lemma answers_to_inherited_name (dflt : gr_param) (d : fragment) :
  data__name d = None -> answers_to dflt d = name dflt.
Proof. unfold answers_to, load; simpl. now intros ->. Qed.

(** From the second document on, the loop only moves [param]. *)
Lemma fold_conf_body_later (rest : list fragment) (v : conf_vars) :
  (1 <= load_count v)%nat ->
  fold_left (conf_body selected) rest v =
  {| defaultparam := defaultparam v;
     load_count := load_count v + length rest;
     param := last_answering selected (defaultparam v) rest (param v) |}.
Proof.
  revert v. induction rest as [|d rest IH]; intros v Hv; simpl.
  - destruct v; simpl. f_equal. lia.
  - rewrite IH.
    + unfold conf_body.
      destruct (S (load_count v) =? 1)%nat eqn:E.
      * apply Nat.eqb_eq in E. lia.
      * simpl. f_equal. lia.
    + unfold conf_body. destruct (S (load_count v) =? 1)%nat; simpl; lia.
Qed.

Lemma last_answering_none (dflt : gr_param) (rest : list fragment)
  (current : option gr_param) :
  Forall (fun g => answers_to dflt g <> selected) rest ->
  last_answering selected dflt rest current = current.
Proof.
  revert current. induction rest as [|d rest IH]; intros current H; simpl.
  - reflexivity.
  - inversion H as [|? ? Hd Hrest]; subst.
    rewrite IH by assumption.
    destruct (String.eqb selected (answers_to dflt d)) eqn:E; [|reflexivity].
    apply String.eqb_eq in E. congruence.
Qed.

Lemma last_answering_app (dflt : gr_param) (pre post : list fragment)
  (current : option gr_param) :
  last_answering selected dflt (pre ++ post) current =
  last_answering selected dflt post (last_answering selected dflt pre current).
Proof.
  revert current. induction pre as [|d pre IH]; intros current; simpl.
  - reflexivity.
  - apply IH.
Qed.

Lemma load_configuration_unfold (d0 : fragment) (rest : list fragment) :
  load_configuration cwd selected (Some (d0 :: rest)) =
  let dflt := load (gr_param_init cwd "default") d0 in
  match last_answering selected dflt rest (Some dflt) with
  | Some p => Ok p
  | None => Raised Py.NameError
  end.
Proof.
  unfold load_configuration. simpl fold_left.
  set (dflt := load (gr_param_init cwd "default") d0).
  change (conf_body selected _ d0)
    with {| defaultparam := dflt; load_count := 1; param := Some dflt |}.
  rewrite fold_conf_body_later by (simpl; lia). simpl.
  destruct rest as [|d rest]; simpl; reflexivity.
Qed.

End Resolution.

(** C7, as stated, fails.  A fragment without a [name] key answers to
    the default profile's name.  In a file whose documents carry no
    [name] key at all the selector "default" - the one used when the
    script is called without argument - matches no named fragment, and
    yet the resolved profile is not the default one: it is the default
    profile overlaid by the second document.  The same happens when the
    first document names the default profile "default". *)
Lemma unnamed_fragment_is_selected :
  data__name Sample.bare_defaults_doc = None /\
  data__name Scenario.unnamed_doc = None /\
  targetfolder (load (gr_param_init Scenario.cwd "default")
                  Sample.bare_defaults_doc)
  = "/home/kef/grbackup_default/"%string /\
  (exists r,
      load_configuration Scenario.cwd "default"
        (Some [Sample.bare_defaults_doc; Scenario.unnamed_doc]) = Ok r /\
      targetfolder r = "/elsewhere/"%string) /\
  ~ falls_back_to_default Scenario.cwd "default" Sample.bare_defaults_doc
      [Scenario.unnamed_doc] /\
  ~ falls_back_to_default Scenario.cwd "default" Scenario.defaults_doc
      [Scenario.unnamed_doc].
Proof.
  repeat split.
  - eexists. split; reflexivity.
  - intros H.
    assert (E : load_configuration Scenario.cwd "default"
                  (Some [Sample.bare_defaults_doc; Scenario.unnamed_doc])
                = Ok (load (gr_param_init Scenario.cwd "default")
                        Sample.bare_defaults_doc))
      by (apply H; repeat constructor; discriminate).
    vm_compute in E. discriminate E.
  - intros H.
    assert (E : load_configuration Scenario.cwd "default"
                  (Some [Scenario.defaults_doc; Scenario.unnamed_doc])
                = Ok (load (gr_param_init Scenario.cwd "default")
                        Scenario.defaults_doc))
      by (apply H; repeat constructor; discriminate).
    vm_compute in E. discriminate E.
Qed.

(** C7, amended.  Resolution starts from the default profile (the
    built-in values overridden by the first document).  The name a later
    fragment answers to is the one it has once laid over the default
    profile: its own [name] key, or the default profile's name when it
    has none.  For the fragment answering to the selected name - the
    last one, should several answer - the resolved profile has, field by
    field, the fragment's value where the fragment has the key and the
    default profile's value elsewhere.  When no later fragment answers
    to the selected name the resolved profile is the default profile; so
    it is, in particular, when the selected name is not the default
    profile's and no later fragment carries it as its [name] key. *)
Theorem resolution_field_by_field_override :
  forall (cwd selected : string) (d0 : fragment) (rest : list fragment),
    let dflt := load (gr_param_init cwd "default") d0 in
    (forall pre d post,
        rest = pre ++ d :: post ->
        answers_to dflt d = selected ->
        Forall (fun g => answers_to dflt g <> selected) post ->
        exists r,
          load_configuration cwd selected (Some (d0 :: rest)) = Ok r /\
          field_by_field dflt d r) /\
    (Forall (fun g => answers_to dflt g <> selected) rest ->
     load_configuration cwd selected (Some (d0 :: rest)) = Ok dflt) /\
    (selected <> name dflt ->
     Forall (fun g => data__name g <> Some selected) rest ->
     load_configuration cwd selected (Some (d0 :: rest)) = Ok dflt).
Proof.
  intros cwd selected d0 rest dflt.
  assert (Hnone : Forall (fun g => answers_to dflt g <> selected) rest ->
                  load_configuration cwd selected (Some (d0 :: rest)) = Ok dflt).
  { intros Hrest.
    rewrite load_configuration_unfold. fold dflt. cbv zeta.
    rewrite last_answering_none by assumption. reflexivity. }
  split; [|split].
  - intros pre d post -> Hd Hpost.
    exists (load dflt d). split; [|apply load_field_by_field].
    rewrite load_configuration_unfold. fold dflt. cbv zeta.
    rewrite last_answering_app. simpl.
    rewrite last_answering_none by assumption.
    rewrite <- Hd, String.eqb_refl. reflexivity.
  - exact Hnone.
  - intros Hsel Hrest. apply Hnone.
    eapply List.Forall_impl; [|exact Hrest].
    intros g Hg. cbv beta in Hg.
    destruct (data__name g) as [n|] eqn:En.
    + rewrite (answers_to_own_name dflt g n En). congruence.
    + rewrite (answers_to_inherited_name dflt g En). congruence.
Qed.

Lemma resolution_field_by_field_override_witness :
  (exists r,
      load_configuration Scenario.cwd "nas"
        (Some [Scenario.defaults_doc; Scenario.web_doc; Scenario.nas_doc]) = Ok r /\
      field_by_field Scenario.default_profile Scenario.nas_doc r) /\
  load_configuration Scenario.cwd "ghost"
    (Some [Scenario.defaults_doc; Scenario.web_doc; Scenario.nas_doc])
  = Ok Scenario.default_profile /\
  load_configuration Scenario.cwd "ghost"
    (Some [Scenario.defaults_doc; Scenario.unnamed_doc; Scenario.nas_doc])
  = Ok Scenario.default_profile.
Proof.
  split; [|split].
  - apply (proj1 (resolution_field_by_field_override Scenario.cwd "nas"
                    Scenario.defaults_doc [Scenario.web_doc; Scenario.nas_doc])
             [Scenario.web_doc] Scenario.nas_doc []).
    + reflexivity.
    + reflexivity.
    + constructor.
  - apply (proj1 (proj2 (resolution_field_by_field_override Scenario.cwd "ghost"
                    Scenario.defaults_doc [Scenario.web_doc; Scenario.nas_doc]))).
    repeat constructor; vm_compute; discriminate.
  - apply (proj2 (proj2 (resolution_field_by_field_override Scenario.cwd "ghost"
                    Scenario.defaults_doc
                    [Scenario.unnamed_doc; Scenario.nas_doc]))).
    + vm_compute. discriminate.
    + repeat constructor; discriminate.
Defined.


(** A fragment without a [name] key answers to the default profile's
    name: invoked without selector, the script runs its merge. *)
Example unnamed_fragment_answers_to_default :
  load_configuration Scenario.cwd "default"
    (Some [Scenario.defaults_doc; Scenario.unnamed_doc])
  = Ok (load Scenario.default_profile Scenario.unnamed_doc) /\
  targetfolder (load Scenario.default_profile Scenario.unnamed_doc)
  = "/elsewhere/"%string.
Proof. split; reflexivity. Qed.

(** An empty configuration file leaves [param] unbound. *)
Example no_document_no_param :
  load_configuration Scenario.cwd "default" (Some []) = Raised Py.NameError.
Proof. reflexivity. Qed.

(* ===================================================================== *)
(** ** Planning: which entries are downloaded *)
(* ===================================================================== *)

Lemma only_logged_refl (w : World) : only_logged w w.
Proof. repeat split. Qed.

Lemma only_logged_trans (w1 w2 w3 : World) :
  only_logged w1 w2 -> only_logged w2 w3 -> only_logged w1 w3.
Proof.
  unfold only_logged. intros (?&?&?&?&?&?) (?&?&?&?&?&?).
  repeat split; congruence.
Qed.

Lemma only_logged_with_log (r : level * message) (w : World) :
  only_logged w (with_log r w).
Proof. repeat split. Qed.

Lemma filter_is_get_snoc (l : list remote_call) (c : remote_call) :
  is_get c = false -> List.filter is_get (l ++ [c]) = List.filter is_get l.
Proof.
  intros H. rewrite List.filter_app. simpl. rewrite H. apply app_nil_r.
Qed.

Lemma only_logged_with_call (c : remote_call) (w : World) :
  is_get c = false -> only_logged w (with_call c w).
Proof.
  intros H. repeat split. simpl. now apply filter_is_get_snoc.
Qed.

Create HintDb script.

#[local] Hint Resolve only_logged_refl only_logged_with_log
  only_logged_with_call : script.

Lemma emit_nil (threshold : level) (handler : option (list (level * message))) :
  emit threshold [] handler = handler.
Proof. destruct handler; simpl; [now rewrite app_nil_r|reflexivity]. Qed.

Lemma emit_emit (threshold : level) (l1 l2 : list (level * message))
  (handler : option (list (level * message))) :
  emit threshold l2 (emit threshold l1 handler) = emit threshold (l1 ++ l2) handler.
Proof.
  destruct handler; simpl; [|reflexivity].
  now rewrite List.filter_app, app_assoc.
Qed.

Lemma add_logs_nil (w : World) : add_logs [] w = w.
Proof.
  destruct w; unfold add_logs; simpl. now rewrite app_nil_r, !emit_nil.
Qed.

Lemma add_logs_add_logs (l1 l2 : list (level * message)) (w : World) :
  add_logs l2 (add_logs l1 w) = add_logs (l1 ++ l2) w.
Proof. unfold add_logs; simpl. now rewrite app_assoc, !emit_emit. Qed.

Lemma logged_refl (w : World) : logged w w.
Proof. exists []. symmetry. apply add_logs_nil. Qed.

Lemma logged_with_log (r : level * message) (w w' : World) :
  logged w w' -> logged w (with_log r w').
Proof.
  intros [l ->]. exists (l ++ [r]).
  unfold with_log, add_logs; cbn [fs nb_files_download nb_files_error tot_size
    log ticks remote_calls fh eh].
  now rewrite app_assoc, !emit_emit.
Qed.

Lemma logged_trans (w1 w2 w3 : World) :
  logged w1 w2 -> logged w2 w3 -> logged w1 w3.
Proof.
  intros [l1 ->] [l2 ->]. exists (l1 ++ l2). apply add_logs_add_logs.
Qed.

Lemma logged_only_logged (w w' : World) : logged w w' -> only_logged w w'.
Proof. intros [l ->]. repeat split. Qed.

#[local] Hint Resolve logged_refl logged_with_log logged_only_logged : script.

(** The value of [to_download] as a boolean expression. *)
Lemma plan_value (param : gr_param) (lastsync_date : Z) (filetoget : string)
  (filestat : SFTPAttributes) (w : World) :
  exists w',
    plan param lastsync_date filetoget filestat w =
    (Ok (S_ISREG (st_mode filestat) &&
         ((sync param &&
           negb (bool_decide (is_Some (fs w !! (targetfolder param +:+ filetoget)))))
          || (st_mtime filestat >? lastsync_date))), w') /\
    logged w w'.
Proof.
  unfold plan, when, bind, ret, logger, pprint, os_path_isfile.
  destruct (S_ISREG (st_mode filestat)), (debug param), (sync param); simpl;
    try destruct (bool_decide _);
    destruct (st_mtime filestat >? lastsync_date); simpl;
    eexists; (split; [reflexivity|]); auto 6 with script.
Qed.


Example directory_is_skipped :
  (plan Scenario.profile 0 "archive" (Scenario.directory 500)
     (initial_world ∅)).1 = Ok false.
Proof. reflexivity. Qed.

(** Scenario A: empty local folder, no state file, sync mode: both files
    are fetched and the date saved is the clock's. *)
Example scenario_A :
  let outcome := run Scenario.healthy_env Scenario.profile (initial_world ∅) in
  nb_files_download outcome.2 = 2 /\
  tot_size outcome.2 = 12 /\
  fs outcome.2 !! "/local/fileA"%string = Some "AAAAA"%string /\
  fs outcome.2 !! "/local/fileB"%string = Some "BBBBBBB"%string /\
  fs outcome.2 !! "/state/last.txt"%string = Some "1010"%string.
Proof. vm_compute. repeat split. Qed.

(** Scenario B: the run repeated on the disk it left fetches nothing. *)
Example scenario_B :
  let outcome :=
    run Scenario.healthy_env Scenario.profile
      (initial_world Scenario.disk_after_run) in
  nb_files_download outcome.2 = 0 /\
  List.filter is_get (remote_calls outcome.2) = [].
Proof. vm_compute. repeat split. Qed.

(** Scenario C, with [fileB] as the file changed (modified at 300) since
    the last run (date 200): it alone is fetched again; its previous
    copy goes to the backup name and the backup is removed. *)
Example scenario_C :
  let outcome :=
    run Scenario.healthy_env Scenario.profile
      (initial_world (<["/local/fileB"%string := "old B"%string]>
                        (<["/state/last.txt"%string := "200"%string]>
                           (<["/local/fileA"%string := "old A"%string]> ∅)))) in
  List.filter is_get (remote_calls outcome.2) = [RGet "/remote/fileB"] /\
  In (DEBUG, Backup_previous_version "/local/fileB.back") (log outcome.2) /\
  fs outcome.2 !! "/local/fileA"%string = Some "old A"%string /\
  fs outcome.2 !! "/local/fileB"%string = Some "BBBBBBB"%string /\
  fs outcome.2 !! "/local/fileB.back"%string = None.
Proof. vm_compute. repeat split. tauto. Qed.

(* ===================================================================== *)
(** ** Relations kept by every stage *)
(* ===================================================================== *)

Section Keeps.

Variable R : World -> World -> Prop.
Hypothesis R_refl : forall w, R w w.
Hypothesis R_trans : forall w1 w2 w3, R w1 w2 -> R w2 w3 -> R w1 w3.

Lemma keeps_ret {A : Type} (a : A) : keeps R (ret a).
Proof. intros w. apply R_refl. Qed.

Lemma keeps_raise {A : Type} (e : Py.exn) : keeps R (raise (A:=A) e).
Proof. intros w. apply R_refl. Qed.

Lemma keeps_exit {A : Type} : keeps R (exit (A:=A)).
Proof. intros w. apply R_refl. Qed.

Lemma keeps_bind {A B : Type} (m : M A) (k : A -> M B) :
  keeps R m -> (forall a, keeps R (k a)) -> keeps R (bind m k).
Proof.
  intros Hm Hk w. unfold bind. specialize (Hm w).
  destruct (m w) as [[a| |e] w1]; simpl in *; try exact Hm.
  eapply R_trans; [exact Hm|]. apply Hk.
Qed.

Lemma keeps_try {A : Type} (m : M A) : keeps R m -> keeps R (try m).
Proof.
  intros Hm w. unfold try. specialize (Hm w). now destruct (m w).
Qed.

Lemma keeps_when (b : bool) (m : M unit) : keeps R m -> keeps R (when b m).
Proof. intros Hm. destruct b; [exact Hm|apply keeps_ret]. Qed.

Lemma keeps_for_each {A : Type} (l : list A) (body : A -> M unit) :
  (forall x, In x l -> keeps R (body x)) -> keeps R (for_each l body).
Proof.
  induction l as [|x l IH]; intros Hb; simpl.
  - apply keeps_ret.
  - apply keeps_bind; [apply Hb; now left|].
    intros _. apply IH. intros y Hy. apply Hb. now right.
Qed.

Hypothesis R_log : forall r w, R w (with_log r w).

Lemma keeps_logger (lv : level) (m : message) : keeps R (logger lv m).
Proof. intros w. apply R_log. Qed.

Lemma keeps_logger_debuginfo (m : message) : keeps R (logger_debuginfo m).
Proof. apply keeps_raise. Qed.

Lemma keeps_os_path_isfile (p : string) : keeps R (os_path_isfile p).
Proof. intros w. apply R_refl. Qed.

Lemma keeps_time_ctime (env : Env) (t : Z) : keeps R (time_ctime env t).
Proof.
  unfold time_ctime. destruct (ctime_ok env t);
    [apply keeps_ret|apply keeps_raise].
Qed.

Lemma keeps_logged (w w' : World) : logged w w' -> R w w'.
Proof.
  intros [l ->]. revert w.
  induction l as [|r l IH] using rev_ind; intros w.
  - rewrite add_logs_nil. apply R_refl.
  - rewrite <- add_logs_add_logs. eapply R_trans; [apply IH|]. apply R_log.
Qed.

Lemma keeps_plan (param : gr_param) (lastsync_date : Z) (filetoget : string)
  (filestat : SFTPAttributes) :
  keeps R (plan param lastsync_date filetoget filestat).
Proof.
  intros w.
  destruct (plan_value param lastsync_date filetoget filestat w)
    as (w' & E & L).
  rewrite E. now apply keeps_logged.
Qed.

End Keeps.

(** One step through the structure of a stage; [side] closes the
    conditions on the relation, [prim] the primitives that matter for it. *)
Ltac keeps_step side prim :=
  cbv beta;
  match goal with
  | |- forall _, keeps _ _ => intro
  | |- keeps _ (bind _ _) => apply keeps_bind; [side| |]
  | |- keeps _ (when _ _) => apply keeps_when; [side|]
  | |- keeps _ (try _) => apply keeps_try
  | |- keeps _ (logger _ _) => apply keeps_logger; side
  | |- keeps _ (ret _) => apply keeps_ret; side
  | |- keeps _ exit => apply keeps_exit; side
  | |- keeps _ (raise _) => apply keeps_raise; side
  | |- keeps _ (logger_debuginfo _) => apply keeps_logger_debuginfo; side
  | |- keeps _ (time_ctime _ _) => apply keeps_time_ctime; side
  | |- keeps _ (os_path_isfile _) => apply keeps_os_path_isfile; side
  | |- keeps _ (plan _ _ _ _) => apply keeps_plan; side
  | |- keeps _ (match ?r with _ => _ end) => destruct r
  | |- keeps _ _ => prim
  end.

(* ===================================================================== *)
(** ** What the file handlers write *)
(* ===================================================================== *)

Lemma handlers_appended_refl (w : World) : handlers_appended w w.
Proof. exists []. now rewrite app_nil_r, !emit_nil. Qed.

Lemma handlers_appended_trans (w1 w2 w3 : World) :
  handlers_appended w1 w2 -> handlers_appended w2 w3 ->
  handlers_appended w1 w3.
Proof.
  intros (l1 & L1 & F1 & E1) (l2 & L2 & F2 & E2). exists (l1 ++ l2).
  rewrite L2, L1, F2, F1, E2, E1, app_assoc, !emit_emit. auto.
Qed.

Lemma handlers_appended_log (r : level * message) (w : World) :
  handlers_appended w (with_log r w).
Proof. exists [r]. auto. Qed.

(** A step that logs nothing leaves the log files as they are. *)
Lemma handlers_appended_same (w w' : World) :
  log w' = log w -> fh w' = fh w -> eh w' = eh w -> handlers_appended w w'.
Proof.
  intros L F E. exists []. now rewrite L, F, E, app_nil_r, !emit_nil.
Qed.

(** With no file handler attached there is no log file to write. *)
Lemma handlers_appended_none (w w' : World) :
  handlers_appended w w' -> fh w = None -> eh w = None ->
  fh w' = None /\ eh w' = None.
Proof. intros (l & _ & -> & ->) -> ->. auto. Qed.

(** A primitive that does not log. *)
Ltac silent :=
  let w := fresh "w" in
  intros w;
  unfold os_rename, os_remove, open_read, open_w, write_close, time_time,
    sftp_connect, sftp_listdir, sftp_stat, sftp_get, sftp_close,
    count_error, count_download;
  repeat case_match;
  apply handlers_appended_same; reflexivity.

Ltac handlers_side :=
  first [ apply handlers_appended_refl | apply handlers_appended_trans
        | apply handlers_appended_log ].

Section Handlers.

Variables (env : Env) (param : gr_param).

Let R : World -> World -> Prop := handlers_appended.

Lemma handlers_pprint (m : message) : keeps R (pprint m).
Proof. intros w. apply handlers_appended_log. Qed.

Lemma handlers_get_last_sync : keeps R (get_last_sync env param).
Proof. unfold get_last_sync. repeat keeps_step handlers_side silent. Qed.

Lemma handlers_open_connection : keeps R (open_connection env param).
Proof. unfold open_connection. repeat keeps_step handlers_side silent. Qed.

Lemma handlers_get_filelist : keeps R (get_filelist env param).
Proof.
  unfold get_filelist.
  repeat keeps_step handlers_side
    ltac:(first [apply handlers_pprint | silent]).
Qed.

Lemma handlers_prologue : keeps R (prologue env param).
Proof.
  unfold prologue.
  repeat keeps_step handlers_side
    ltac:(first [ apply handlers_get_last_sync | apply handlers_open_connection
                | apply handlers_get_filelist | silent
                | (intros w; apply handlers_appended_same; reflexivity) ]).
Qed.

Lemma handlers_transfer (filetoget : string) (filestat : SFTPAttributes) :
  keeps R (transfer env param filetoget filestat).
Proof. unfold transfer. repeat keeps_step handlers_side silent. Qed.

Lemma handlers_loop_body (lastsync_date : Z) (filetoget : string) :
  keeps R (loop_body env param lastsync_date filetoget).
Proof.
  unfold loop_body.
  repeat keeps_step handlers_side
    ltac:(first [apply handlers_transfer | silent]).
Qed.

Lemma handlers_main_loop (lastsync_date : Z) (filelist : list string) :
  keeps R (main_loop env param lastsync_date filelist).
Proof.
  unfold main_loop. apply keeps_for_each.
  - apply handlers_appended_refl.
  - apply handlers_appended_trans.
  - intros filetoget _. apply handlers_loop_body.
Qed.

Lemma handlers_epilogue (start_time : Q) : keeps R (epilogue env param start_time).
Proof.
  unfold epilogue, close_connection, save_last_sync, finish.
  repeat keeps_step handlers_side
    ltac:(first [silent | (intros w; apply handlers_appended_log)]).
Qed.

(** The log files over a whole run, however it ends: each handler
    attached has appended the records logged that its level admits, in
    order, and nothing else. *)
Lemma handlers_run : keeps R (run env param).
Proof.
  unfold run.
  repeat keeps_step handlers_side
    ltac:(first [ apply handlers_prologue | apply handlers_main_loop
                | apply handlers_epilogue ]).
Qed.

End Handlers.

(* ===================================================================== *)
(** ** The loop and the per-file protocol *)
(* ===================================================================== *)

Lemma for_each_app {A : Type} (l1 l2 : list A) (body : A -> M unit) (w : World) :
  for_each (l1 ++ l2) body w =
  match for_each l1 body w with
  | (Ok _, w1) => for_each l2 body w1
  | (Exited, w1) => (Exited, w1)
  | (Raised e, w1) => (Raised e, w1)
  end.
Proof.
  revert w. induction l1 as [|x l1 IH]; intros w; simpl.
  - reflexivity.
  - unfold bind. destruct (body x w) as [[[]| |e] w1]; auto.
Qed.

Lemma length_append (s t : string) :
  String.length (s +:+ t) = (String.length s + String.length t)%nat.
Proof. induction s as [|c s IH]; simpl; [reflexivity|]. now rewrite IH. Qed.

(** The backup path is never the destination path. *)
Lemma backup_path_differs (localpath : string) : localpath +:+ ".back" <> localpath.
Proof.
  intros H. apply (f_equal String.length) in H.
  rewrite length_append in H. simpl in H. lia.
Qed.

Section Protocol.

Variables (env : Env) (param : gr_param).

(** The rename to the backup path fails: [exit()], nothing but log
    records added. *)
Lemma transfer_rename_fails (filetoget : string) (filestat : SFTPAttributes)
  (w : World) :
  ctime_ok env (st_mtime filestat) = true ->
  is_Some (fs w !! (targetfolder param +:+ filetoget)) ->
  rename_fails env (targetfolder param +:+ filetoget)
    ((targetfolder param +:+ filetoget) +:+ ".back") = true ->
  exists w', transfer env param filetoget filestat w = (Exited, w') /\
             logged w w' /\ last (log w') = Some (INFO, END).
Proof.
  intros Hc [old Hf] Hr.
  unfold transfer, bind, time_ctime, logger, os_path_isfile, when, try,
    os_rename, exit, ret.
  repeat (progress (rewrite ?Hc, ?Hf, ?Hr; simpl)).
  eexists. split; [reflexivity|]. split.
  - auto 8 with script.
  - simpl. rewrite !last_snoc. reflexivity.
Qed.

Lemma loop_body_rename_fails (lastsync_date : Z) (filetoget : string)
  (filestat : SFTPAttributes) (w : World) :
  stat env (sourcefolder param +:+ filetoget) = Some filestat ->
  S_ISREG (st_mode filestat) = true ->
  st_mtime filestat > lastsync_date ->
  simulation param = false ->
  ctime_ok env (st_mtime filestat) = true ->
  is_Some (fs w !! (targetfolder param +:+ filetoget)) ->
  rename_fails env (targetfolder param +:+ filetoget)
    ((targetfolder param +:+ filetoget) +:+ ".back") = true ->
  exists w', loop_body env param lastsync_date filetoget w = (Exited, w') /\
             logged (with_call (RStat (sourcefolder param +:+ filetoget)) w) w' /\
             last (log w') = Some (INFO, END).
Proof.
  intros Hs Hreg Hm Hsim Hc Hf Hr.
  unfold loop_body, bind at 1. unfold sftp_stat at 1. rewrite Hs.
  set (w0 := with_call _ w).
  destruct (plan_value param lastsync_date filetoget filestat w0)
    as (w1 & Hp & L1).
  unfold bind at 1. rewrite Hp.
  apply Z.gtb_gt in Hm. rewrite Hreg, Hm, orb_true_r. simpl.
  rewrite Hsim. simpl.
  destruct L1 as [l ->].
  destruct (transfer_rename_fails filetoget filestat (add_logs l w0) Hc)
    as (w' & Ht & L & E); auto.
  exists w'. split; [exact Ht|]. split; [|exact E].
  eapply logged_trans; [|exact L]. now exists l.
Qed.

End Protocol.

(** C4.  When the loop reaches an entry to download whose local file
    exists and the rename of that file to its backup path fails, the run
    ends there through [exit()]: the local files are those found when
    the entry was reached, the log files apart (no date of last
    synchronisation is written),
    the clock is not read again, and the only call made on the remote
    session after the entries before it is the attribute query of the
    entry itself, whatever entries follow. *)
Theorem backup_rename_failure_aborts_run :
  forall (env : Env) (param : gr_param) (w w0 w1 : World)
         (start_time : Q) (lastsync_date : Z)
         (before after : list string) (filetoget : string)
         (filestat : SFTPAttributes),
    prologue env param w
    = (Ok (start_time, lastsync_date, before ++ filetoget :: after), w0) ->
    main_loop env param lastsync_date before w0 = (Ok tt, w1) ->
    stat env (sourcefolder param +:+ filetoget) = Some filestat ->
    S_ISREG (st_mode filestat) = true ->
    st_mtime filestat > lastsync_date ->
    simulation param = false ->
    ctime_ok env (st_mtime filestat) = true ->
    is_Some (fs w1 !! (targetfolder param +:+ filetoget)) ->
    rename_fails env (targetfolder param +:+ filetoget)
      ((targetfolder param +:+ filetoget) +:+ ".back") = true ->
    exists w2,
      run env param w = (Exited, w2) /\
      fs w2 = fs w1 /\
      ticks w2 = ticks w1 /\
      remote_calls w2
      = remote_calls w1 ++ [RStat (sourcefolder param +:+ filetoget)] /\
      last (log w2) = Some (INFO, END).
Proof.
  intros env param w w0 w1 start_time lastsync_date before after filetoget
    filestat Hpro Hloop Hs Hreg Hm Hsim Hc Hf Hr.
  destruct (loop_body_rename_fails env param lastsync_date filetoget filestat
              w1 Hs Hreg Hm Hsim Hc Hf Hr) as (w2 & Hb & [l ->] & Hlast).
  eexists. split.
  - unfold run, bind at 1. rewrite Hpro. simpl.
    unfold bind at 1. unfold main_loop in *.
    rewrite for_each_app, Hloop. simpl.
    unfold bind at 1. rewrite Hb. reflexivity.
  - simpl. auto.
Qed.

Lemma backup_rename_failure_aborts_run_witness :
  let env := Scenario.broken_rename_env in
  let w := initial_world Scenario.disk_with_A in
  let w0 := (prologue env Scenario.profile w).2 in
  exists w2,
    run env Scenario.profile w = (Exited, w2) /\
    fs w2 = fs w0 /\
    ticks w2 = ticks w0 /\
    remote_calls w2 = remote_calls w0 ++ [RStat "/remote/fileA"] /\
    last (log w2) = Some (INFO, END).
Proof.
  intros env w w0.
  apply (backup_rename_failure_aborts_run env Scenario.profile w w0 w0
           (inject_Z 1000) 50 [] ["fileB"%string] "fileA"
           (Scenario.regular 100 5)).
  - vm_compute. reflexivity.
  - reflexivity.
  - reflexivity.
  - reflexivity.
  - reflexivity.
  - reflexivity.
  - reflexivity.
  - exists "old A"%string. vm_compute. reflexivity.
  - reflexivity.
Defined.

Section Fetch_outcomes.

Variables (env : Env) (param : gr_param).
Variables (filetoget : string) (filestat : SFTPAttributes).

Let path : string := sourcefolder param +:+ filetoget.
Let localpath : string := targetfolder param +:+ filetoget.
Let localpath_backup : string := localpath +:+ ".back".

Hypothesis ctime_defined : ctime_ok env (st_mtime filestat) = true.

(** The fetch fails after the previous version was moved aside: the
    handler counts the error, then [logger.debuginfo] raises before the
    rename that would restore the file. *)
Lemma transfer_fetch_fails_after_backup (w : World) (old : string)
  (left_behind : option string) :
  fs w !! localpath = Some old ->
  rename_fails env localpath localpath_backup = false ->
  get env path = GetFails left_behind ->
  exists w',
    transfer env param filetoget filestat w = (Raised Py.AttributeError, w') /\
    fs w' !! localpath = left_behind /\
    fs w' !! localpath_backup = Some old /\
    nb_files_error w' = nb_files_error w + 1.
Proof.
  intros Hf Hr Hg.
  assert (Hne : localpath_backup <> localpath)
    by apply backup_path_differs.
  unfold transfer, bind, time_ctime, logger, os_path_isfile, when, try,
    os_rename, sftp_get, count_error, logger_debuginfo, raise, exit, ret.
  fold path localpath localpath_backup.
  repeat (progress (rewrite ?ctime_defined, ?Hf, ?Hr, ?Hg; simpl)).
  destruct left_behind as [partial|]; simpl.
  - rewrite lookup_insert_ne by congruence. rewrite lookup_insert_eq. simpl.
    eexists. split; [reflexivity|]. simpl.
    rewrite lookup_insert_eq, lookup_insert_ne by congruence.
    rewrite lookup_insert_eq. auto.
  - rewrite lookup_insert_eq. simpl.
    eexists. split; [reflexivity|]. simpl.
    rewrite lookup_insert_eq, lookup_insert_ne by congruence.
    rewrite lookup_delete_eq. auto.
Qed.

(** The fetch fails and no file sits at the backup path: the error is
    counted and the call returns normally. *)
Lemma transfer_fetch_fails_without_backup (w : World)
  (left_behind : option string) :
  fs w !! localpath = None ->
  fs w !! localpath_backup = None ->
  get env path = GetFails left_behind ->
  exists w',
    transfer env param filetoget filestat w = (Ok tt, w') /\
    fs w' !! localpath = left_behind /\
    nb_files_error w' = nb_files_error w + 1 /\
    nb_files_download w' = nb_files_download w.
Proof.
  intros Hf Hb Hg.
  assert (Hne : localpath_backup <> localpath)
    by apply backup_path_differs.
  unfold transfer, bind, time_ctime, logger, os_path_isfile, when, try,
    os_rename, sftp_get, count_error, logger_debuginfo, raise, exit, ret.
  fold path localpath localpath_backup.
  repeat (progress (rewrite ?ctime_defined, ?Hf, ?Hg; simpl)).
  destruct left_behind as [partial|]; simpl.
  - rewrite lookup_insert_ne by congruence. rewrite Hb. simpl.
    eexists. split; [reflexivity|]. simpl. now rewrite lookup_insert_eq.
  - rewrite Hb. simpl. eexists. split; [reflexivity|]. auto.
Qed.

(** The fetch fails while a file not made by this transfer sits at the
    backup path: same exception, the file stays where it was. *)
Lemma transfer_fetch_fails_beside_stale_backup (w : World) (stale : string)
  (left_behind : option string) :
  fs w !! localpath = None ->
  fs w !! localpath_backup = Some stale ->
  get env path = GetFails left_behind ->
  exists w',
    transfer env param filetoget filestat w = (Raised Py.AttributeError, w') /\
    fs w' !! localpath = left_behind /\
    fs w' !! localpath_backup = Some stale.
Proof.
  intros Hf Hb Hg.
  assert (Hne : localpath_backup <> localpath)
    by apply backup_path_differs.
  unfold transfer, bind, time_ctime, logger, os_path_isfile, when, try,
    os_rename, sftp_get, count_error, logger_debuginfo, raise, exit, ret.
  fold path localpath localpath_backup.
  repeat (progress (rewrite ?ctime_defined, ?Hf, ?Hg; simpl)).
  destruct left_behind as [partial|]; simpl.
  - rewrite lookup_insert_ne by congruence. rewrite Hb. simpl.
    eexists. split; [reflexivity|]. simpl.
    rewrite lookup_insert_eq, lookup_insert_ne by congruence. auto.
  - rewrite Hb. simpl. eexists. split; [reflexivity|]. auto.
Qed.

(** The fetch succeeds: whatever file is then at the backup path - the
    previous version just moved there, or a file that was there before -
    is removed. *)
Lemma transfer_success_clears_backup_path (w : World) (content : string) :
  rename_fails env localpath localpath_backup = false ->
  remove_fails env localpath_backup = false ->
  get env path = GetOk content ->
  exists w',
    transfer env param filetoget filestat w = (Ok tt, w') /\
    fs w' !! localpath = Some content /\
    fs w' !! localpath_backup = None /\
    nb_files_download w' = nb_files_download w + 1 /\
    tot_size w' = tot_size w + st_size filestat /\
    nb_files_error w' = nb_files_error w.
Proof.
  intros Hr Hrm Hg.
  assert (Hne : localpath_backup <> localpath)
    by apply backup_path_differs.
  unfold transfer, bind, time_ctime, logger, os_path_isfile, when, try,
    os_rename, os_remove, sftp_get, count_download, raise, exit, ret.
  fold path localpath localpath_backup.
  rewrite ctime_defined. simpl.
  destruct (fs w !! localpath) as [old|] eqn:Hf; simpl.
  - repeat (progress (rewrite ?Hf, ?Hr, ?Hg; simpl)).
    rewrite lookup_insert_ne by congruence. rewrite lookup_insert_eq. simpl.
    rewrite lookup_insert_ne by congruence. rewrite lookup_insert_eq.
    rewrite Hrm. eexists. split; [reflexivity|]. simpl.
    rewrite lookup_delete_ne by congruence.
    rewrite lookup_insert_eq, lookup_delete_eq. auto.
  - rewrite Hg. simpl.
    rewrite lookup_insert_ne by congruence.
    destruct (fs w !! localpath_backup) as [stale|] eqn:Hb; simpl.
    + rewrite lookup_insert_ne by congruence. rewrite Hb, Hrm.
      eexists. split; [reflexivity|]. simpl.
      rewrite lookup_delete_ne by congruence.
      rewrite lookup_insert_eq, lookup_delete_eq. auto.
    + eexists. split; [reflexivity|]. simpl.
      rewrite lookup_insert_eq, lookup_insert_ne by congruence. auto.
Qed.

End Fetch_outcomes.

(** C1 (the code departs from it).  Scenario D at the level of one entry:
    [fileA] exists locally, its fetch breaks after three bytes.  The
    per-entry code ends with [AttributeError] raised by
    [logger.debuginfo]; the destination holds the three bytes, the
    previous content is still under the backup name. *)
Theorem prior_file_not_restored_when_fetch_fails :
  let w := initial_world Scenario.disk_with_A in
  let outcome :=
    transfer Scenario.broken_fetch_env Scenario.profile "fileA"
      (Scenario.regular 100 5) w in
  fs w !! "/local/fileA"%string = Some "old A"%string /\
  outcome.1 = Raised Py.AttributeError /\
  fs outcome.2 !! "/local/fileA"%string = Some "AAA"%string /\
  fs outcome.2 !! "/local/fileA.back"%string = Some "old A"%string.
Proof. vm_compute. repeat split. Qed.

(** C3 (the code departs from it).  Scenario D as a whole run: the date
    of the last synchronisation is 50, [fileA] (modified at 100) exists
    locally and its fetch fails, [fileB] follows.  The error is counted
    once, then the run ends with [AttributeError]: [fileB] is never
    examined and the state file still holds 50. *)
Theorem failed_fetch_after_backup_ends_run :
  let outcome :=
    run Scenario.broken_fetch_env Scenario.profile
      (initial_world Scenario.disk_with_A) in
  outcome.1 = Raised Py.AttributeError /\
  nb_files_error outcome.2 = 1 /\
  remote_calls outcome.2
  = [RConnect "backup.example.org" 22; RListdir "/remote/";
     RStat "/remote/fileA"; RGet "/remote/fileA"] /\
  fs outcome.2 !! "/state/last.txt"%string = Some "50"%string.
Proof. vm_compute. repeat split. Qed.

(** The same failing fetch when [fileA] has no local copy and nothing
    sits at the backup path: the error is counted, [fileB] is fetched and
    the date is saved. *)
Example failed_fetch_without_backup_is_recovered :
  let w := initial_world (<["/state/last.txt"%string := "50"%string]> ∅) in
  let outcome := run Scenario.broken_fetch_env Scenario.profile w in
  outcome.1 = Ok {| start_time := inject_Z 1000; end_time := inject_Z 1030;
                    duration_text := " 30 sec" |} /\
  nb_files_error outcome.2 = 1 /\
  nb_files_download outcome.2 = 1 /\
  fs outcome.2 !! "/local/fileB"%string = Some "BBBBBBB"%string /\
  fs outcome.2 !! "/state/last.txt"%string = Some "1010"%string.
Proof. vm_compute. repeat split. Qed.

(** C10 (the code departs from it on the failure side).  The local
    folder holds [dump.back], fetched earlier from a remote file of that
    name, and no [dump]; the fetch of [dump] fails.  The per-entry code
    ends with [AttributeError]: [dump.back] is not renamed onto [dump]. *)
Theorem stale_backup_not_renamed_when_fetch_fails :
  let w := initial_world Scenario.disk_with_dump_back in
  let outcome :=
    transfer Scenario.dump_fails_env Scenario.profile "dump"
      (Scenario.regular 100 4) w in
  outcome.1 = Raised Py.AttributeError /\
  fs outcome.2 !! "/local/dump"%string = None /\
  fs outcome.2 !! "/local/dump.back"%string = Some "an earlier download"%string.
Proof. vm_compute. repeat split. Qed.

(** On success the same stale file is deleted. *)
Example stale_backup_deleted_on_success :
  let w := initial_world Scenario.disk_with_dump_back in
  let outcome :=
    transfer Scenario.dump_ok_env Scenario.profile "dump"
      (Scenario.regular 100 4) w in
  outcome.1 = Ok tt /\
  fs outcome.2 !! "/local/dump"%string = Some "DUMP"%string /\
  fs outcome.2 !! "/local/dump.back"%string = None.
Proof. vm_compute. repeat split. Qed.

(* ===================================================================== *)
(** ** What follows the loop *)
(* ===================================================================== *)

Lemma epilogue_spec (env : Env) (param : gr_param) (start : Q) (w1 : World) :
  exists rep w2,
    epilogue env param start w1 = (Ok rep, w2) /\
    start_time rep = start /\
    duration_text rep = humanduration start (end_time rep) /\
    nb_files_download w2 = nb_files_download w1 /\
    nb_files_error w2 = nb_files_error w1 /\
    tot_size w2 = tot_size w1 /\
    List.filter is_get (remote_calls w2) = List.filter is_get (remote_calls w1) /\
    match open_w_fails env (last_exec_filename param),
          write_fails env (last_exec_filename param) with
    | true, _ =>
        fs w2 = fs w1 /\ ticks w2 = S (ticks w1) /\
        end_time rep = clock env (ticks w1) /\
        In (ERROR, Unable_to_save_date) (log w2)
    | false, true =>
        fs w2 = <[last_exec_filename param := ""%string]> (fs w1) /\
        ticks w2 = S (S (ticks w1)) /\
        end_time rep = clock env (S (ticks w1)) /\
        In (ERROR, Unable_to_save_date) (log w2)
    | false, false =>
        fs w2 = <[last_exec_filename param :=
                    Py.str (Py.int_of_float (clock env (ticks w1)))]> (fs w1) /\
        ticks w2 = S (S (S (ticks w1))) /\
        end_time rep = clock env (S (S (ticks w1)))
    end.
Proof.
  unfold epilogue, close_connection, save_last_sync, finish, bind, try,
    logger, sftp_close, open_w, time_time, write_close, ret.
  simpl.
  destruct (close_ok env), (open_w_fails env (last_exec_filename param)),
    (write_fails env (last_exec_filename param)); simpl;
    eexists _, _; (split; [reflexivity|]); simpl;
    rewrite ?filter_is_get_snoc by reflexivity;
    rewrite ?insert_insert_eq;
    repeat split; auto;
    rewrite ?in_app_iff; simpl; tauto.
Qed.

Lemma run_after_loop (env : Env) (param : gr_param) (w w0 w1 : World)
  (start : Q) (lastsync_date : Z) (filelist : list string) :
  prologue env param w = (Ok (start, lastsync_date, filelist), w0) ->
  main_loop env param lastsync_date filelist w0 = (Ok tt, w1) ->
  run env param w = epilogue env param start w1.
Proof.
  intros Hpro Hloop. unfold run, bind. rewrite Hpro. simpl. now rewrite Hloop.
Qed.

(** C8.  Once the main loop has completed - whatever happened to the
    individual files - the run goes to its end and tries to save the
    date.  The date written is [int(time.time())] for the first clock
    reading that follows the loop, a value that depends on the clock
    alone and not on any remote modification time; when opening or
    writing the state file fails the run still ends normally, with the
    error "Unable to save date of last download" in the log. *)
Theorem date_saved_is_wall_clock :
  forall (env : Env) (param : gr_param) (w w0 w1 : World)
         (start : Q) (lastsync_date : Z) (filelist : list string),
    prologue env param w = (Ok (start, lastsync_date, filelist), w0) ->
    main_loop env param lastsync_date filelist w0 = (Ok tt, w1) ->
    exists rep w2,
      run env param w = (Ok rep, w2) /\
      (open_w_fails env (last_exec_filename param) = false ->
       write_fails env (last_exec_filename param) = false ->
       fs w2 !! last_exec_filename param
       = Some (Py.str (Py.int_of_float (clock env (ticks w1))))) /\
      (open_w_fails env (last_exec_filename param) = true \/
       write_fails env (last_exec_filename param) = true ->
       In (ERROR, Unable_to_save_date) (log w2)).
Proof.
  intros env param w w0 w1 start lastsync_date filelist Hpro Hloop.
  rewrite (run_after_loop _ _ _ _ _ _ _ _ Hpro Hloop).
  destruct (epilogue_spec env param start w1)
    as (rep & w2 & E & _ & _ & _ & _ & _ & _ & H).
  exists rep, w2. split; [exact E|].
  destruct (open_w_fails env (last_exec_filename param)),
    (write_fails env (last_exec_filename param)).
  - split; [discriminate|]. intros _. apply H.
  - split; [discriminate|]. intros _. apply H.
  - split; [discriminate|]. intros _. apply H.
  - destruct H as (Hfs & _). split.
    + intros _ _. rewrite Hfs. apply lookup_insert_eq.
    + intros [?|?]; discriminate.
Qed.

Lemma date_saved_is_wall_clock_witness :
  let env := Scenario.healthy_env in
  let w := initial_world Scenario.disk_with_A in
  exists rep w2,
    run env Scenario.profile w = (Ok rep, w2) /\
    (open_w_fails env "/state/last.txt" = false ->
     write_fails env "/state/last.txt" = false ->
     fs w2 !! "/state/last.txt"%string = Some "1010"%string) /\
    (open_w_fails env "/state/last.txt" = true \/
     write_fails env "/state/last.txt" = true ->
     In (ERROR, Unable_to_save_date) (log w2)).
Proof.
  intros env w.
  apply (date_saved_is_wall_clock env Scenario.profile w
           (prologue env Scenario.profile w).2
           (main_loop env Scenario.profile 50 ["fileA"; "fileB"]%string
              (prologue env Scenario.profile w).2).2
           (inject_Z 1000) 50 ["fileA"; "fileB"]%string).
  - vm_compute. reflexivity.
  - vm_compute. reflexivity.
Defined.


(** C9, as stated, fails.  A healthy run whose clock reads 1000 at the
    start, 1010 when the date is written, 1020 when the saved date is
    logged and 1030 afterwards: the date saved is 1010, the end of the
    run is stamped 1030 and the duration reported is 30 seconds, the
    time spent saving the date included. *)
Lemma end_stamp_taken_after_save :
  let env := Scenario.healthy_env in
  let w := initial_world Scenario.disk_with_A in
  let outcome := run env Scenario.profile w in
  (outcome.1 = Ok {| start_time := inject_Z 1000; end_time := inject_Z 1030;
                     duration_text := " 30 sec" |} /\
   fs outcome.2 !! "/state/last.txt"%string = Some "1010"%string) /\
  ~ end_stamped_before_save env Scenario.profile w.
Proof.
  intros env w outcome. split.
  - vm_compute. split; reflexivity.
  - intros H.
    assert (E : (inject_Z 1030 == inject_Z 1010)%Q).
    { apply (H (inject_Z 1000) 50 ["fileA"; "fileB"]%string
               (prologue env Scenario.profile w).2
               (main_loop env Scenario.profile 50 ["fileA"; "fileB"]%string
                  (prologue env Scenario.profile w).2).2
               {| start_time := inject_Z 1000; end_time := inject_Z 1030;
                  duration_text := " 30 sec" |}
               outcome.2); vm_compute; reflexivity. }
    vm_compute in E. discriminate E.
Qed.

(** C9, amended.  The end of the run is stamped once, after the main
    loop and after the attempt to save the date: it is the clock reading
    made in the state the save leaves behind.  The reported duration is
    computed from it, so it includes the time spent saving; when the
    state file could be opened, the reading written as the date came
    strictly earlier. *)
Theorem end_stamp_follows_save :
  forall (env : Env) (param : gr_param) (w w0 w1 : World)
         (start : Q) (lastsync_date : Z) (filelist : list string),
    prologue env param w = (Ok (start, lastsync_date, filelist), w0) ->
    main_loop env param lastsync_date filelist w0 = (Ok tt, w1) ->
    exists ws rep w2,
      (close_connection env >> save_last_sync env param) w1 = (Ok tt, ws) /\
      run env param w = (Ok rep, w2) /\
      start_time rep = start /\
      end_time rep = clock env (ticks ws) /\
      ticks w2 = S (ticks ws) /\
      duration_text rep = humanduration start (end_time rep) /\
      (ticks w1 <= ticks ws)%nat /\
      (open_w_fails env (last_exec_filename param) = false ->
       (ticks w1 < ticks ws)%nat).
Proof.
  intros env param w w0 w1 start lastsync_date filelist Hpro Hloop.
  rewrite (run_after_loop _ _ _ _ _ _ _ _ Hpro Hloop).
  unfold epilogue, close_connection, save_last_sync, finish, bind, try,
    logger, sftp_close, open_w, time_time, write_close, ret.
  simpl.
  destruct (close_ok env), (open_w_fails env (last_exec_filename param)),
    (write_fails env (last_exec_filename param)); simpl;
    eexists _, _, _; (split; [reflexivity|]); simpl;
    (split; [reflexivity|]); simpl;
    repeat split; try lia; try discriminate.
Qed.

Lemma end_stamp_follows_save_witness :
  let env := Scenario.healthy_env in
  let w := initial_world Scenario.disk_with_A in
  let w1 := (main_loop env Scenario.profile 50 ["fileA"; "fileB"]%string
               (prologue env Scenario.profile w).2).2 in
  exists ws rep w2,
    (close_connection env >> save_last_sync env Scenario.profile) w1
    = (Ok tt, ws) /\
    run env Scenario.profile w = (Ok rep, w2) /\
    start_time rep = inject_Z 1000 /\
    end_time rep = clock env (ticks ws) /\
    ticks w2 = S (ticks ws) /\
    duration_text rep = humanduration (inject_Z 1000) (end_time rep) /\
    (ticks w1 <= ticks ws)%nat /\
    (open_w_fails env "/state/last.txt" = false -> (ticks w1 < ticks ws)%nat).
Proof.
  intros env w w1.
  apply (end_stamp_follows_save env Scenario.profile w
           (prologue env Scenario.profile w).2 w1
           (inject_Z 1000) 50 ["fileA"; "fileB"]%string).
  - vm_compute. reflexivity.
  - vm_compute. reflexivity.
Defined.

(* ===================================================================== *)
(** ** Simulation mode *)
(* ===================================================================== *)

Section Simulation.

Variables (env : Env) (param : gr_param).
Hypothesis simulating : simulation param = true.

(** In simulation mode one turn of the loop queries the attributes and
    logs; it moves no file, counts nothing and fetches nothing. *)
Lemma loop_body_simulation (lastsync_date : Z) (filetoget : string) (w : World) :
  only_logged w (loop_body env param lastsync_date filetoget w).2.
Proof.
  unfold loop_body, bind at 1. unfold sftp_stat at 1.
  set (w0 := with_call _ w).
  assert (L0 : only_logged w w0) by (apply only_logged_with_call; reflexivity).
  destruct (stat env _) as [filestat|]; [|exact L0].
  destruct (plan_value param lastsync_date filetoget filestat w0)
    as (w1 & Hp & L1).
  unfold bind at 1. rewrite Hp.
  apply logged_only_logged in L1.
  pose proof (only_logged_trans _ _ _ L0 L1) as L.
  destruct (_ && _); [|exact L].
  rewrite simulating. simpl.
  unfold bind, time_ctime, logger, raise, ret.
  destruct (ctime_ok env _); simpl; [|exact L].
  eapply only_logged_trans; [exact L|]. apply only_logged_with_log.
Qed.

Lemma main_loop_simulation (lastsync_date : Z) (filelist : list string)
  (w : World) :
  only_logged w (main_loop env param lastsync_date filelist w).2.
Proof.
  unfold main_loop. revert w.
  induction filelist as [|filetoget filelist IH]; intros w; simpl.
  - apply only_logged_refl.
  - unfold bind.
    pose proof (loop_body_simulation lastsync_date filetoget w) as L.
    destruct (loop_body env param lastsync_date filetoget w) as [[[]| |e] w1];
      simpl in *; try exact L.
    eapply only_logged_trans; [exact L|]. apply IH.
Qed.

End Simulation.

(** *** Before the loop *)

Lemma nothing_moved_trans (w1 w2 w3 : World) :
  nothing_moved w1 w2 -> nothing_moved w2 w3 -> nothing_moved w1 w3.
Proof.
  unfold nothing_moved. intros (?&?&?&?&?) (?&?&?&?&?).
  repeat split; congruence.
Qed.

Lemma get_last_sync_nothing_moved (env : Env) (param : gr_param) (w : World) :
  nothing_moved w (get_last_sync env param w).2.
Proof.
  unfold get_last_sync, bind, os_path_isfile, logger, try, open_read, raise,
    exit, ret, time_ctime.
  destruct (bool_decide _); [|repeat split].
  cbn [fs with_log].
  destruct (fs w !! last_exec_filename param) as [text|]; [|repeat split].
  destruct (read_fails env _); [repeat split|].
  destruct (int_of_text env text) as [n|]; [|repeat split].
  destruct (ctime_ok env n); repeat split.
Qed.

Lemma open_connection_nothing_moved (env : Env) (param : gr_param) (w : World) :
  nothing_moved w (open_connection env param w).2.
Proof.
  unfold open_connection, bind, logger, try, sftp_connect, exit.
  destruct (connect_ok env _ _ _ _); repeat split; simpl;
    now rewrite filter_is_get_snoc.
Qed.

Lemma get_filelist_nothing_moved (env : Env) (param : gr_param) (w : World) :
  nothing_moved w (get_filelist env param w).2.
Proof.
  unfold get_filelist, bind, logger, try, sftp_listdir, when, pprint, logger,
    exit, ret.
  destruct (listdir env _), (debug param); repeat split; simpl;
    now rewrite filter_is_get_snoc.
Qed.

Lemma prologue_nothing_moved (env : Env) (param : gr_param) (w : World) :
  nothing_moved (with_counters 0 0 0 w) (prologue env param w).2.
Proof.
  set (wa := with_tick (with_counters 0 0 0 w)).
  enough (K : forall P : World -> Prop,
             (forall w', nothing_moved wa w' -> P w') ->
             P (prologue env param w).2).
  { apply K. intros w' L. eapply nothing_moved_trans; [|exact L].
    repeat split. }
  intros P HP.
  unfold prologue, bind at 1 2. unfold time_time. fold wa.
  unfold bind at 1.
  pose proof (get_last_sync_nothing_moved env param wa) as L1.
  destruct (get_last_sync env param wa) as [[lastsync_date| |e] w1];
    simpl in L1; try (apply HP; exact L1).
  unfold bind at 1.
  pose proof (open_connection_nothing_moved env param w1) as L2.
  pose proof (nothing_moved_trans _ _ _ L1 L2) as L12.
  destruct (open_connection env param w1) as [[[]| |e] w2];
    simpl in L2, L12; try (apply HP; exact L12).
  unfold bind at 1.
  pose proof (get_filelist_nothing_moved env param w2) as L3.
  pose proof (nothing_moved_trans _ _ _ L12 L3) as L123.
  destruct (get_filelist env param w2) as [[filelist| |e] w3];
    simpl in L3, L123; apply HP; exact L123.
Qed.

(** Before the loop nothing is written and nothing is fetched; the
    counters are zero. *)
Lemma prologue_transfers_nothing (env : Env) (param : gr_param) (w : World) :
  let w' := (prologue env param w).2 in
  fs w' = fs w /\
  nb_files_download w' = 0 /\
  nb_files_error w' = 0 /\
  tot_size w' = 0 /\
  List.filter is_get (remote_calls w') = List.filter is_get (remote_calls w).
Proof.
  destruct (prologue_nothing_moved env param w) as (?&?&?&?&?).
  cbv zeta. repeat split; assumption.
Qed.

(** The ways a run can end. *)
Lemma run_outcome (env : Env) (param : gr_param) (w : World)
  (P : result report * World -> Prop) :
  (forall w0, prologue env param w = (Exited, w0) -> P (Exited, w0)) ->
  (forall e w0, prologue env param w = (Raised e, w0) -> P (Raised e, w0)) ->
  (forall v w0 w1,
      prologue env param w = (Ok v, w0) ->
      main_loop env param v.1.2 v.2 w0 = (Exited, w1) -> P (Exited, w1)) ->
  (forall v w0 e w1,
      prologue env param w = (Ok v, w0) ->
      main_loop env param v.1.2 v.2 w0 = (Raised e, w1) -> P (Raised e, w1)) ->
  (forall v w0 w1,
      prologue env param w = (Ok v, w0) ->
      main_loop env param v.1.2 v.2 w0 = (Ok tt, w1) ->
      P (epilogue env param v.1.1 w1)) ->
  P (run env param w).
Proof.
  intros H1 H2 H3 H4 H5. unfold run, bind.
  destruct (prologue env param w) as [[v| |e] w0] eqn:Hpro; auto.
  destruct (main_loop env param v.1.2 v.2 w0) as [[[]| |e] w1] eqn:Hloop; eauto.
Qed.

(** C6, as stated, fails.  The profile [nas] runs in simulation mode;
    the state file holds 50 before the run and 1010 after it. *)
Lemma simulation_rewrites_state_file :
  let w := initial_world Scenario.disk_with_A in
  let outcome := run Scenario.healthy_env Scenario.nas_profile w in
  simulation Scenario.nas_profile = true /\
  fs w !! "/state/last.txt"%string = Some "50"%string /\
  fs outcome.2 !! "/state/last.txt"%string = Some "1010"%string /\
  fs outcome.2 <> fs w.
Proof.
  intros w outcome.
  assert (E : fs outcome.2 !! "/state/last.txt"%string = Some "1010"%string)
    by (vm_compute; reflexivity).
  repeat split; try exact E; try reflexivity.
  intros H. rewrite H in E. vm_compute in E. discriminate E.
Qed.

(** C6, amended.  In simulation mode the loop moves no file, counts
    nothing and fetches nothing: it only queries attributes and logs.
    Over the whole run every local path other than the state file and
    the log files keeps its content, no fetch is made and the counters
    end at zero; the date of the last synchronisation is written all the
    same when the run reaches its end and the state file can be written.
    The log file and the e-mail log, when the profile has their handlers
    attached, receive the records logged, and nothing else happens to
    them. *)
Theorem simulation_only_touches_state_file :
  forall (env : Env) (param : gr_param) (w : World),
    simulation param = true ->
    handlers_of param w ->
    (forall lastsync_date filelist w0,
        only_logged w0 (main_loop env param lastsync_date filelist w0).2) /\
    (forall p, p <> last_exec_filename param ->
               ~ In p (log_paths env param) ->
               fs (run env param w).2 !! p = fs w !! p) /\
    handlers_appended w (run env param w).2 /\
    List.filter is_get (remote_calls (run env param w).2)
    = List.filter is_get (remote_calls w) /\
    nb_files_download (run env param w).2 = 0 /\
    nb_files_error (run env param w).2 = 0 /\
    tot_size (run env param w).2 = 0 /\
    (forall rep, (run env param w).1 = Ok rep ->
                 open_w_fails env (last_exec_filename param) = false ->
                 write_fails env (last_exec_filename param) = false ->
                 exists t, fs (run env param w).2 !! last_exec_filename param
                           = Some (Py.str t)).
Proof.
  intros env param w Hsim _.
  split; [intros; now apply main_loop_simulation|].
  enough (H : (forall p, p <> last_exec_filename param ->
                         fs (run env param w).2 !! p = fs w !! p) /\
              List.filter is_get (remote_calls (run env param w).2)
              = List.filter is_get (remote_calls w) /\
              nb_files_download (run env param w).2 = 0 /\
              nb_files_error (run env param w).2 = 0 /\
              tot_size (run env param w).2 = 0 /\
              (forall rep, (run env param w).1 = Ok rep ->
                           open_w_fails env (last_exec_filename param) = false ->
                           write_fails env (last_exec_filename param) = false ->
                           exists t,
                             fs (run env param w).2 !! last_exec_filename param
                             = Some (Py.str t))).
  { destruct H as (H1 & H2). split; [intros p Hp _; now apply H1|].
    split; [|exact H2]. apply handlers_run. }
  pose proof (prologue_transfers_nothing env param w) as Hpro.
  cbv zeta in Hpro.
  assert (Hloop : forall v w0 w1 r,
             prologue env param w = (Ok v, w0) ->
             main_loop env param v.1.2 v.2 w0 = (r, w1) ->
             fs w1 = fs w /\ nb_files_download w1 = 0 /\
             nb_files_error w1 = 0 /\ tot_size w1 = 0 /\
             List.filter is_get (remote_calls w1)
             = List.filter is_get (remote_calls w)).
  { intros v w0 w1 r E0 E1. rewrite E0 in Hpro. simpl in Hpro.
    pose proof (main_loop_simulation env param Hsim v.1.2 v.2 w0) as L.
    rewrite E1 in L. simpl in L.
    destruct Hpro as (?&?&?&?&?), L as (?&?&?&?&?&?).
    repeat split; congruence. }
  pattern (run env param w). apply run_outcome.
  - intros w0 E. rewrite E in Hpro. simpl in *.
    destruct Hpro as (?&?&?&?&?).
    repeat split; try congruence; intros; discriminate.
  - intros e w0 E. rewrite E in Hpro. simpl in *.
    destruct Hpro as (?&?&?&?&?).
    repeat split; try congruence; intros; discriminate.
  - intros v w0 w1 E0 E1.
    destruct (Hloop _ _ _ _ E0 E1) as (?&?&?&?&?). simpl.
    repeat split; try congruence; intros; discriminate.
  - intros v w0 e w1 E0 E1.
    destruct (Hloop _ _ _ _ E0 E1) as (?&?&?&?&?). simpl.
    repeat split; try congruence; intros; discriminate.
  - intros v w0 w1 E0 E1.
    destruct (Hloop _ _ _ _ E0 E1) as (F1 & D1 & E1' & S1 & G1).
    destruct (epilogue_spec env param v.1.1 w1)
      as (rep & w2 & E & _ & _ & D2 & E2 & S2 & G2 & H).
    rewrite E. simpl.
    assert (F2 : forall p, p <> last_exec_filename param ->
                           fs w2 !! p = fs w1 !! p).
    { intros p Hp.
      destruct (open_w_fails env (last_exec_filename param)),
        (write_fails env (last_exec_filename param));
        destruct H as (-> & _); try reflexivity;
        now rewrite lookup_insert_ne by congruence. }
    repeat split; try congruence.
    + intros p Hp. rewrite F2 by assumption. congruence.
    + intros rep' _ Ho Hw. rewrite Ho, Hw in H. destruct H as (-> & _).
      eexists. apply lookup_insert_eq.
Qed.

Lemma simulation_only_touches_state_file_witness :
  let env := Scenario.healthy_env in
  let param := Sample.logging_profile in
  let w := add_handlers param (initial_world Scenario.disk_with_A) in
  simulation param = true /\
  handlers_of param w /\
  (forall lastsync_date filelist w0,
      only_logged w0 (main_loop env param lastsync_date filelist w0).2) /\
  (forall p, p <> last_exec_filename param ->
             ~ In p (log_paths env param) ->
             fs (run env param w).2 !! p = fs w !! p) /\
  handlers_appended w (run env param w).2 /\
  List.filter is_get (remote_calls (run env param w).2)
  = List.filter is_get (remote_calls w) /\
  nb_files_download (run env param w).2 = 0 /\
  nb_files_error (run env param w).2 = 0 /\
  tot_size (run env param w).2 = 0 /\
  (forall rep, (run env param w).1 = Ok rep ->
               open_w_fails env (last_exec_filename param) = false ->
               write_fails env (last_exec_filename param) = false ->
               exists t, fs (run env param w).2 !! last_exec_filename param
                         = Some (Py.str t)).
Proof.
  intros env param w. split; [reflexivity|]. split; [split; reflexivity|].
  apply (simulation_only_touches_state_file env param w).
  - reflexivity.
  - split; reflexivity.
Defined.

(** The same simulation run for a profile that logs to a file and to
    the e-mail log: the local files are those of the start but for the
    state file; every record went to the log file, those of level
    [INFO] and above to the e-mail log. *)
Example simulation_with_log_files :
  let param := Sample.logging_profile in
  let w := add_handlers param (initial_world Scenario.disk_with_A) in
  let outcome := run Scenario.healthy_env param w in
  log_file param = true /\ log_email param = true /\
  fs outcome.2
  = <["/state/last.txt"%string := "1010"%string]> Scenario.disk_with_A /\
  fh outcome.2
  = Some [(DEBUG, Get_date_last_download);
          (INFO, Date_last_download 50);
          (DEBUG, Open_connection_to "backup.example.org");
          (INFO, Connected "backup.example.org");
          (DEBUG, Get_list_of_file);
          (INFO, Items_in_remote_folder 2);
          (INFO, Simulation_get_file "fileA" 100);
          (INFO, Simulation_get_file "fileB" 300);
          (DEBUG, Close_connection);
          (DEBUG, Save_date_last_download);
          (DEBUG, Date_last_download_saved 1020);
          (INFO, Finished 0 0 " 30 sec")] /\
  eh outcome.2
  = Some [(INFO, Date_last_download 50);
          (INFO, Connected "backup.example.org");
          (INFO, Items_in_remote_folder 2);
          (INFO, Simulation_get_file "fileA" 100);
          (INFO, Simulation_get_file "fileB" 300);
          (INFO, Finished 0 0 " 30 sec")].
Proof.
  repeat split; vm_compute; reflexivity.
Qed.

(* ===================================================================== *)
(** ** What a transfer may write *)
(* ===================================================================== *)

Lemma same_outside_refl (paths : list string) (w : World) :
  same_outside paths w w.
Proof. intros p _. reflexivity. Qed.

Lemma same_outside_trans (paths : list string) (w1 w2 w3 : World) :
  same_outside paths w1 w2 -> same_outside paths w2 w3 ->
  same_outside paths w1 w3.
Proof. intros H12 H23 p Hp. rewrite H23, H12; auto. Qed.

Lemma same_outside_log (paths : list string) (r : level * message) (w : World) :
  same_outside paths w (with_log r w).
Proof. intros p _. reflexivity. Qed.


Lemma same_outside_same_fs (paths : list string) (w w' : World) :
  fs w' = fs w -> same_outside paths w w'.
Proof. intros E p _. now rewrite E. Qed.

Section Frame.

Variables (env : Env) (param : gr_param).
Variable paths : list string.

Let R : World -> World -> Prop := same_outside paths.

Lemma frame_os_rename (src dst : string) :
  In src paths -> In dst paths -> keeps R (os_rename env src dst).
Proof.
  intros Hs Hd w. unfold os_rename.
  destruct (fs w !! src); [|apply same_outside_refl].
  destruct (rename_fails env src dst); [apply same_outside_refl|].
  intros p Hp. simpl.
  rewrite lookup_insert_ne by (intros ->; contradiction).
  apply lookup_delete_ne. intros ->. contradiction.
Qed.

Lemma frame_os_remove (f : string) : In f paths -> keeps R (os_remove env f).
Proof.
  intros Hf w. unfold os_remove.
  destruct (fs w !! f); [|apply same_outside_refl].
  destruct (remove_fails env f); [apply same_outside_refl|].
  intros p Hp. simpl. apply lookup_delete_ne. intros ->. contradiction.
Qed.

Lemma frame_sftp_get (path localpath : string) :
  In localpath paths -> keeps R (sftp_get env path localpath).
Proof.
  intros Hl w. unfold sftp_get.
  destruct (get env path) as [c|[c|]]; intros p Hp; simpl;
    try reflexivity;
    apply lookup_insert_ne; intros ->; contradiction.
Qed.


Lemma frame_count_error : keeps R count_error.
Proof. intros w. apply same_outside_same_fs. reflexivity. Qed.

Lemma frame_count_download (size : Z) : keeps R (count_download size).
Proof. intros w. apply same_outside_same_fs. reflexivity. Qed.

Lemma frame_transfer (filetoget : string) (filestat : SFTPAttributes) :
  In (targetfolder param +:+ filetoget) paths ->
  In ((targetfolder param +:+ filetoget) +:+ ".back") paths ->
  keeps R (transfer env param filetoget filestat).
Proof.
  intros Hl Hb. unfold transfer.
  repeat keeps_step
    ltac:(first [apply same_outside_refl | apply same_outside_trans
                | apply same_outside_log])
    ltac:(first [now apply frame_os_rename | now apply frame_os_remove
                | now apply frame_sftp_get | apply frame_count_download
                | apply frame_count_error]).
Qed.


End Frame.







(* ===================================================================== *)
(** ** Every fetch is counted *)
(* ===================================================================== *)

Lemma fetches_counted_refl (w : World) : fetches_counted w w.
Proof. unfold fetches_counted. lia. Qed.

Lemma fetches_counted_trans (w1 w2 w3 : World) :
  fetches_counted w1 w2 -> fetches_counted w2 w3 -> fetches_counted w1 w3.
Proof. unfold fetches_counted. lia. Qed.

Lemma fetches_counted_log (r : level * message) (w : World) :
  fetches_counted w (with_log r w).
Proof. unfold fetches_counted, fetches. simpl. lia. Qed.

Lemma fetches_same_calls (w w' : World) :
  List.filter is_get (remote_calls w') = List.filter is_get (remote_calls w) ->
  fetches w' = fetches w.
Proof. unfold fetches. now intros ->. Qed.

Lemma fetches_after_get (path : string) (w : World) :
  fetches (with_call (RGet path) w) = fetches w + 1.
Proof.
  unfold fetches. simpl. rewrite List.filter_app, length_app. simpl. lia.
Qed.

Section Counting.

Variables (env : Env) (param : gr_param).

Let R : World -> World -> Prop := fetches_counted.

Lemma counted_same (w w' : World) :
  fetches w' = fetches w ->
  nb_files_download w' = nb_files_download w ->
  nb_files_error w' = nb_files_error w ->
  R w w'.
Proof. unfold R, fetches_counted. lia. Qed.

Lemma counted_os_rename (src dst : string) : keeps R (os_rename env src dst).
Proof.
  intros w. unfold os_rename.
  destruct (fs w !! src); [|apply fetches_counted_refl].
  destruct (rename_fails env src dst); apply counted_same; reflexivity.
Qed.

Lemma counted_os_remove (f : string) : keeps R (os_remove env f).
Proof.
  intros w. unfold os_remove.
  destruct (fs w !! f); [|apply fetches_counted_refl].
  destruct (remove_fails env f); apply counted_same; reflexivity.
Qed.

Lemma counted_sftp_stat (path : string) : keeps R (sftp_stat env path).
Proof.
  intros w. unfold sftp_stat.
  destruct (stat env path); apply counted_same; try reflexivity;
    apply fetches_same_calls; simpl; now rewrite filter_is_get_snoc.
Qed.

(** A fetch has just been made and is not counted yet; the next step
    counts it as a download. *)
Lemma counted_download_after_fetch {A : Type} (m : M A) (size : Z)
  (w0 w1 : World) :
  keeps R m ->
  fetches w1 = fetches w0 + 1 ->
  nb_files_download w1 = nb_files_download w0 ->
  nb_files_error w1 = nb_files_error w0 ->
  R w0 (bind (count_download size) (fun _ => m) w1).2.
Proof.
  intros Hm Hf Hd He. unfold bind, count_download.
  set (w2 := with_counters _ _ _ w1).
  specialize (Hm w2). destruct (m w2) as [r w3]. simpl in *.
  unfold R, fetches_counted, fetches in *. simpl in *. lia.
Qed.

(** Same, the next steps logging the failure and counting an error. *)
Lemma counted_error_after_fetch {A : Type} (m : M A) (w0 w1 : World) :
  keeps R m ->
  fetches w1 = fetches w0 + 1 ->
  nb_files_download w1 = nb_files_download w0 ->
  nb_files_error w1 = nb_files_error w0 ->
  R w0 (bind (logger ERROR Error_when_downloading)
          (fun _ => bind count_error (fun _ => m)) w1).2.
Proof.
  intros Hm Hf Hd He. unfold bind, count_error, logger.
  set (w2 := with_counters _ _ _ _).
  specialize (Hm w2). destruct (m w2) as [r w3]. simpl in *.
  unfold R, fetches_counted, fetches in *. simpl in *. lia.
Qed.

Lemma counted_transfer (filetoget : string) (filestat : SFTPAttributes) :
  keeps R (transfer env param filetoget filestat).
Proof.
  pose proof fetches_counted_refl as Rr.
  pose proof fetches_counted_trans as Rt.
  pose proof fetches_counted_log as Rl.
  unfold transfer.
  apply keeps_bind; [exact Rt|now apply keeps_time_ctime|]. intros _.
  apply keeps_bind; [exact Rt|now apply keeps_logger|]. intros _.
  apply keeps_bind; [exact Rt|now apply keeps_os_path_isfile|]. intros isfile.
  apply keeps_bind; [exact Rt| |].
  { repeat keeps_step
      ltac:(first [exact Rr | exact Rt | exact Rl])
      ltac:(apply counted_os_rename). }
  intros _ w. unfold bind at 1. unfold try, sftp_get.
  destruct (get env (sourcefolder param +:+ filetoget)) as [c|[c|]].
  - apply counted_download_after_fetch; try reflexivity;
      [|apply fetches_after_get].
    repeat keeps_step
      ltac:(first [exact Rr | exact Rt | exact Rl])
      ltac:(apply counted_os_remove).
  - apply counted_error_after_fetch; try reflexivity;
      [|apply fetches_after_get].
    repeat keeps_step
      ltac:(first [exact Rr | exact Rt | exact Rl])
      ltac:(apply counted_os_rename).
  - apply counted_error_after_fetch; try reflexivity;
      [|apply fetches_after_get].
    repeat keeps_step
      ltac:(first [exact Rr | exact Rt | exact Rl])
      ltac:(apply counted_os_rename).
Qed.

Lemma counted_main_loop (lastsync_date : Z) (filelist : list string) :
  keeps R (main_loop env param lastsync_date filelist).
Proof.
  unfold main_loop. apply keeps_for_each.
  - apply fetches_counted_refl.
  - apply fetches_counted_trans.
  - intros filetoget _. unfold loop_body.
    repeat keeps_step
      ltac:(first [apply fetches_counted_refl | apply fetches_counted_trans
                  | apply fetches_counted_log])
      ltac:(first [apply counted_sftp_stat | apply counted_transfer]).
Qed.

End Counting.

(** X2.  However a run ends, each call of [sftp.get] made during it has
    been counted exactly once: the number of downloads plus the number
    of errors is the number of fetches made, and neither is negative. *)
Theorem every_fetch_is_counted :
  forall (env : Env) (param : gr_param) (w : World),
    let w' := (run env param w).2 in
    0 <= nb_files_download w' /\
    0 <= nb_files_error w' /\
    nb_files_download w' + nb_files_error w' = fetches w' - fetches w.
Proof.
  intros env param w. cbv zeta.
  pose proof (prologue_transfers_nothing env param w) as Hpro.
  cbv zeta in Hpro.
  assert (Hloop : forall v w0 w1 r,
             prologue env param w = (Ok v, w0) ->
             main_loop env param v.1.2 v.2 w0 = (r, w1) ->
             0 <= nb_files_download w1 /\ 0 <= nb_files_error w1 /\
             nb_files_download w1 + nb_files_error w1
             = fetches w1 - fetches w).
  { intros v w0 w1 r E0 E1. rewrite E0 in Hpro. simpl in Hpro.
    destruct Hpro as (_ & D & E & _ & G).
    apply fetches_same_calls in G.
    pose proof (counted_main_loop env param v.1.2 v.2 w0) as C.
    rewrite E1 in C. simpl in C. unfold fetches_counted in C. lia. }
  pattern (run env param w). apply run_outcome.
  - intros w0 E0. rewrite E0 in Hpro. simpl in *.
    destruct Hpro as (_ & D & E & _ & G).
    apply fetches_same_calls in G. lia.
  - intros e w0 E0. rewrite E0 in Hpro. simpl in *.
    destruct Hpro as (_ & D & E & _ & G).
    apply fetches_same_calls in G. lia.
  - intros v w0 w1 E0 E1. simpl. eapply Hloop; eauto.
  - intros v w0 e w1 E0 E1. simpl. eapply Hloop; eauto.
  - intros v w0 w1 E0 E1.
    pose proof (Hloop _ _ _ _ E0 E1) as H1.
    destruct (epilogue_spec env param v.1.1 w1)
      as (rep & w2 & E & _ & _ & D2 & E2 & _ & G2 & _).
    rewrite E. simpl. apply fetches_same_calls in G2. lia.
Qed.

(* ===================================================================== *)
(** ** Failures of the remote session *)
(* ===================================================================== *)

Lemma get_last_sync_logged (env : Env) (param : gr_param) :
  keeps logged (get_last_sync env param).
Proof.
  unfold get_last_sync.
  repeat keeps_step
    ltac:(first [apply logged_refl | apply logged_trans
                | (intros; now apply logged_with_log, logged_refl)])
    ltac:(intros w; unfold open_read;
          destruct (fs w !! _); [destruct (read_fails env _)|];
          apply logged_refl).
Qed.

(** The state in which the connection is opened. *)
Lemma run_until_connection (env : Env) (param : gr_param) (w : World)
  (P : result report * World -> Prop) :
  (forall w1, logged (with_tick (with_counters 0 0 0 w)) w1 ->
              P (Exited, w1)) ->
  (forall e w1, logged (with_tick (with_counters 0 0 0 w)) w1 ->
                P (Raised e, w1)) ->
  (forall lastsync_date w1,
      logged (with_tick (with_counters 0 0 0 w)) w1 ->
      P (bind (open_connection env param)
           (fun _ => bind (get_filelist env param)
              (fun filelist =>
                 bind (main_loop env param lastsync_date filelist)
                   (fun _ => epilogue env param
                               (clock env (ticks (with_counters 0 0 0 w))))))
           w1)) ->
  P (run env param w).
Proof.
  intros H1 H2 H3.
  pose proof (get_last_sync_logged env param
                (with_tick (with_counters 0 0 0 w))) as L.
  unfold run, prologue, bind at 1 2 3 4. unfold time_time.
  destruct (get_last_sync env param _) as [[d| |e] w1]; simpl in L; auto.
  specialize (H3 d w1 L). unfold bind in *.
  destruct (open_connection env param w1) as [[[]| |e] w2]; auto.
  destruct (get_filelist env param w2) as [[fl| |e] w3]; auto.
Qed.

(** X3.  When the connection cannot be opened the run ends without a
    report: no local file other than the log files has changed (the
    state file has not), the file handlers attached have appended the
    records logged to the log files, and the only call the remote
    session may have seen is the connection attempt. *)
Theorem connection_failure_ends_run :
  forall (env : Env) (param : gr_param) (w : World),
    connect_ok env (host param) (port param) (username param) (password param)
    = false ->
    handlers_of param w ->
    (forall rep, (run env param w).1 <> Ok rep) /\
    same_outside (log_paths env param) w (run env param w).2 /\
    handlers_appended w (run env param w).2 /\
    (remote_calls (run env param w).2 = remote_calls w \/
     remote_calls (run env param w).2
     = remote_calls w ++ [RConnect (host param) (port param)]).
Proof.
  intros env param w Hc _.
  enough (H : (forall rep, (run env param w).1 <> Ok rep) /\
              fs (run env param w).2 = fs w /\
              (remote_calls (run env param w).2 = remote_calls w \/
               remote_calls (run env param w).2
               = remote_calls w ++ [RConnect (host param) (port param)])).
  { destruct H as (H1 & H2 & H3).
    split; [exact H1|]. split; [now apply same_outside_same_fs|].
    split; [apply handlers_run|exact H3]. }
  pattern (run env param w). apply run_until_connection.
  - intros w1 [l ->]. simpl. repeat split; auto; try discriminate.
  - intros e w1 [l ->]. simpl. repeat split; auto; try discriminate.
  - intros d w1 [l ->].
    unfold bind at 1. unfold open_connection, bind, logger, try, sftp_connect,
      exit.
    simpl. rewrite Hc. simpl. repeat split; auto; try discriminate.
Qed.

Lemma connection_failure_ends_run_witness :
  let env := Sample.unreachable_env in
  let w := initial_world Scenario.disk_with_A in
  (forall rep, (run env Scenario.profile w).1 <> Ok rep) /\
  same_outside (log_paths env Scenario.profile) w
    (run env Scenario.profile w).2 /\
  handlers_appended w (run env Scenario.profile w).2 /\
  (remote_calls (run env Scenario.profile w).2 = remote_calls w \/
   remote_calls (run env Scenario.profile w).2
   = remote_calls w ++ [RConnect "backup.example.org" 22]).
Proof.
  intros env w.
  apply (connection_failure_ends_run env Scenario.profile w).
  - reflexivity.
  - split; reflexivity.
Defined.

(** X4.  When the remote folder cannot be listed the run ends without a
    report: no local file other than the log files has changed, the
    file handlers attached have appended the records logged to the log
    files, and the remote session has seen at most the connection and
    the listing attempt - no attribute query, no fetch. *)
Theorem listing_failure_ends_run :
  forall (env : Env) (param : gr_param) (w : World),
    listdir env (sourcefolder param) = None ->
    handlers_of param w ->
    (forall rep, (run env param w).1 <> Ok rep) /\
    same_outside (log_paths env param) w (run env param w).2 /\
    handlers_appended w (run env param w).2 /\
    (forall c, In c (remote_calls (run env param w).2) ->
               In c (remote_calls w) \/
               c = RConnect (host param) (port param) \/
               c = RListdir (sourcefolder param)).
Proof.
  intros env param w Hl _.
  enough (H : (forall rep, (run env param w).1 <> Ok rep) /\
              fs (run env param w).2 = fs w /\
              (forall c, In c (remote_calls (run env param w).2) ->
                         In c (remote_calls w) \/
                         c = RConnect (host param) (port param) \/
                         c = RListdir (sourcefolder param))).
  { destruct H as (H1 & H2 & H3).
    split; [exact H1|]. split; [now apply same_outside_same_fs|].
    split; [apply handlers_run|exact H3]. }
  pattern (run env param w). apply run_until_connection.
  - intros w1 [l ->]. simpl. repeat split; auto; try discriminate.
  - intros e w1 [l ->]. simpl. repeat split; auto; try discriminate.
  - intros d w1 [l ->].
    unfold bind at 1. unfold open_connection, bind at 1 2.
    unfold logger at 1, try, sftp_connect.
    destruct (connect_ok env _ _ _ _); simpl.
    + unfold bind at 1. unfold get_filelist, bind, logger, try, sftp_listdir,
        exit.
      simpl. rewrite Hl. simpl. repeat split; try discriminate.
      intros c Hc. rewrite !in_app_iff in Hc. simpl in Hc.
      intuition auto.
    + unfold bind, logger, exit. simpl. repeat split; try discriminate.
      intros c Hc. rewrite !in_app_iff in Hc. simpl in Hc.
      intuition auto.
Qed.

Lemma listing_failure_ends_run_witness :
  let env := Sample.unlistable_env in
  let w := initial_world Scenario.disk_with_A in
  (forall rep, (run env Scenario.profile w).1 <> Ok rep) /\
  same_outside (log_paths env Scenario.profile) w
    (run env Scenario.profile w).2 /\
  handlers_appended w (run env Scenario.profile w).2 /\
  (forall c, In c (remote_calls (run env Scenario.profile w).2) ->
             In c (remote_calls w) \/
             c = RConnect "backup.example.org" 22 \/
             c = RListdir "/remote/").
Proof.
  intros env w.
  apply (listing_failure_ends_run env Scenario.profile w).
  - reflexivity.
  - split; reflexivity.
Defined.

(** X5.  The attributes of every listed entry are read outside any
    [try]: when [sftp.stat] raises for an entry (a dangling link, say)
    the exception ends the run there.  The entries that follow are not
    examined, the connection is not closed and the date of the last
    synchronisation is not saved: the world is the one in which the entry
    was reached, plus the attribute query. *)
Theorem unreadable_entry_ends_run :
  forall (env : Env) (param : gr_param) (w w0 w1 : World)
         (start_time : Q) (lastsync_date : Z)
         (before after : list string) (filetoget : string),
    prologue env param w
    = (Ok (start_time, lastsync_date, before ++ filetoget :: after), w0) ->
    main_loop env param lastsync_date before w0 = (Ok tt, w1) ->
    stat env (sourcefolder param +:+ filetoget) = None ->
    run env param w
    = (Raised Py.SFTPError,
       with_call (RStat (sourcefolder param +:+ filetoget)) w1).
Proof.
  intros env param w w0 w1 start_time lastsync_date before after filetoget
    Hpro Hloop Hs.
  unfold run, bind at 1. rewrite Hpro. simpl.
  unfold bind at 1. unfold main_loop in *.
  rewrite for_each_app, Hloop. simpl.
  unfold bind at 1. unfold loop_body, bind at 1. unfold sftp_stat.
  rewrite Hs. reflexivity.
Qed.

Lemma unreadable_entry_ends_run_witness :
  let env := Sample.dangling_env in
  let w := initial_world Scenario.disk_with_A in
  let w0 := (prologue env Scenario.profile w).2 in
  let w1 := (main_loop env Scenario.profile 50 ["fileA"%string] w0).2 in
  run env Scenario.profile w
  = (Raised Py.SFTPError, with_call (RStat "/remote/link") w1).
Proof.
  intros env w w0 w1.
  apply (unreadable_entry_ends_run env Scenario.profile w w0 w1
           (inject_Z 1000) 50 ["fileA"%string] ["fileB"%string] "link").
  - vm_compute. reflexivity.
  - vm_compute. reflexivity.
  - reflexivity.
Defined.

(* ===================================================================== *)
(** ** The date written by one run and read by the next *)
(* ===================================================================== *)

Section Decimal_text.

(** The characters of a decimal number, most significant first. *)
Let chars (u : Decimal.uint) : list ascii :=
  list_ascii_of_string (NilEmpty.string_of_uint u).

Lemma digits_step (c : ascii) (d acc : Z) (prev : bool) (r : list ascii) :
  Py.digit_of c = Some d ->
  Py.digits acc prev (c :: r) = Py.digits (10 * acc + d) true r.
Proof. intros H. simpl. now rewrite H. Qed.

Lemma digits_acc (u : Decimal.uint) (p : positive) :
  Py.digits (Z.pos p) true (chars u) = Some (Z.pos (Pos.of_uint_acc u p)).
Proof.
  revert p. unfold chars.
  induction u as [|u IH|u IH|u IH|u IH|u IH|u IH|u IH|u IH|u IH|u IH];
    intros p; cbn [NilEmpty.string_of_uint list_ascii_of_string Pos.of_uint_acc];
    [reflexivity|..].
  - rewrite (digits_step _ 0) by reflexivity.
    replace (10 * Z.pos p + 0) with (Z.pos (Pos.mul 10 p)) by lia. apply IH.
  - rewrite (digits_step _ 1) by reflexivity.
    replace (10 * Z.pos p + 1) with (Z.pos (Pos.add 1 (Pos.mul 10 p))) by lia.
    apply IH.
  - rewrite (digits_step _ 2) by reflexivity.
    replace (10 * Z.pos p + 2) with (Z.pos (Pos.add 2 (Pos.mul 10 p))) by lia.
    apply IH.
  - rewrite (digits_step _ 3) by reflexivity.
    replace (10 * Z.pos p + 3) with (Z.pos (Pos.add 3 (Pos.mul 10 p))) by lia.
    apply IH.
  - rewrite (digits_step _ 4) by reflexivity.
    replace (10 * Z.pos p + 4) with (Z.pos (Pos.add 4 (Pos.mul 10 p))) by lia.
    apply IH.
  - rewrite (digits_step _ 5) by reflexivity.
    replace (10 * Z.pos p + 5) with (Z.pos (Pos.add 5 (Pos.mul 10 p))) by lia.
    apply IH.
  - rewrite (digits_step _ 6) by reflexivity.
    replace (10 * Z.pos p + 6) with (Z.pos (Pos.add 6 (Pos.mul 10 p))) by lia.
    apply IH.
  - rewrite (digits_step _ 7) by reflexivity.
    replace (10 * Z.pos p + 7) with (Z.pos (Pos.add 7 (Pos.mul 10 p))) by lia.
    apply IH.
  - rewrite (digits_step _ 8) by reflexivity.
    replace (10 * Z.pos p + 8) with (Z.pos (Pos.add 8 (Pos.mul 10 p))) by lia.
    apply IH.
  - rewrite (digits_step _ 9) by reflexivity.
    replace (10 * Z.pos p + 9) with (Z.pos (Pos.add 9 (Pos.mul 10 p))) by lia.
    apply IH.
Qed.

Lemma digits_value (u : Decimal.uint) (prev : bool) :
  u <> Decimal.Nil ->
  Py.digits 0 prev (chars u) = Some (Z.of_N (Pos.of_uint u)).
Proof.
  revert prev. unfold chars.
  induction u as [|u IH|u IH|u IH|u IH|u IH|u IH|u IH|u IH|u IH|u IH];
    intros prev Hu;
    cbn [NilEmpty.string_of_uint list_ascii_of_string Pos.of_uint];
    [contradiction|..].
  - rewrite (digits_step _ 0) by reflexivity. simpl (10 * 0 + 0).
    destruct u; try (apply IH; discriminate). reflexivity.
  - rewrite (digits_step _ 1) by reflexivity. apply digits_acc.
  - rewrite (digits_step _ 2) by reflexivity. apply digits_acc.
  - rewrite (digits_step _ 3) by reflexivity. apply digits_acc.
  - rewrite (digits_step _ 4) by reflexivity. apply digits_acc.
  - rewrite (digits_step _ 5) by reflexivity. apply digits_acc.
  - rewrite (digits_step _ 6) by reflexivity. apply digits_acc.
  - rewrite (digits_step _ 7) by reflexivity. apply digits_acc.
  - rewrite (digits_step _ 8) by reflexivity. apply digits_acc.
  - rewrite (digits_step _ 9) by reflexivity. apply digits_acc.
Qed.

Lemma chars_no_space (u : Decimal.uint) :
  Forall (fun c => Py.is_space c = false) (chars u).
Proof.
  unfold chars.
  induction u; cbn [NilEmpty.string_of_uint list_ascii_of_string];
    constructor; auto.
Qed.

Lemma lstrip_no_space (l : list ascii) :
  Forall (fun c => Py.is_space c = false) l -> Py.lstrip l = l.
Proof. intros [|c r Hc _]; simpl; [reflexivity|now rewrite Hc]. Qed.

Lemma strip_no_space (l : list ascii) :
  Forall (fun c => Py.is_space c = false) l -> Py.strip l = l.
Proof.
  intros H. unfold Py.strip.
  rewrite (lstrip_no_space l H).
  rewrite lstrip_no_space by now apply Forall_rev.
  apply rev_involutive.
Qed.

(** The text of a positive number is read back without sign. *)
Lemma int_unsigned (u : Decimal.uint) :
  u <> Decimal.Nil ->
  Py.int (NilEmpty.string_of_uint u) = Some (Z.of_N (Pos.of_uint u)).
Proof.
  intros Hu. unfold Py.int. fold (chars u).
  rewrite (strip_no_space _ (chars_no_space u)).
  rewrite <- (digits_value u false Hu).
  unfold chars.
  destruct u; [contradiction|..]; reflexivity.
Qed.

Lemma int_negative (u : Decimal.uint) :
  u <> Decimal.Nil ->
  Py.int (String "-" (NilEmpty.string_of_uint u))
  = Some (- Z.of_N (Pos.of_uint u)).
Proof.
  intros Hu. unfold Py.int.
  cbn [list_ascii_of_string]. fold (chars u).
  rewrite strip_no_space
    by (constructor; [reflexivity|apply chars_no_space]).
  now rewrite (digits_value u false Hu).
Qed.

Lemma string_of_uint_nonnil (u : Decimal.uint) :
  u <> Decimal.Nil ->
  NilZero.string_of_uint u = NilEmpty.string_of_uint u.
Proof. destruct u; [contradiction|..]; reflexivity. Qed.

End Decimal_text.

(** [int] reads back what [str] writes: [int(str(n)) = n]. *)
Lemma int_of_str :
  forall n : Z, Py.int (Py.str n) = Some n.
Proof.
  intros [|p|p]; unfold Py.str; cbn [Z.to_int NilZero.string_of_int].
  - reflexivity.
  - pose proof (DecimalPos.Unsigned.to_uint_nonnil p) as Hu.
    rewrite string_of_uint_nonnil, int_unsigned by assumption.
    now rewrite DecimalPos.Unsigned.of_to.
  - pose proof (DecimalPos.Unsigned.to_uint_nonnil p) as Hu.
    rewrite string_of_uint_nonnil, int_negative by assumption.
    now rewrite DecimalPos.Unsigned.of_to.
Qed.

(** What [str] writes is ASCII text. *)
Lemma is_ascii_str (n : Z) : Py.is_ascii (Py.str n) = true.
Proof.
  assert (H : forall u, forallb (fun c => (nat_of_ascii c <? 128)%nat)
                          (list_ascii_of_string (NilEmpty.string_of_uint u))
                        = true).
  { induction u; cbn [NilEmpty.string_of_uint list_ascii_of_string forallb];
      [reflexivity|..]; rewrite IHu; reflexivity. }
  unfold Py.is_ascii, Py.str.
  destruct n as [|p|p]; cbn [Z.to_int NilZero.string_of_int].
  - reflexivity.
  - rewrite string_of_uint_nonnil
      by apply DecimalPos.Unsigned.to_uint_nonnil.
    apply H.
  - rewrite string_of_uint_nonnil
      by apply DecimalPos.Unsigned.to_uint_nonnil.
    cbn [list_ascii_of_string forallb]. rewrite H. reflexivity.
Qed.

Lemma int_of_text_str (env : Env) (n : Z) :
  int_of_text env (Py.str n) = Some n.
Proof. unfold int_of_text. rewrite is_ascii_str. apply int_of_str. Qed.

Lemma get_last_sync_reads (env : Env) (param : gr_param) (w : World)
  (text : string) (n : Z) :
  fs w !! last_exec_filename param = Some text ->
  read_fails env (last_exec_filename param) = false ->
  int_of_text env text = Some n ->
  ctime_ok env n = true ->
  exists w', get_last_sync env param w = (Ok n, w') /\ logged w w'.
Proof.
  intros Hf Hr Hint Hc.
  unfold get_last_sync, open_read, os_path_isfile, logger, try, raise, exit,
    ret, bind, time_ctime.
  rewrite bool_decide_eq_true_2 by eauto.
  cbv beta. cbn [fs with_log]. rewrite Hf, Hr, Hint, Hc.
  eexists. split; [reflexivity|]. auto with script.
Qed.

(** X6.  A run that reaches its end and can write the state file leaves
    in it the text that the next run reads back as the same date:
    [int(time.time())] for the clock reading that followed the loop. *)
Theorem saved_date_is_read_back :
  forall (env env' : Env) (param : gr_param) (start : Q) (w1 w' : World),
    open_w_fails env (last_exec_filename param) = false ->
    write_fails env (last_exec_filename param) = false ->
    fs w' = fs (epilogue env param start w1).2 ->
    read_fails env' (last_exec_filename param) = false ->
    ctime_ok env' (Py.int_of_float (clock env (ticks w1))) = true ->
    (get_last_sync env' param w').1
    = Ok (Py.int_of_float (clock env (ticks w1))).
Proof.
  intros env env' param start w1 w' Ho Hw Hfs Hr Hc.
  destruct (epilogue_spec env param start w1)
    as (rep & w2 & E & _ & _ & _ & _ & _ & _ & H).
  rewrite Ho, Hw in H. destruct H as (F & _).
  rewrite E in Hfs. simpl in Hfs.
  destruct (get_last_sync_reads env' param w'
              (Py.str (Py.int_of_float (clock env (ticks w1))))
              (Py.int_of_float (clock env (ticks w1)))) as (w3 & G & _); auto.
  - rewrite Hfs, F. apply lookup_insert_eq.
  - apply int_of_text_str.
  - now rewrite G.
Qed.

Lemma saved_date_is_read_back_witness :
  let env := Scenario.healthy_env in
  let w1 := initial_world Scenario.disk_with_A in
  let w' := initial_world
              (fs (epilogue env Scenario.profile (inject_Z 990) w1).2) in
  (get_last_sync env Scenario.profile w').1
  = Ok (Py.int_of_float (clock env (ticks w1))).
Proof.
  intros env w1 w'.
  apply (saved_date_is_read_back env env Scenario.profile (inject_Z 990)
           w1 w').
  - reflexivity.
  - reflexivity.
  - vm_compute. reflexivity.
  - reflexivity.
  - vm_compute. reflexivity.
Defined.

(* ===================================================================== *)
(** ** [humanduration] *)
(* ===================================================================== *)

Lemma Qfloor_unique (x : Q) (z : Z) :
  (inject_Z z <= x)%Q -> (x < inject_Z (z + 1))%Q -> Qfloor x = z.
Proof.
  intros Hl Hu. apply Z.le_antisymm.
  - assert (H : (inject_Z (Qfloor x) < inject_Z (z + 1))%Q)
      by (eapply Qle_lt_trans; [apply Qfloor_le|exact Hu]).
    rewrite <- Zlt_Qlt in H. lia.
  - rewrite <- (Qfloor_Z z). now apply Qfloor_resp_le.
Qed.

Lemma Qfloor_bounds (x : Q) :
  (inject_Z (Qfloor x) <= x)%Q /\ (x < inject_Z (Qfloor x) + 1)%Q.
Proof.
  split; [apply Qfloor_le|].
  pose proof (Qlt_floor x) as H. rewrite inject_Z_plus in H. exact H.
Qed.

(** The whole part of [x / k], for a positive integer [k], only depends
    on the whole part of [x]. *)
Lemma Qfloor_div_whole (x : Q) (k : Z) :
  0 < k -> Qfloor (x / inject_Z k) = Qfloor x / k.
Proof.
  intros Hk.
  destruct (Qfloor_bounds x) as [Hl Hu].
  set (n := Qfloor x) in *.
  assert (Hq1 : k * (n / k) <= n) by (apply Z.mul_div_le; lia).
  assert (Hq2 : n + 1 <= k * (n / k + 1)).
  { pose proof (Z.mod_pos_bound n k Hk). pose proof (Z.div_mod n k). lia. }
  assert (HkQ : (inject_Z 0 < inject_Z k)%Q) by (now rewrite <- Zlt_Qlt).
  change (inject_Z 0) with 0%Q in HkQ.
  rewrite Zle_Qle, inject_Z_mult in Hq1.
  rewrite Zle_Qle, inject_Z_mult, !inject_Z_plus in Hq2.
  apply Qfloor_unique.
  - apply Qle_shift_div_l; [exact HkQ|].
    eapply Qle_trans; [|exact Hl]. now rewrite Qmult_comm.
  - rewrite inject_Z_plus. apply Qlt_shift_div_r; [exact HkQ|].
    eapply Qlt_le_trans; [exact Hu|]. now rewrite Qmult_comm.
Qed.

Lemma pow2_pos (e : Z) : (0 < 2 ^ e)%Q.
Proof. apply Qpower_0_lt. reflexivity. Qed.

Lemma pow2_whole (e : Z) : 0 <= e -> (2 ^ e == inject_Z (2 ^ e))%Q.
Proof. intros He. now rewrite Zpower_Qpower. Qed.

(** The leading bit is not above the number. *)
Lemma ilog2_le (x : Q) : ~ (x == 0)%Q -> (2 ^ ilog2 x <= Qabs x)%Q.
Proof.
  intros Hx. unfold ilog2.
  set (d := Z.log2 (Z.abs (Qnum x)) - Z.log2 (Z.pos (Qden x))).
  destruct (Qle_bool (2 ^ d) (Qabs x)) eqn:E; [now apply Qle_bool_iff|].
  clear E. destruct x as [p q]. unfold Qabs. cbn [Qnum Qden] in *.
  assert (Hp : 0 < Z.abs p).
  { destruct p; try lia. exfalso. apply Hx. reflexivity. }
  pose proof (Z.log2_spec (Z.abs p) Hp) as [Hp1 _].
  pose proof (Z.log2_spec (Z.pos q) ltac:(lia)) as [_ Hq2].
  pose proof (Z.log2_nonneg (Z.abs p)) as Hlp.
  pose proof (Z.log2_nonneg (Z.pos q)) as Hlq.
  set (lp := Z.log2 (Z.abs p)) in *. set (lq := Z.log2 (Z.pos q)) in *.
  assert (E : (2 ^ (d - 1) * 2 ^ (lq + 1) == 2 ^ lp)%Q).
  { rewrite <- Qpower_plus by discriminate.
    replace (d - 1 + (lq + 1)) with lp by (subst d; lia). reflexivity. }
  rewrite (pow2_whole (lq + 1)) in E by lia.
  rewrite (pow2_whole lp) in E by lia.
  rewrite (Qmake_Qdiv (Z.abs p) q).
  apply Qle_shift_div_l; [reflexivity|].
  apply Qle_trans with (inject_Z (2 ^ lp)); [|now rewrite <- Zle_Qle].
  rewrite <- E. apply Qmult_le_l; [apply pow2_pos|].
  rewrite <- Zle_Qle. unfold Z.succ in Hq2. lia.
Qed.

Lemma round_half_even_whole (x : Q) (z : Z) :
  (x == inject_Z z)%Q -> round_half_even x = z.
Proof.
  intros E. unfold round_half_even.
  assert (Hf : Qfloor x = z) by (rewrite (Qfloor_comp _ _ E); apply Qfloor_Z).
  cbv zeta. rewrite Hf.
  assert (H : (x - inject_Z z ?= 1 # 2)%Q = Lt).
  { rewrite <- Qlt_alt. revert E. generalize (inject_Z z). intros a E. lra. }
  now rewrite H.
Qed.

Lemma float_round_zero (x : Q) : (x == 0)%Q -> float_round x = 0%Q.
Proof.
  intros E. unfold float_round.
  now rewrite (proj2 (Qeq_bool_iff x 0) E).
Qed.

(** A multiple [m * 2 ^ e] of a power of two with [|m| < 2 ^ 53] is a
    float: rounding leaves it as it is. *)
Lemma float_round_dyadic (x : Q) (m e : Z) :
  Z.abs m < 2 ^ 53 -> (x == inject_Z m * 2 ^ e)%Q -> (float_round x == x)%Q.
Proof.
  intros Hm E. unfold float_round.
  destruct (Qeq_bool x 0) eqn:E0.
  { apply Qeq_bool_iff in E0. now rewrite E0. }
  assert (Hx : ~ (x == 0)%Q).
  { intros H. apply Qeq_bool_iff in H. congruence. }
  pose proof (ilog2_le x Hx) as Hl.
  set (l := ilog2 x) in *. cbv zeta.
  assert (Hle : l - 52 <= e).
  { destruct (Z_le_gt_dec (l - 52) e) as [|Hgt]; [assumption|exfalso].
    assert (H : (2 ^ (53 + e) <= 2 ^ l)%Q)
      by (apply Qpower_le_compat_l; [lia|discriminate]).
    assert (Ha : (Qabs x == inject_Z (Z.abs m) * 2 ^ e)%Q).
    { rewrite E, Qabs_Qmult, (Qabs_pos (2 ^ e))
        by apply Qlt_le_weak, pow2_pos.
      reflexivity. }
    rewrite Ha in Hl.
    assert (Hm' : (inject_Z (Z.abs m) * 2 ^ e < 2 ^ (53 + e))%Q).
    { rewrite Qpower_plus by discriminate.
      apply Qmult_lt_compat_r; [apply pow2_pos|].
      rewrite (pow2_whole 53) by lia. now rewrite <- Zlt_Qlt. }
    eapply Qlt_irrefl, Qlt_le_trans; [exact Hm'|].
    eapply Qle_trans; [exact H|exact Hl]. }
  set (e' := l - 52) in *.
  assert (Hs : (2 ^ e == inject_Z (2 ^ (e - e')) * 2 ^ e')%Q).
  { rewrite <- (pow2_whole (e - e')) by lia.
    rewrite <- Qpower_plus by discriminate.
    replace (e - e' + e') with e by lia. reflexivity. }
  assert (Hne : ~ (2 ^ e' == 0)%Q).
  { intros H. apply (Qlt_irrefl 0). rewrite <- H at 2. apply pow2_pos. }
  rewrite (round_half_even_whole _ (m * 2 ^ (e - e'))).
  - rewrite E, Hs, inject_Z_mult. ring.
  - rewrite E, Hs, inject_Z_mult. field. exact Hne.
Qed.

(** A whole number below [2 ^ 53] is a float. *)
Lemma float_round_whole (x : Q) (z : Z) :
  Z.abs z < 2 ^ 53 -> (x == inject_Z z)%Q -> (float_round x == inject_Z z)%Q.
Proof.
  intros Hz E.
  assert (E' : (x == inject_Z z * 2 ^ 0)%Q) by (rewrite E; simpl; ring).
  rewrite (float_round_dyadic x z 0 Hz E'). exact E.
Qed.

(** The difference of two multiples of the same power of two is exact
    when it is below [2 ^ 53] of these units: so it is for two clock
    readings of the same binade. *)
Lemma float_sub_exact (x y : Q) (a b e : Z) :
  (x == inject_Z a * 2 ^ e)%Q -> (y == inject_Z b * 2 ^ e)%Q ->
  Z.abs (a - b) < 2 ^ 53 ->
  (float_sub x y == x - y)%Q.
Proof.
  intros Hx Hy H. unfold float_sub.
  apply (float_round_dyadic _ (a - b) e H).
  rewrite Hx, Hy. unfold Zminus. rewrite inject_Z_plus, inject_Z_opp. ring.
Qed.

Lemma int_of_float_comp (x y : Q) :
  (x == y)%Q -> Py.int_of_float x = Py.int_of_float y.
Proof.
  intros E. unfold Py.int_of_float.
  rewrite (Qfloor_comp _ _ E), (Qceiling_comp _ _ E).
  destruct (Qle_bool 0 x) eqn:Hx, (Qle_bool 0 y) eqn:Hy; try reflexivity;
    exfalso.
  - apply Qle_bool_iff in Hx. rewrite E in Hx. apply Qle_bool_iff in Hx.
    congruence.
  - apply Qle_bool_iff in Hy. rewrite <- E in Hy. apply Qle_bool_iff in Hy.
    congruence.
Qed.

Lemma int_of_float_nonneg (x : Q) :
  (0 <= x)%Q -> Py.int_of_float x = Qfloor x.
Proof.
  intros H. unfold Py.int_of_float.
  now rewrite (proj2 (Qle_bool_iff 0 x) H).
Qed.

Lemma int_of_float_whole (z : Z) : Py.int_of_float (inject_Z z) = z.
Proof.
  unfold Py.int_of_float.
  destruct (Qle_bool 0 (inject_Z z)); [apply Qfloor_Z|apply Qceiling_Z].
Qed.

Lemma Qlt_bool_false (x y : Q) : (y <= x)%Q -> Qlt_bool x y = false.
Proof.
  intros H. unfold Qlt_bool. now rewrite (proj2 (Qle_bool_iff y x) H).
Qed.

Section Whole_division.

Variables (d : Q) (k : Z).
Hypothesis k_pos : 0 < k.
Hypothesis d_nonneg : (0 <= d)%Q.

Lemma kQ_pos : (0 < inject_Z k)%Q.
Proof. change 0%Q with (inject_Z 0). now rewrite <- Zlt_Qlt. Qed.

(** C's [fmod] of a non-negative [d] by a positive integer. *)
Lemma fmod_whole :
  fmod d (inject_Z k) = (d - inject_Z k * inject_Z (Qfloor d / k))%Q.
Proof.
  unfold fmod. rewrite int_of_float_nonneg.
  - now rewrite Qfloor_div_whole.
  - apply Qle_shift_div_l; [exact kQ_pos|]. now rewrite Qmult_0_l.
Qed.

Lemma fmod_whole_bounds :
  (inject_Z (Qfloor d mod k) <= fmod d (inject_Z k))%Q /\
  (fmod d (inject_Z k) < inject_Z (Qfloor d mod k + 1))%Q.
Proof.
  rewrite fmod_whole.
  destruct (Qfloor_bounds d) as [Hl Hu].
  set (n := Qfloor d) in *.
  pose proof (Z.div_mod n k ltac:(lia)) as Hd.
  assert (Hn : (inject_Z n == inject_Z k * inject_Z (n / k) + inject_Z (n mod k))%Q).
  { rewrite <- inject_Z_mult, <- inject_Z_plus. now rewrite <- Hd. }
  rewrite inject_Z_plus. change (inject_Z 1) with 1%Q.
  revert Hl Hu Hn.
  generalize (inject_Z k * inject_Z (n / k))%Q (inject_Z (n mod k)) (inject_Z n).
  intros b a c Hl Hu Hn. split; lra.
Qed.

Lemma fmod_whole_nonneg : (0 <= fmod d (inject_Z k))%Q.
Proof.
  destruct fmod_whole_bounds as [H _].
  eapply Qle_trans; [|exact H].
  change 0%Q with (inject_Z 0). rewrite <- Zle_Qle.
  apply Z.mod_pos_bound. exact k_pos.
Qed.

(** [d % k]: no correction is needed, the remainder is [fmod]'s. *)
Lemma float_rem_whole :
  (float_rem d (inject_Z k) == fmod d (inject_Z k))%Q.
Proof.
  unfold float_rem. cbv zeta.
  rewrite (Qlt_bool_false (inject_Z k) 0) by (apply Qlt_le_weak, kQ_pos).
  rewrite (Qlt_bool_false (fmod d (inject_Z k)) 0) by apply fmod_whole_nonneg.
  simpl. destruct (Qeq_bool (fmod d (inject_Z k)) 0) eqn:E; simpl.
  - apply Qeq_bool_iff in E. now rewrite E.
  - reflexivity.
Qed.

(** [int(d % k)] is the remainder of the whole part. *)
Lemma int_float_rem_whole :
  Py.int_of_float (float_rem d (inject_Z k)) = Qfloor d mod k.
Proof.
  rewrite (int_of_float_comp _ _ float_rem_whole).
  rewrite int_of_float_nonneg by apply fmod_whole_nonneg.
  destruct fmod_whole_bounds as [Hl Hu].
  now apply Qfloor_unique.
Qed.

(** [d // k] below [2 ^ 53]: every intermediate value is a whole number
    that is a float, and the quotient is that of the whole part. *)
Lemma float_floordiv_whole :
  (d < 2 ^ 53)%Q ->
  (float_floordiv d (inject_Z k) == inject_Z (Qfloor d / k))%Q.
Proof.
  intros Hd.
  assert (Hn : 0 <= Qfloor d < 2 ^ 53).
  { split.
    - rewrite <- (Qfloor_Z 0). now apply Qfloor_resp_le.
    - rewrite Zlt_Qlt, <- (pow2_whole 53) by lia.
      eapply Qle_lt_trans; [apply Qfloor_le|exact Hd]. }
  set (n := Qfloor d) in *.
  assert (Hq : 0 <= n / k /\ k * (n / k) <= n).
  { split; [apply Z.div_pos; lia|apply Z.mul_div_le; lia]. }
  assert (Hq' : n / k <= k * (n / k)) by nia.
  unfold float_floordiv. cbv zeta.
  rewrite (Qlt_bool_false (inject_Z k) 0) by (apply Qlt_le_weak, kQ_pos).
  rewrite (Qlt_bool_false (fmod d (inject_Z k)) 0) by apply fmod_whole_nonneg.
  rewrite fmod_whole. fold n. simpl (Bool.eqb false false).
  rewrite andb_false_r.
  set (m := (d - inject_Z k * inject_Z (n / k))%Q).
  assert (H1 : (float_round (d - m) == inject_Z (k * (n / k)))%Q).
  { apply float_round_whole; [lia|].
    unfold m. rewrite inject_Z_mult. ring. }
  assert (H2 : (float_round (float_round (d - m) / inject_Z k)
                == inject_Z (n / k))%Q).
  { apply float_round_whole; [lia|].
    rewrite H1, inject_Z_mult. field.
    intros H. apply (Qlt_irrefl 0). rewrite <- H at 2. exact kQ_pos. }
  set (div := float_round (float_round (d - m) / inject_Z k)) in *.
  destruct (Qeq_bool div 0) eqn:E; simpl.
  - apply Qeq_bool_iff in E. now rewrite <- H2, E.
  - rewrite (Qfloor_comp _ _ H2), Qfloor_Z.
    rewrite float_round_zero by (rewrite H2; ring).
    reflexivity.
Qed.

End Whole_division.

(** Lines 220-223 for a float difference in the range where every
    intermediate value is exact: the four numbers are those of the
    whole seconds. *)
Lemma humanduration_parts (start_time end_time : Q) :
  (0 <= float_sub end_time start_time)%Q ->
  (float_sub end_time start_time < 2 ^ 53)%Q ->
  humanduration start_time end_time
  = let n := Qfloor (float_sub end_time start_time) in
    duration_text_of (n / 86400) ((n / 3600) mod 24) ((n / 60) mod 60)
      (n mod 60).
Proof.
  intros H0 H1. unfold humanduration, duration_text_of. cbv zeta.
  set (d := float_sub end_time start_time) in *.
  change (86400%Q) with (inject_Z 86400).
  change (3600%Q) with (inject_Z 3600).
  change (60%Q) with (inject_Z 60).
  change (24%Q) with (inject_Z 24).
  assert (Hn : 0 <= Qfloor d)
    by (rewrite <- (Qfloor_Z 0); now apply Qfloor_resp_le).
  assert (Hq : forall k, 0 < k ->
            (0 <= float_floordiv d (inject_Z k))%Q /\
            Qfloor (float_floordiv d (inject_Z k)) = Qfloor d / k).
  { intros k Hk.
    pose proof (float_floordiv_whole d k Hk H0 H1) as E. split.
    - rewrite E. change 0%Q with (inject_Z 0). rewrite <- Zle_Qle.
      apply Z.div_pos; lia.
    - rewrite (Qfloor_comp _ _ E). apply Qfloor_Z. }
  rewrite (int_of_float_comp _ _ (float_floordiv_whole d 86400 ltac:(lia) H0 H1)).
  rewrite int_of_float_whole.
  destruct (Hq 3600 ltac:(lia)) as [P1 Q1].
  destruct (Hq 60 ltac:(lia)) as [P2 Q2].
  rewrite (int_float_rem_whole _ 24 ltac:(lia) P1), Q1.
  rewrite (int_float_rem_whole _ 60 ltac:(lia) P2), Q2.
  rewrite (int_float_rem_whole d 60 ltac:(lia) H0).
  reflexivity.
Qed.

(** X7.  Let [d] be the float [end_time - start_time].  When [d] is not
    negative (and below [2 ^ 53]), [humanduration] shows the whole
    seconds of [d] - the fraction is dropped - split into days, hours
    below 24, minutes and seconds below 60 that add up to them; a part
    that is zero is left out of the text. *)
Theorem humanduration_whole_seconds :
  forall start_time end_time : Q,
    (0 <= float_sub end_time start_time)%Q ->
    (float_sub end_time start_time < 2 ^ 53)%Q ->
    exists days hours minutes seconds : Z,
      humanduration start_time end_time
      = duration_text_of days hours minutes seconds /\
      0 <= days /\ 0 <= hours < 24 /\ 0 <= minutes < 60 /\ 0 <= seconds < 60 /\
      86400 * days + 3600 * hours + 60 * minutes + seconds
      = Qfloor (float_sub end_time start_time).
Proof.
  intros start_time end_time H0 H1.
  rewrite humanduration_parts by assumption. cbv zeta.
  assert (Hn : 0 <= Qfloor (float_sub end_time start_time))
    by (rewrite <- (Qfloor_Z 0); now apply Qfloor_resp_le).
  set (n := Qfloor (float_sub end_time start_time)) in *.
  exists (n / 86400), ((n / 3600) mod 24), ((n / 60) mod 60), (n mod 60).
  split; [reflexivity|].
  repeat split; try (apply Z.mod_pos_bound; lia);
    try (apply Z.div_pos; lia).
  Z.to_euclidean_division_equations. lia.
Qed.

Lemma humanduration_whole_seconds_witness :
  exists days hours minutes seconds : Z,
    humanduration (inject_Z 1000) (187569 # 2)
    = duration_text_of days hours minutes seconds /\
    0 <= days /\ 0 <= hours < 24 /\ 0 <= minutes < 60 /\ 0 <= seconds < 60 /\
    86400 * days + 3600 * hours + 60 * minutes + seconds
    = Qfloor (float_sub (187569 # 2) (inject_Z 1000)).
Proof.
  apply (humanduration_whole_seconds (inject_Z 1000) (187569 # 2)).
  - vm_compute. discriminate.
  - vm_compute. reflexivity.
Defined.

(** X8.  When the float [end_time - start_time] is not negative and
    below one second, the duration reported is the empty text. *)
Theorem humanduration_below_one_second :
  forall start_time end_time : Q,
    (0 <= float_sub end_time start_time)%Q ->
    (float_sub end_time start_time < 1)%Q ->
    humanduration start_time end_time = ""%string.
Proof.
  intros start_time end_time Hl Hu.
  rewrite humanduration_parts;
    [|assumption|eapply Qlt_trans; [exact Hu|reflexivity]].
  cbv zeta.
  replace (Qfloor (float_sub end_time start_time)) with 0; [reflexivity|].
  symmetry. apply Qfloor_unique; assumption.
Qed.

Lemma humanduration_below_one_second_witness :
  humanduration (inject_Z 1000) (2001 # 2) = ""%string.
Proof.
  apply (humanduration_below_one_second (inject_Z 1000) (2001 # 2)).
  - vm_compute. discriminate.
  - vm_compute. reflexivity.
Defined.

(** The subtraction rounds: [1.0 - 2.0 ** -60] is [1.0], and a run
    timed from [2.0 ** -60] to [1.0] reports one second. *)
Example humanduration_rounded_difference :
  (float_sub 1 (1 # 2 ^ 60) == 1)%Q /\
  humanduration (1 # 2 ^ 60) 1 = " 1 sec"%string.
Proof. split; vm_compute; reflexivity. Qed.

(** A clock set back by one second during the run. *)
Example humanduration_clock_set_back :
  humanduration (inject_Z 1000) (inject_Z 999) = " 23 h 59 min 59 sec"%string.
Proof. vm_compute. reflexivity. Qed.

(* ===================================================================== *)
(** ** [humanbytes], [humanstatus] and the e-mail report *)
(* ===================================================================== *)

Lemma round_half_even_nearest (x : Q) :
  (inject_Z (round_half_even x) - (1 # 2) <= x)%Q /\
  (x <= inject_Z (round_half_even x) + (1 # 2))%Q.
Proof.
  unfold round_half_even.
  destruct (Qfloor_bounds x) as [Hl Hu].
  set (f := Qfloor x) in *.
  destruct (Qcompare_spec (x - inject_Z f) (1 # 2)) as [E|L|G].
  - destruct (Z.even f); rewrite ?inject_Z_plus;
      change (inject_Z 1) with 1%Q;
      revert Hl Hu E; generalize (inject_Z f); intros a Hl Hu E; split; lra.
  - revert Hl Hu L; generalize (inject_Z f); intros a Hl Hu L; split; lra.
  - rewrite inject_Z_plus. change (inject_Z 1) with 1%Q.
    revert Hl Hu G; generalize (inject_Z f); intros a Hl Hu G; split; lra.
Qed.

Lemma humanbytes_some (B : Z) : exists text, humanbytes B = Some text.
Proof.
  unfold humanbytes. cbv zeta.
  change (1024 ^ 2) with 1048576.
  change (1024 ^ 3) with 1073741824.
  change (1024 ^ 4) with 1099511627776.
  destruct (B <? 1024) eqn:E1; [eauto|].
  destruct ((1024 <=? B) && (B <? 1048576)) eqn:E2; [eauto|].
  destruct ((1048576 <=? B) && (B <? 1073741824)) eqn:E3; [eauto|].
  destruct ((1073741824 <=? B) && (B <? 1099511627776)) eqn:E4; [eauto|].
  destruct (1099511627776 <=? B) eqn:E5; [eauto|].
  exfalso. apply andb_false_iff in E2, E3, E4.
  rewrite Z.ltb_ge in E1. rewrite Z.leb_gt in E5.
  rewrite Z.leb_gt, Z.ltb_ge in E2, E3, E4. lia.
Qed.

(** X9.  From 1024 bytes on (and below [2 ^ 53], where the float
    arithmetic is exact), [humanbytes] takes the largest of KB, MB, GB
    and TB that is not above the count (TB beyond) and shows the
    quotient with two decimals, the hundredths [h] being the nearest
    integer to a hundred times the quotient; no input is left without a
    text. *)
Theorem humanbytes_nearest_hundredth :
  forall B : Z,
    1024 <= B < 2 ^ 53 ->
    exists (h size : Z) (unit : string),
      In (unit, size)
         [("KB"%string, 1024); ("MB"%string, 1048576);
          ("GB"%string, 1073741824); ("TB"%string, 1099511627776)] /\
      size <= B /\
      (B < 1024 * size \/ unit = "TB"%string) /\
      humanbytes B
      = Some ((Py.str (h / 100) +:+ "." +:+ two_digits (h mod 100))
              +:+ " " +:+ unit) /\
      (inject_Z h - (1 # 2) <= inject_Z B / inject_Z size * 100)%Q /\
      (inject_Z B / inject_Z size * 100 <= inject_Z h + (1 # 2))%Q.
Proof.
  intros B [HB _]. unfold humanbytes. cbv zeta.
  change (1024 ^ 2) with 1048576.
  change (1024 ^ 3) with 1073741824.
  change (1024 ^ 4) with 1099511627776.
  destruct (B <? 1024) eqn:E1; [apply Z.ltb_lt in E1; lia|].
  destruct ((1024 <=? B) && (B <? 1048576)) eqn:E2.
  { apply andb_prop in E2 as [_ E2]. apply Z.ltb_lt in E2.
    exists (round_half_even (inject_Z B / inject_Z 1024 * 100)), 1024,
      "KB"%string.
    repeat split; simpl; auto; try lia;
      apply round_half_even_nearest. }
  assert (H2 : 1048576 <= B).
  { apply andb_false_iff in E2 as [E2|E2];
      [apply Z.leb_gt in E2|apply Z.ltb_ge in E2]; lia. }
  destruct ((1048576 <=? B) && (B <? 1073741824)) eqn:E3.
  { apply andb_prop in E3 as [_ E3]. apply Z.ltb_lt in E3.
    exists (round_half_even (inject_Z B / inject_Z 1048576 * 100)), 1048576,
      "MB"%string.
    repeat split; simpl; auto; try lia;
      apply round_half_even_nearest. }
  assert (H3 : 1073741824 <= B).
  { apply andb_false_iff in E3 as [E3|E3];
      [apply Z.leb_gt in E3|apply Z.ltb_ge in E3]; lia. }
  destruct ((1073741824 <=? B) && (B <? 1099511627776)) eqn:E4.
  { apply andb_prop in E4 as [_ E4]. apply Z.ltb_lt in E4.
    exists (round_half_even (inject_Z B / inject_Z 1073741824 * 100)),
      1073741824, "GB"%string.
    repeat split; simpl; auto; try lia;
      apply round_half_even_nearest. }
  assert (H4 : 1099511627776 <= B).
  { apply andb_false_iff in E4 as [E4|E4];
      [apply Z.leb_gt in E4|apply Z.ltb_ge in E4]; lia. }
  apply Z.leb_le in H4 as E5. rewrite E5.
  exists (round_half_even (inject_Z B / inject_Z 1099511627776 * 100)),
    1099511627776, "TB"%string.
  apply Z.leb_le in E5.
  repeat split; simpl; auto; try lia; apply round_half_even_nearest.
Qed.

Lemma humanbytes_nearest_hundredth_witness :
  exists (h size : Z) (unit : string),
    In (unit, size)
       [("KB"%string, 1024); ("MB"%string, 1048576);
        ("GB"%string, 1073741824); ("TB"%string, 1099511627776)] /\
    size <= 1048575 /\
    (1048575 < 1024 * size \/ unit = "TB"%string) /\
    humanbytes 1048575
    = Some ((Py.str (h / 100) +:+ "." +:+ two_digits (h mod 100))
            +:+ " " +:+ unit) /\
    (inject_Z h - (1 # 2) <= inject_Z 1048575 / inject_Z size * 100)%Q /\
    (inject_Z 1048575 / inject_Z size * 100 <= inject_Z h + (1 # 2))%Q.
Proof.
  apply (humanbytes_nearest_hundredth 1048575). lia.
Defined.

(** One byte short of a megabyte is shown as 1024.00 KB. *)
Example humanbytes_just_below_MB :
  humanbytes 1048575 = Some "1024.00 KB"%string /\
  humanbytes 1152 = Some "1.12 KB"%string /\
  humanbytes 1048576 = Some "1.00 MB"%string.
Proof. vm_compute. repeat split. Qed.

(** X10.  From 0 to 1023 the text is the count written as a float, followed
    by the singular "Byte" whatever the count: the test that would pick
    the plural, [0 == B > 1], never holds. *)
Theorem humanbytes_below_KB :
  forall B : Z,
    0 <= B < 1024 -> humanbytes B = Some (Py.str B +:+ ".0 Byte").
Proof.
  intros B [_ HB]. unfold humanbytes. cbv zeta.
  apply Z.ltb_lt in HB. rewrite HB.
  assert (E : (0 =? B) && (B >? 1) = false).
  { destruct (0 =? B) eqn:E0; [|reflexivity].
    apply Z.eqb_eq in E0. now subst B. }
  rewrite E. reflexivity.
Qed.

Lemma humanbytes_below_KB_witness :
  humanbytes 2 = Some (Py.str 2 +:+ ".0 Byte").
Proof. apply (humanbytes_below_KB 2). lia. Defined.

(** X11.  The e-mail report goes out exactly when it is requested, the
    SMTP exchange succeeds and the run counted no error: with one error
    or more [humanstatus] raises while the subject is built, and the
    report is replaced by "Unable to send email report". *)
Theorem email_report_sent_iff :
  forall (param : gr_param) (smtp_ok : bool)
         (nb_files_download nb_files_error tot_size : Z)
         (duration_text : string),
    (exists subject,
        email_report param smtp_ok nb_files_download nb_files_error tot_size
          duration_text = Sent subject) <->
    log_email param = true /\ smtp_ok = true /\ nb_files_error = 0.
Proof.
  intros param smtp_ok nb_dl nb_err tot dur.
  unfold email_report, email_subject, humanstatus.
  destruct (humanbytes_some tot) as [size Hs]. rewrite Hs.
  destruct (log_email param), smtp_ok, (Z.eqb_spec nb_err 0) as [E|E];
    split;
    try (intros [s H]; discriminate H);
    try (intros (H1 & H2 & H3); congruence);
    try (intros _; repeat split; assumption);
    intros _; eexists; reflexivity.
Qed.

(** With one failed download the report is not sent. *)
Example email_report_with_one_error :
  email_report Sample.mailing_profile true 3 1 4096 " 12 sec" = Unable_to_send /\
  email_report Sample.mailing_profile true 3 0 4096 " 12 sec"
  = Sent "[GRBACKUP] mailing: OK (3 files - 4.00 KB -  12 sec)".
Proof. vm_compute. split; reflexivity. Qed.

(* ===================================================================== *)
(** ** What a configuration file can resolve to *)
(* ===================================================================== *)

Lemma last_answering_in (selected : string) (dflt : gr_param)
  (rest : list fragment) (current : option gr_param) (r : gr_param) :
  last_answering selected dflt rest current = Some r ->
  current = Some r \/
  exists d, In d rest /\ answers_to dflt d = selected /\ r = load dflt d.
Proof.
  revert current. induction rest as [|d rest IH]; intros current H; simpl in H.
  - now left.
  - apply IH in H as [H|(d' & Hin & Ha & Hr)].
    + destruct (String.eqb_spec selected (answers_to dflt d)) as [E|E].
      * right. exists d. split; [now left|]. split; [now symmetry|].
        congruence.
      * now left.
    + right. exists d'. split; [now right|]. auto.
Qed.

Lemma last_answering_some (selected : string) (dflt : gr_param)
  (rest : list fragment) (current : option gr_param) :
  is_Some current -> is_Some (last_answering selected dflt rest current).
Proof.
  revert current. induction rest as [|d rest IH]; intros current H; simpl.
  - exact H.
  - apply IH. destruct (String.eqb selected (answers_to dflt d)); eauto.
Qed.

(** The resolved profile is the default one or the overlay of one later
    document answering to the selector. *)
Lemma load_configuration_cases (cwd selected : string) (d0 : fragment)
  (rest : list fragment) :
  let dflt := load (gr_param_init cwd "default") d0 in
  exists r,
    load_configuration cwd selected (Some (d0 :: rest)) = Ok r /\
    (r = dflt \/
     exists d, In d rest /\ answers_to dflt d = selected /\ r = load dflt d).
Proof.
  cbv zeta. rewrite load_configuration_unfold. cbv zeta.
  set (dflt := load (gr_param_init cwd "default") d0).
  destruct (last_answering_some selected dflt rest (Some dflt)) as [r E];
    [eauto|].
  rewrite E. exists r. split; [reflexivity|].
  apply last_answering_in in E as [E|E]; [left; congruence|now right].
Qed.

(** X12.  An empty configuration file leaves [param] unbound
    ([NameError] at its first use).  Any other file resolves, whatever
    the selector: to the default profile, or to the default profile
    overlaid by exactly one later document, one that answers to the
    selector - documents are never combined - and then the resolved
    profile bears the selected name. *)
Theorem resolution_outcome :
  forall (cwd selected : string) (docs : list fragment),
    match docs with
    | [] => load_configuration cwd selected (Some docs) = Raised Py.NameError
    | d0 :: rest =>
        let dflt := load (gr_param_init cwd "default") d0 in
        exists r,
          load_configuration cwd selected (Some docs) = Ok r /\
          (r = dflt \/
           name r = selected /\ exists d, In d rest /\ r = load dflt d)
    end.
Proof.
  intros cwd selected [|d0 rest]; [reflexivity|].
  destruct (load_configuration_cases cwd selected d0 rest)
    as (r & E & [H|(d & Hin & Ha & Hr)]); cbv zeta.
  - exists r. auto.
  - exists r. split; [exact E|]. right. split; [|eauto].
    subst r. exact Ha.
Qed.

(** X13.  The name of the state file is fixed when [defaultparam] is
    built, from the name "default": unless a document of the file sets
    [last_exec_filename], every profile the file can resolve to - under
    whatever name - uses the same state file, and so the same date of
    last synchronisation. *)
Theorem unset_state_file_is_shared :
  forall (cwd selected : string) (docs : list fragment) (r : gr_param),
    Forall (fun d => data__last_exec_filename d = None) docs ->
    load_configuration cwd selected (Some docs) = Ok r ->
    last_exec_filename r = cwd +:+ "/grbackup_default_last.txt".
Proof.
  intros cwd selected [|d0 rest] r Hall E; [discriminate E|].
  inversion Hall as [|? ? H0 Hrest]; subst.
  destruct (load_configuration_cases cwd selected d0 rest)
    as (r' & E' & H). cbv zeta in *.
  rewrite E in E'. inversion E'; subst r'.
  destruct H as [->|(d & Hin & _ & ->)].
  - unfold load; simpl. now rewrite H0.
  - rewrite List.Forall_forall in Hrest. specialize (Hrest d Hin).
    unfold load; simpl. now rewrite Hrest, H0.
Qed.

Lemma unset_state_file_is_shared_witness :
  last_exec_filename
    (load (load (gr_param_init Scenario.cwd "default") Sample.bare_defaults_doc)
       Scenario.nas_doc)
  = Scenario.cwd +:+ "/grbackup_default_last.txt".
Proof.
  apply (unset_state_file_is_shared Scenario.cwd "nas"
           [Sample.bare_defaults_doc; Scenario.web_doc; Scenario.nas_doc]).
  - repeat constructor.
  - reflexivity.
Defined.

(* ===================================================================== *)
(** ** The local files after one transfer *)
(* ===================================================================== *)

(** X14.  A successful transfer: provided the date can be formatted, the
    rename to the backup path (when a previous version exists) and the
    removal of the backup do not fail and the fetch succeeds, the call
    returns normally and the local files, log files apart, are the
    former ones with the destination holding the fetched content and
    nothing at the backup path - whether the file there was the previous
    version or a file already present.  One download and the size of the
    entry are counted, no error.  To the log files the handlers attached
    append the records of the transfer. *)
Theorem successful_transfer_postcondition :
  forall (env : Env) (param : gr_param) (filetoget : string)
         (filestat : SFTPAttributes) (w : World) (content : string),
    ctime_ok env (st_mtime filestat) = true ->
    rename_fails env (targetfolder param +:+ filetoget)
      ((targetfolder param +:+ filetoget) +:+ ".back") = false ->
    remove_fails env ((targetfolder param +:+ filetoget) +:+ ".back") = false ->
    get env (sourcefolder param +:+ filetoget) = GetOk content ->
    handlers_of param w ->
    exists w',
      transfer env param filetoget filestat w = (Ok tt, w') /\
      agree_outside (log_paths env param)
        (<[targetfolder param +:+ filetoget := content]>
           (delete ((targetfolder param +:+ filetoget) +:+ ".back") (fs w)))
        (fs w') /\
      handlers_appended w w' /\
      nb_files_download w' = nb_files_download w + 1 /\
      tot_size w' = tot_size w + st_size filestat /\
      nb_files_error w' = nb_files_error w.
Proof.
  intros env param filetoget filestat w content Hc Hr Hrm Hg _.
  destruct (transfer_success_clears_backup_path env param filetoget filestat
              Hc w content Hr Hrm Hg) as (w' & E & Hl & Hb & Hd & Hs & He).
  cbv zeta in *.
  exists w'. split; [exact E|].
  split; [|split; [|auto]];
    [|pose proof (handlers_transfer env param filetoget filestat w) as A;
      now rewrite E in A].
  pose proof (frame_transfer env param
                [targetfolder param +:+ filetoget;
                 (targetfolder param +:+ filetoget) +:+ ".back"]
                filetoget filestat ltac:(simpl; auto) ltac:(simpl; auto) w) as F.
  rewrite E in F. simpl in F.
  intros p _.
  destruct (decide (p = targetfolder param +:+ filetoget)) as [->|Hp1].
  - now rewrite Hl, lookup_insert_eq.
  - rewrite lookup_insert_ne by congruence.
    destruct (decide (p = (targetfolder param +:+ filetoget) +:+ ".back"))
      as [->|Hp2].
    + now rewrite Hb, lookup_delete_eq.
    + rewrite lookup_delete_ne by congruence.
      apply F. simpl. intuition congruence.
Qed.

Lemma successful_transfer_postcondition_witness :
  let env := Scenario.dump_ok_env in
  let w := initial_world Scenario.disk_with_dump_back in
  exists w',
    transfer env Scenario.profile "dump" (Scenario.regular 100 4) w
    = (Ok tt, w') /\
    agree_outside (log_paths env Scenario.profile)
      (<["/local/dump"%string := "DUMP"%string]>
         (delete "/local/dump.back"%string (fs w)))
      (fs w') /\
    handlers_appended w w' /\
    nb_files_download w' = nb_files_download w + 1 /\
    tot_size w' = tot_size w + 4 /\
    nb_files_error w' = nb_files_error w.
Proof.
  intros env w.
  apply (successful_transfer_postcondition env Scenario.profile "dump"
           (Scenario.regular 100 4) w "DUMP");
    try reflexivity; split; reflexivity.
Defined.

(** X15.  A failed fetch when no local file bears the name of the entry
    and nothing sits at the backup path: the call returns normally with
    one error counted and no download; the local files, log files
    apart, are the former ones, except that the destination holds
    whatever the interrupted fetch wrote - a partial file is left in
    place.  To the log files the handlers attached append the records of
    the transfer. *)
Theorem failed_fetch_leaves_partial_file :
  forall (env : Env) (param : gr_param) (filetoget : string)
         (filestat : SFTPAttributes) (w : World) (left_behind : option string),
    ctime_ok env (st_mtime filestat) = true ->
    fs w !! (targetfolder param +:+ filetoget) = None ->
    fs w !! ((targetfolder param +:+ filetoget) +:+ ".back") = None ->
    get env (sourcefolder param +:+ filetoget) = GetFails left_behind ->
    handlers_of param w ->
    exists w',
      transfer env param filetoget filestat w = (Ok tt, w') /\
      agree_outside (log_paths env param)
        match left_behind with
        | Some partial =>
            <[targetfolder param +:+ filetoget := partial]> (fs w)
        | None => fs w
        end
        (fs w') /\
      handlers_appended w w' /\
      nb_files_error w' = nb_files_error w + 1 /\
      nb_files_download w' = nb_files_download w.
Proof.
  intros env param filetoget filestat w left_behind Hc Hf Hb Hg _.
  destruct (transfer_fetch_fails_without_backup env param filetoget filestat
              Hc w left_behind Hf Hb Hg) as (w' & E & Hl & He & Hd).
  cbv zeta in *.
  exists w'. split; [exact E|].
  split; [|split; [|auto]];
    [|pose proof (handlers_transfer env param filetoget filestat w) as A;
      now rewrite E in A].
  pose proof (frame_transfer env param
                [targetfolder param +:+ filetoget;
                 (targetfolder param +:+ filetoget) +:+ ".back"]
                filetoget filestat ltac:(simpl; auto) ltac:(simpl; auto) w) as F.
  rewrite E in F. simpl in F.
  assert (Hbk : fs w' !! ((targetfolder param +:+ filetoget) +:+ ".back")
                = None).
  { clear F. revert E.
    unfold transfer, bind, time_ctime, logger, os_path_isfile, when, try,
      os_rename, sftp_get, count_error, logger_debuginfo, raise, exit, ret.
    pose proof (backup_path_differs (targetfolder param +:+ filetoget)) as Hne.
    repeat (progress (rewrite ?Hc, ?Hf, ?Hg; simpl)).
    destruct left_behind as [partial|]; simpl.
    - rewrite lookup_insert_ne by congruence. rewrite Hb. simpl.
      intros E. inversion E; subst w'. simpl.
      rewrite lookup_insert_ne by congruence. exact Hb.
    - rewrite Hb. simpl. intros E. inversion E; subst w'. exact Hb. }
  intros p _.
  destruct (decide (p = targetfolder param +:+ filetoget)) as [->|Hp1].
  - rewrite Hl. destruct left_behind; [now rewrite lookup_insert_eq|].
    now rewrite Hf.
  - destruct (decide (p = (targetfolder param +:+ filetoget) +:+ ".back"))
      as [->|Hp2].
    + rewrite Hbk. destruct left_behind;
        [rewrite lookup_insert_ne by congruence|]; now rewrite Hb.
    + rewrite (F p) by (simpl; intuition congruence).
      destruct left_behind; [now rewrite lookup_insert_ne by congruence|].
      reflexivity.
Qed.

Lemma failed_fetch_leaves_partial_file_witness :
  let env := Scenario.broken_fetch_env in
  let w := initial_world ∅ in
  exists w',
    transfer env Scenario.profile "fileA" (Scenario.regular 100 5) w
    = (Ok tt, w') /\
    agree_outside (log_paths env Scenario.profile)
      (<["/local/fileA"%string := "AAA"%string]> (fs w)) (fs w') /\
    handlers_appended w w' /\
    nb_files_error w' = nb_files_error w + 1 /\
    nb_files_download w' = nb_files_download w.
Proof.
  intros env w.
  apply (failed_fetch_leaves_partial_file env Scenario.profile "fileA"
           (Scenario.regular 100 5) w (Some "AAA"%string));
    try reflexivity; split; reflexivity.
Defined.

(** X16.  Before the loop starts - whether the run gets that far or
    stops while reading the date, connecting or listing - no local file
    other than the log files has been written, the file handlers
    attached have appended the records logged to the log files, the
    counters are zero and no fetch has been made. *)
Theorem nothing_written_before_loop :
  forall (env : Env) (param : gr_param) (w : World),
    handlers_of param w ->
    same_outside (log_paths env param) w (prologue env param w).2 /\
    handlers_appended w (prologue env param w).2 /\
    nb_files_download (prologue env param w).2 = 0 /\
    nb_files_error (prologue env param w).2 = 0 /\
    tot_size (prologue env param w).2 = 0 /\
    fetches (prologue env param w).2 = fetches w.
Proof.
  intros env param w _.
  destruct (prologue_nothing_moved env param w) as (F & D & E & S & G).
  simpl in *. split; [now apply same_outside_same_fs|].
  split; [apply handlers_prologue|].
  repeat split; auto. now apply fetches_same_calls.
Qed.

Lemma nothing_written_before_loop_witness :
  let env := Sample.unlistable_env in
  let param := Sample.logging_profile in
  let w := add_handlers param (initial_world Scenario.disk_with_A) in
  same_outside (log_paths env param) w (prologue env param w).2 /\
  handlers_appended w (prologue env param w).2 /\
  nb_files_download (prologue env param w).2 = 0 /\
  nb_files_error (prologue env param w).2 = 0 /\
  tot_size (prologue env param w).2 = 0 /\
  fetches (prologue env param w).2 = fetches w.
Proof.
  intros env param w.
  apply (nothing_written_before_loop env param w).
  split; reflexivity.
Defined.

(** X17.  A failure while closing the connection is logged and nothing
    more: the run still goes on to save the date and to report. *)
Theorem close_failure_is_not_fatal :
  forall (env : Env) (param : gr_param) (start : Q) (w1 : World),
    close_ok env = false ->
    exists rep w2,
      epilogue env param start w1 = (Ok rep, w2) /\
      In (ERROR, Unable_to_close) (log w2) /\
      In (DEBUG, Save_date_last_download) (log w2) /\
      (open_w_fails env (last_exec_filename param) = false ->
       write_fails env (last_exec_filename param) = false ->
       fs w2 !! last_exec_filename param
       = Some (Py.str (Py.int_of_float (clock env (ticks w1))))).
Proof.
  intros env param start w1 Hc.
  unfold epilogue, close_connection, save_last_sync, finish, bind, try,
    logger, sftp_close, open_w, time_time, write_close, ret.
  simpl. rewrite Hc.
  destruct (open_w_fails env (last_exec_filename param)),
    (write_fails env (last_exec_filename param)); simpl;
    eexists _, _; (split; [reflexivity|]); simpl;
    rewrite ?in_app_iff; simpl;
    (split; [tauto|]); (split; [tauto|]);
    try (intros; discriminate).
  intros _ _. rewrite insert_insert_eq. apply lookup_insert_eq.
Qed.

Lemma close_failure_is_not_fatal_witness :
  let env := Sample.unclosable_env in
  let w1 := initial_world Scenario.disk_with_A in
  exists rep w2,
    epilogue env Scenario.profile (inject_Z 990) w1 = (Ok rep, w2) /\
    In (ERROR, Unable_to_close) (log w2) /\
    In (DEBUG, Save_date_last_download) (log w2) /\
    (open_w_fails env (last_exec_filename Scenario.profile) = false ->
     write_fails env (last_exec_filename Scenario.profile) = false ->
     fs w2 !! last_exec_filename Scenario.profile
     = Some (Py.str (Py.int_of_float (clock env (ticks w1))))).
Proof.
  intros env w1.
  apply (close_failure_is_not_fatal env Scenario.profile (inject_Z 990) w1).
  reflexivity.
Defined.

(* ===================================================================== *)
(** ** A state file that cannot be used *)
(* ===================================================================== *)

Lemma run_stops_at_get_last_sync (env : Env) (param : gr_param) (w w' : World) :
  (get_last_sync env param (with_tick (with_counters 0 0 0 w)) = (Exited, w') ->
   run env param w = (Exited, w')) /\
  (forall e,
      get_last_sync env param (with_tick (with_counters 0 0 0 w))
      = (Raised e, w') ->
      run env param w = (Raised e, w')).
Proof.
  split; [intros E|intros e E];
    unfold run, prologue, bind, time_time; now rewrite E.
Qed.

(** The state file exists and cannot be read: [except IOError]. *)
Lemma get_last_sync_unreadable (env : Env) (param : gr_param) (w : World)
  (text : string) :
  fs w !! last_exec_filename param = Some text ->
  read_fails env (last_exec_filename param) = true ->
  get_last_sync env param w
  = (Exited,
     add_logs [(DEBUG, Get_date_last_download);
               (ERROR, Unable_to_read_date (last_exec_filename param));
               (INFO, END)] w).
Proof.
  intros Hf Hr.
  unfold get_last_sync, open_read, os_path_isfile, logger, try, raise, exit,
    ret, bind.
  rewrite bool_decide_eq_true_2 by eauto.
  cbv beta. cbn [fs with_log]. rewrite Hf, Hr.
  f_equal. unfold with_log, add_logs; cbn [fs nb_files_download nb_files_error
    tot_size log ticks remote_calls fh eh].
  now rewrite <- !app_assoc, !emit_emit.
Qed.

(** The state file holds an integer that [time.ctime] does not format:
    the exception leaves the [else] clause uncaught. *)
Lemma get_last_sync_unformattable (env : Env) (param : gr_param) (w : World)
  (text : string) (n : Z) :
  fs w !! last_exec_filename param = Some text ->
  read_fails env (last_exec_filename param) = false ->
  int_of_text env text = Some n ->
  ctime_ok env n = false ->
  get_last_sync env param w
  = (Raised (ctime_exn env n), with_log (DEBUG, Get_date_last_download) w).
Proof.
  intros Hf Hr Hint Hc.
  unfold get_last_sync, open_read, os_path_isfile, logger, try, raise, exit,
    ret, bind, time_ctime.
  rewrite bool_decide_eq_true_2 by eauto.
  cbv beta. cbn [fs with_log]. rewrite Hf, Hr, Hint, Hc. reflexivity.
Qed.

(** X18.  A state file that exists and cannot be read ends the run
    through [exit()], with the error and "[END]" in the log: no call is
    made on the remote session and no local file other than the log
    files changes; to these the file handlers attached append the three
    records. *)
Theorem unreadable_state_file_exits :
  forall (env : Env) (param : gr_param) (w : World) (text : string),
    fs w !! last_exec_filename param = Some text ->
    read_fails env (last_exec_filename param) = true ->
    handlers_of param w ->
    exists w',
      run env param w = (Exited, w') /\
      same_outside (log_paths env param) w w' /\
      handlers_appended w w' /\
      remote_calls w' = remote_calls w /\
      log w' = log w ++ [(DEBUG, Get_date_last_download);
                         (ERROR, Unable_to_read_date (last_exec_filename param));
                         (INFO, END)].
Proof.
  intros env param w text Hf Hr _.
  eexists. split.
  - apply run_stops_at_get_last_sync.
    apply (get_last_sync_unreadable env param _ text); assumption.
  - split; [now apply same_outside_same_fs|].
    repeat split. eexists. repeat split.
Qed.

Lemma unreadable_state_file_exits_witness :
  let env := Sample.unreadable_env in
  let param := Sample.logging_profile in
  let w := add_handlers param (initial_world Scenario.disk_with_A) in
  exists w',
    run env param w = (Exited, w') /\
    same_outside (log_paths env param) w w' /\
    handlers_appended w w' /\
    remote_calls w' = remote_calls w /\
    log w' = log w ++ [(DEBUG, Get_date_last_download);
                       (ERROR, Unable_to_read_date (last_exec_filename param));
                       (INFO, END)].
Proof.
  intros env param w.
  apply (unreadable_state_file_exits env param w "50").
  - vm_compute. reflexivity.
  - reflexivity.
  - split; reflexivity.
Defined.

(** X19.  A state file holding (within the digit limit of [int]) an
    integer that [time.ctime] cannot format ends the run with the
    exception [time.ctime] raises while the message "Date last download"
    is built, in the [else] clause that no [except] covers: no call is
    made on the remote session and no local file other than the log
    files changes; to these the file handlers attached append the record
    "Get date last download". *)
Theorem unformattable_date_ends_run :
  forall (env : Env) (param : gr_param) (w : World) (text : string) (n : Z),
    fs w !! last_exec_filename param = Some text ->
    read_fails env (last_exec_filename param) = false ->
    (String.length text <=? Py.int_max_str_digits)%nat = true ->
    int_of_text env text = Some n ->
    ctime_ok env n = false ->
    handlers_of param w ->
    exists w',
      run env param w = (Raised (ctime_exn env n), w') /\
      same_outside (log_paths env param) w w' /\
      handlers_appended w w' /\
      remote_calls w' = remote_calls w.
Proof.
  intros env param w text n Hf Hr _ Hint Hc _.
  eexists. split.
  - apply run_stops_at_get_last_sync.
    apply (get_last_sync_unformattable env param _ text); assumption.
  - split; [now apply same_outside_same_fs|].
    repeat split. exists [(DEBUG, Get_date_last_download)]. repeat split.
Qed.

Lemma unformattable_date_ends_run_witness :
  let env := Scenario.healthy_env in
  let w := initial_world Sample.disk_far_future in
  exists w',
    run env Scenario.profile w
    = (Raised (ctime_exn env 1000000000000000000000000000000), w') /\
    same_outside (log_paths env Scenario.profile) w w' /\
    handlers_appended w w' /\
    remote_calls w' = remote_calls w.
Proof.
  intros env w.
  apply (unformattable_date_ends_run env Scenario.profile w
           "1000000000000000000000000000000"
           1000000000000000000000000000000).
  - vm_compute. reflexivity.
  - reflexivity.
  - reflexivity.
  - vm_compute. reflexivity.
  - reflexivity.
  - split; reflexivity.
Defined.

(* ===================================================================== *)
(** ** Reading the date of the last synchronisation *)
(* ===================================================================== *)




